(** * mini_bank: the transaction processing engine

    A shallow embedding of the domain layer (Money, the identifiers, the
    Account and Transaction entities with their status state machines), of
    the persistence model (the conversions between entities and rows) and
    of the transaction use case (confirmation with its idempotency cache
    and lock, cancellation, reading, validation, the three processing
    algorithms), followed by the properties established about them.

    Go packages are rendered as modules of the same name.  A method with a
    pointer receiver that returns [error] becomes a function returning the
    receiver after the call together with the returned error ([None] for
    [nil]). *)

From stdpp Require Import gmap strings list fin_maps.
From Stdlib Require Import ZArith Lia Ascii String.

Local Open Scope string_scope.
Local Open Scope Z_scope.

(** Wall-clock instants ([time.Time]) are carried as a number of nanoseconds. *)
Definition Time := Z.

(* ===================================================================== *)
(** ** package errs (internal/domain/error/error.go) *)
(* ===================================================================== *)
Module errs.

Inductive Error : Type :=
  (* Transaction errors *)
  | ErrInvalidTransactionAmount
  | ErrMissingAccountID
  | ErrSameAccountTransfer
  | ErrInvalidTransactionStatus
  | ErrTransactionAlreadyInProgress
  | ErrTransactionNotFound
  | ErrTransactionCannotBeConfirmed
  | ErrTransactionCannotBeCancelled
  (* Account errors *)
  | ErrAccountNotFound
  | ErrInsufficientBalance
  | ErrAccountAlreadyExists
  | ErrAccountCannotTransact
  (* General errors *)
  | ErrInvalidInput
  | ErrUnauthorized
  | ErrInternalError
  (* Validation errors *)
  | ErrInvalidAccountID
  | ErrInvalidTransactionID
  | ErrUnsupportedType
  (* Custom error types *)
  | ValidationError (Field Message : string)
  | BusinessError (Code Message : string)
  (* [fmt.Errorf] with a single [%w] verb: the text before the wrapped
     error, the wrapped error, the text after it. *)
  | Errorf (before : string) (wrapped : Error) (after : string)
  (* An error raised by a collaborator (cache backend). *)
  | ErrInfra (text : string).

#[global] Instance Error_eq_dec : EqDecision Error.
Proof. solve_decision. Defined.

(** [errors.Is]: [target] is [err] itself or is reached by unwrapping. *)
Fixpoint Is (err target : Error) : bool :=
  if bool_decide (err = target) then true
  else match err with
       | Errorf _ wrapped _ => Is wrapped target
       | _ => false
       end.

End errs.
Export errs.

(* ===================================================================== *)
(** ** Arbitrary-precision decimals *)
(* ===================================================================== *)
Module decimal.

(** Modelled from the spec: the decimal type behind Money ("arbitrary-
    precision decimal value type", "exact base-10 arithmetic (no binary
    float)", add and subtract "always defined, including negative
    results").  The library that implements it is not part of the
    repository; a decimal is a coefficient and a base-10 exponent, denoting
    [value * 10 ^ exp], and two decimals are brought to the smaller of their
    exponents before they are added, subtracted or compared. *)
Record Decimal : Type := mkDecimal { value : Z; exp : Z }.

#[global] Instance Decimal_eq_dec : EqDecision Decimal.
Proof. solve_decision. Defined.

Definition Zero : Decimal := mkDecimal 0 0.

Definition rescale (d : Decimal) (e : Z) : Decimal :=
  if exp d =? e then d
  else
    let diff := Z.abs (e - exp d) in
    let expScale := 10 ^ diff in
    if e >? exp d then mkDecimal (Z.quot (value d) expScale) e
    else mkDecimal (value d * expScale) e.

Definition RescalePair (d1 d2 : Decimal) : Decimal * Decimal :=
  if exp d1 <? exp d2 then (d1, rescale d2 (exp d1))
  else if exp d1 >? exp d2 then (rescale d1 (exp d2), d2)
  else (d1, d2).

Definition Add (d d2 : Decimal) : Decimal :=
  let '(rd, rd2) := RescalePair d d2 in
  mkDecimal (value rd + value rd2) (exp rd).

Definition Sub (d d2 : Decimal) : Decimal :=
  let '(rd, rd2) := RescalePair d d2 in
  mkDecimal (value rd - value rd2) (exp rd).

Definition Sign (d : Decimal) : Z := Z.sgn (value d).

Definition IsZero (d : Decimal) : bool := Sign d =? 0.
Definition IsPositive (d : Decimal) : bool := Sign d =? 1.
Definition IsNegative (d : Decimal) : bool := Sign d =? -1.

Definition Cmp (d d2 : Decimal) : comparison :=
  if exp d =? exp d2 then value d ?= value d2
  else let '(rd, rd2) := RescalePair d d2 in value rd ?= value rd2.

Definition Equal (d d2 : Decimal) : bool :=
  match Cmp d d2 with Eq => true | _ => false end.

(** Modelled from the spec: the remaining operations of the decimal type
    that Money forwards to ("sign predicates", "compare, equals", "absolute
    value"), over the same representation: the absolute value of a decimal
    that is not negative is the decimal itself, otherwise its coefficient
    loses its sign; the four order tests read the result of [Cmp]. *)
Definition Abs (d : Decimal) : Decimal :=
  if negb (IsNegative d) then d else mkDecimal (Z.abs (value d)) (exp d).

Definition GreaterThan (d d2 : Decimal) : bool :=
  match Cmp d d2 with Gt => true | _ => false end.

Definition GreaterThanOrEqual (d d2 : Decimal) : bool :=
  match Cmp d d2 with Gt | Eq => true | Lt => false end.

Definition LessThan (d d2 : Decimal) : bool :=
  match Cmp d d2 with Lt => true | _ => false end.

Definition LessThanOrEqual (d d2 : Decimal) : bool :=
  match Cmp d d2 with Lt | Eq => true | Gt => false end.

End decimal.

(* ===================================================================== *)
(** ** The Go runtime *)
(* ===================================================================== *)

(** Functions of the Go runtime library and of the decimal library that the
    repository calls and that are not modelled further:
    [strings.TrimSpace]; whether [time.Parse layout value] succeeds; the
    rendering of a decimal as a float64, the float64 being carried as its
    64-bit pattern. *)
Definition float64 := Z.

Class GoRuntime : Type := {
  strings_TrimSpace : string -> string;
  time_Parse_ok : string -> string -> bool;
  decimal_InexactFloat64 : decimal.Decimal -> float64
}.

(** [strconv.ParseInt s 10 64], as far as its success is concerned: an
    optional sign, then one or more decimal digits, the number fitting in 64
    signed bits. *)
Module strconv.

Definition isDigit (c : ascii) : bool :=
  ((48 <=? nat_of_ascii c) && (nat_of_ascii c <=? 57))%nat.

Fixpoint digitsValue (acc : Z) (s : string) : option Z :=
  match s with
  | EmptyString => Some acc
  | String c rest =>
      if isDigit c
      then digitsValue (10 * acc + (Z.of_nat (nat_of_ascii c) - 48)) rest
      else None
  end.

Definition ParseInt10_64 (s : string) : option Z :=
  let '(neg, body) :=
    match s with
    | String "+"%char rest => (false, rest)
    | String "-"%char rest => (true, rest)
    | _ => (false, s)
    end in
  match body with
  | EmptyString => None
  | _ =>
      match digitsValue 0 body with
      | None => None
      | Some n =>
          let v := if neg then - n else n in
          if (- 2 ^ 63 <=? v) && (v <=? 2 ^ 63 - 1) then Some v else None
      end
  end.

End strconv.

(** [fmt.Sprintf] with the verb [%0<width>d] on a number that is not
    negative: its decimal digits, padded on the left with zeros up to
    [width] characters. *)
Module fmt.

Definition digit (n : Z) : ascii := ascii_of_nat (48 + Z.to_nat n).

(** The decimal digits of [n], least significant first; [fuel] bounds their
    number. *)
Fixpoint digitsRev (fuel : nat) (n : Z) : list ascii :=
  match fuel with
  | O => []
  | S fuel' =>
      if n <? 10 then [digit n]
      else digit (n mod 10) :: digitsRev fuel' (n / 10)
  end.

Definition decimalDigits (n : Z) : list ascii :=
  rev (digitsRev (S (Z.to_nat (Z.log2 n))) n).

Definition SprintfPadded (width : nat) (n : Z) : string :=
  let digits := decimalDigits n in
  string_of_list_ascii
    (List.repeat "0"%char (width - List.length digits) ++ digits)%list.

End fmt.

(* ===================================================================== *)
(** ** package vo (internal/domain/vo) *)
(* ===================================================================== *)
Module vo.

(** *** money.go *)

Record Money : Type := mkMoney { amount : decimal.Decimal }.

#[global] Instance Money_eq_dec : EqDecision Money.
Proof. solve_decision. Defined.

Definition NewMoney (amount : decimal.Decimal) : Money := mkMoney amount.
Definition NewMoneyFromInt (amount : Z) : Money :=
  NewMoney (decimal.mkDecimal amount 0).
Definition ZeroMoney : Money := NewMoney decimal.Zero.

Definition Amount (m : Money) : decimal.Decimal := amount m.

Definition IsZero (m : Money) : bool := decimal.IsZero (amount m).
Definition IsPositive (m : Money) : bool := decimal.IsPositive (amount m).
Definition IsNegative (m : Money) : bool := decimal.IsNegative (amount m).

Definition Add (m other : Money) : Money * option Error :=
  (mkMoney (decimal.Add (amount m) (amount other)), None).

Definition Subtract (m other : Money) : Money * option Error :=
  (mkMoney (decimal.Sub (amount m) (amount other)), None).

Definition Equal (m other : Money) : bool :=
  decimal.Equal (amount m) (amount other).

Definition Abs (m : Money) : Money := mkMoney (decimal.Abs (amount m)).

Definition GreaterThan (m other : Money) : bool :=
  decimal.GreaterThan (amount m) (amount other).

Definition GreaterThanOrEqual (m other : Money) : bool :=
  decimal.GreaterThanOrEqual (amount m) (amount other).

Definition LessThan (m other : Money) : bool :=
  decimal.LessThan (amount m) (amount other).

Definition LessThanOrEqual (m other : Money) : bool :=
  decimal.LessThanOrEqual (amount m) (amount other).

(** *** account_status.go *)

Definition AccountStatus := string.

Definition AccountStatusActive : AccountStatus := "ACTIVE".
Definition AccountStatusInactive : AccountStatus := "INACTIVE".
Definition AccountStatusSuspended : AccountStatus := "SUSPENDED".

Module AccountStatus.

Definition IsValid (s : AccountStatus) : bool :=
  String.eqb s AccountStatusActive
  || String.eqb s AccountStatusInactive
  || String.eqb s AccountStatusSuspended.

Definition IsActive (s : AccountStatus) : bool :=
  String.eqb s AccountStatusActive.

Definition CanTransact (s : AccountStatus) : bool :=
  String.eqb s AccountStatusActive.

Definition CanTransitionTo (s target : AccountStatus) : bool :=
  if String.eqb s AccountStatusActive then
    String.eqb target AccountStatusInactive
    || String.eqb target AccountStatusSuspended
  else if String.eqb s AccountStatusInactive then
    String.eqb target AccountStatusActive
    || String.eqb target AccountStatusSuspended
  else if String.eqb s AccountStatusSuspended then
    String.eqb target AccountStatusActive
    || String.eqb target AccountStatusInactive
  else false.

End AccountStatus.

(** *** transaction_status.go *)

Definition TransactionStatus := string.

Definition TransactionStatusPending : TransactionStatus := "PENDING".
Definition TransactionStatusCompleted : TransactionStatus := "COMPLETED".
Definition TransactionStatusFailed : TransactionStatus := "FAILED".
Definition TransactionStatusCancelled : TransactionStatus := "CANCELLED".

Module TransactionStatus.

Definition IsValid (s : TransactionStatus) : bool :=
  String.eqb s TransactionStatusPending
  || String.eqb s TransactionStatusCompleted
  || String.eqb s TransactionStatusFailed
  || String.eqb s TransactionStatusCancelled.

Definition IsPending (s : TransactionStatus) : bool :=
  String.eqb s TransactionStatusPending.

Definition IsCompleted (s : TransactionStatus) : bool :=
  String.eqb s TransactionStatusCompleted.

Definition IsFailed (s : TransactionStatus) : bool :=
  String.eqb s TransactionStatusFailed.

Definition IsCancelled (s : TransactionStatus) : bool :=
  String.eqb s TransactionStatusCancelled.

Definition CanTransitionTo (s target : TransactionStatus) : bool :=
  if String.eqb s TransactionStatusPending then
    String.eqb target TransactionStatusCompleted
    || String.eqb target TransactionStatusFailed
    || String.eqb target TransactionStatusCancelled
  else if String.eqb s TransactionStatusCompleted then
    false
  else if String.eqb s TransactionStatusFailed then
    String.eqb target TransactionStatusCancelled
  else if String.eqb s TransactionStatusCancelled then
    false
  else false.

End TransactionStatus.

(** *** transaction_types.go *)

Definition TransactionType := string.

Definition TransactionTypeDebit : TransactionType := "DEBIT".
Definition TransactionTypeCredit : TransactionType := "CREDIT".
Definition TransactionTypeTransfer : TransactionType := "TRANSFER".

(** *** account_id.go, transaction_id.go *)

Record AccountID : Type := mkAccountID { account_id_value : string }.
Record TransactionID : Type := mkTransactionID { transaction_id_value : string }.

#[global] Instance AccountID_eq_dec : EqDecision AccountID.
Proof. solve_decision. Defined.
#[global] Instance TransactionID_eq_dec : EqDecision TransactionID.
Proof. solve_decision. Defined.

Module AccountID.
Definition String (id : AccountID) : string := account_id_value id.
Definition IsEmpty (id : AccountID) : bool := String.eqb (account_id_value id) "".
End AccountID.

Module TransactionID.
Definition String (id : TransactionID) : string := transaction_id_value id.
Definition IsEmpty (id : TransactionID) : bool :=
  String.eqb (transaction_id_value id) "".
End TransactionID.

(** validateTransactionID and NewTransactionIDFromString
    (transaction_id.go). *)
Section Validation.
Context `{!GoRuntime}.

Definition validateTransactionID (id : string) : option Error :=
  if String.eqb id "" then Some ErrInvalidTransactionID
  else if negb (String.prefix "TXN" id) then Some ErrInvalidTransactionID
  else if (String.length id <? 23)%nat then Some ErrInvalidTransactionID
  else if (17 <=? String.length id)%nat
          && negb (time_Parse_ok "20060102150405" (String.substring 3 14 id))
       then Some ErrInvalidTransactionID
  else if (17 <? String.length id)%nat
          && negb (bool_decide (is_Some
               (strconv.ParseInt10_64
                  (String.substring 17 (String.length id - 17) id))))
       then Some ErrInvalidTransactionID
  else None.

Definition NewTransactionIDFromString (id : string) : Error + TransactionID :=
  match validateTransactionID id with
  | Some err => inl err
  | None => inr (mkTransactionID id)
  end.

(** validateAccountID and NewAccountIDFromString (account_id.go). *)
Definition validateAccountID (id : string) : option Error :=
  if String.eqb id "" then Some ErrInvalidAccountID
  else if negb (String.length id =? 16)%nat then Some ErrInvalidAccountID
  else if negb (bool_decide (is_Some (strconv.ParseInt10_64 id)))
       then Some ErrInvalidAccountID
  else if (String.length id <? 8)%nat then Some ErrInvalidAccountID
  else if negb (time_Parse_ok "20060102" (String.substring 0 8 id))
       then Some ErrInvalidAccountID
  else None.

Definition NewAccountIDFromString (id : string) : Error + AccountID :=
  match validateAccountID id with
  | Some err => inl err
  | None => inr (mkAccountID id)
  end.

(** The generators.  [timestamp] and [datePrefix] are what [now.Format]
    returned and [n] is the number [rand.Int] drew below its bound. *)
Definition NewTransactionID (timestamp : string) (n : Z) : TransactionID :=
  let suffix := fmt.SprintfPadded 6 n in
  mkTransactionID ("TXN" ++ timestamp ++ suffix).

Definition NewAccountID (datePrefix : string) (n : Z) : AccountID :=
  let sequence := fmt.SprintfPadded 8 n in
  mkAccountID (datePrefix ++ sequence).

Definition TransactionID_IsValid (id : TransactionID) : bool :=
  bool_decide (validateTransactionID (transaction_id_value id) = None).

Definition AccountID_IsValid (id : AccountID) : bool :=
  bool_decide (validateAccountID (account_id_value id) = None).

End Validation.

End vo.

(* ===================================================================== *)
(** ** package entity (internal/domain/entity) *)
(* ===================================================================== *)
Module entity.

(** *** account.go *)
Module Account.

Record t : Type := mk {
  ID : vo.AccountID;
  AccountName : string;
  Balance : vo.Money;
  Status : vo.AccountStatus;
  CreatedAt : Time;
  UpdatedAt : Time
}.

(** In the methods below [now] is the instant [time.Now()] returns when the
    method reaches it; a method that fails never reads it. *)

Definition Debit (now : Time) (amount : vo.Money) (a : t) : t * option Error :=
  if vo.IsZero amount || negb (vo.IsPositive amount) then
    (a, Some ErrInvalidTransactionAmount)
  else
    match vo.Subtract (Balance a) amount with
    | (_, Some err) => (a, Some err)
    | (newBalance, None) =>
        if decimal.IsNegative (vo.Amount newBalance) then
          (a, Some ErrInsufficientBalance)
        else
          ({| ID := ID a; AccountName := AccountName a;
              Balance := newBalance; Status := Status a;
              CreatedAt := CreatedAt a; UpdatedAt := now |}, None)
    end.

Definition Credit (now : Time) (amount : vo.Money) (a : t) : t * option Error :=
  if vo.IsZero amount || negb (vo.IsPositive amount) then
    (a, Some ErrInvalidTransactionAmount)
  else
    match vo.Add (Balance a) amount with
    | (_, Some err) => (a, Some err)
    | (newBalance, None) =>
        ({| ID := ID a; AccountName := AccountName a;
            Balance := newBalance; Status := Status a;
            CreatedAt := CreatedAt a; UpdatedAt := now |}, None)
    end.

Definition SetStatus (now : Time) (status : vo.AccountStatus) (a : t)
  : t * option Error :=
  if negb (vo.AccountStatus.IsValid status) then
    (a, Some (ValidationError "status" ("invalid account status: " ++ status)))
  else if negb (vo.AccountStatus.CanTransitionTo (Status a) status) then
    (a, Some (BusinessError "INVALID_STATUS_TRANSITION"
                ("cannot transition from " ++ Status a ++ " to " ++ status)))
  else
    ({| ID := ID a; AccountName := AccountName a; Balance := Balance a;
        Status := status; CreatedAt := CreatedAt a; UpdatedAt := now |}, None).

Definition Suspend (now : Time) (a : t) : t * option Error :=
  if negb (vo.AccountStatus.CanTransitionTo (Status a) vo.AccountStatusSuspended)
  then (a, Some (BusinessError "INVALID_STATUS_TRANSITION"
                   ("cannot suspend account with current status: " ++ Status a)))
  else
    ({| ID := ID a; AccountName := AccountName a; Balance := Balance a;
        Status := vo.AccountStatusSuspended;
        CreatedAt := CreatedAt a; UpdatedAt := now |}, None).

Definition Activate (now : Time) (a : t) : t * option Error :=
  if negb (vo.AccountStatus.CanTransitionTo (Status a) vo.AccountStatusActive)
  then (a, Some (BusinessError "INVALID_STATUS_TRANSITION"
                   ("cannot activate account with current status: " ++ Status a)))
  else
    ({| ID := ID a; AccountName := AccountName a; Balance := Balance a;
        Status := vo.AccountStatusActive;
        CreatedAt := CreatedAt a; UpdatedAt := now |}, None).

Definition Deactivate (now : Time) (a : t) : t * option Error :=
  if negb (vo.AccountStatus.CanTransitionTo (Status a) vo.AccountStatusInactive)
  then (a, Some (BusinessError "INVALID_STATUS_TRANSITION"
                   ("cannot deactivate account with current status: " ++ Status a)))
  else
    ({| ID := ID a; AccountName := AccountName a; Balance := Balance a;
        Status := vo.AccountStatusInactive;
        CreatedAt := CreatedAt a; UpdatedAt := now |}, None).

Definition IsActive (a : t) : bool := vo.AccountStatus.IsActive (Status a).
Definition CanTransact (a : t) : bool := vo.AccountStatus.CanTransact (Status a).

End Account.

(** *** transaction.go *)
Module Transaction.

Record t : Type := mk {
  ID : vo.TransactionID;
  FromAccountID : option vo.AccountID;
  ToAccountID : option vo.AccountID;
  TransactionType : vo.TransactionType;
  Amount : vo.Money;
  Description : string;
  Reference : string;
  Status : vo.TransactionStatus;
  CreatedAt : Time;
  CompletedAt : option Time
}.

Definition withStatus (s : vo.TransactionStatus) (c : option Time) (x : t) : t :=
  {| ID := ID x; FromAccountID := FromAccountID x; ToAccountID := ToAccountID x;
     TransactionType := TransactionType x; Amount := Amount x;
     Description := Description x; Reference := Reference x;
     Status := s; CreatedAt := CreatedAt x; CompletedAt := c |}.

Definition MarkAsCompleted (now : Time) (x : t) : t * option Error :=
  if negb (vo.TransactionStatus.CanTransitionTo (Status x) vo.TransactionStatusCompleted)
  then (x, Some (BusinessError "INVALID_STATUS_TRANSITION"
                   ("cannot transition from " ++ Status x ++ " to COMPLETED")))
  else (withStatus vo.TransactionStatusCompleted (Some now) x, None).

Definition MarkAsFailed (x : t) : t * option Error :=
  if negb (vo.TransactionStatus.CanTransitionTo (Status x) vo.TransactionStatusFailed)
  then (x, Some (BusinessError "INVALID_STATUS_TRANSITION"
                   ("cannot transition from " ++ Status x ++ " to FAILED")))
  else (withStatus vo.TransactionStatusFailed (CompletedAt x) x, None).

Definition MarkAsCancelled (x : t) : t * option Error :=
  if negb (vo.TransactionStatus.CanTransitionTo (Status x) vo.TransactionStatusCancelled)
  then (x, Some (BusinessError "INVALID_STATUS_TRANSITION"
                   ("cannot transition from " ++ Status x ++ " to CANCELLED")))
  else (withStatus vo.TransactionStatusCancelled (CompletedAt x) x, None).

Definition SetStatus (now : Time) (status : vo.TransactionStatus) (x : t)
  : t * option Error :=
  if negb (vo.TransactionStatus.IsValid status) then
    (x, Some (ValidationError "status" ("invalid transaction status: " ++ status)))
  else if negb (vo.TransactionStatus.CanTransitionTo (Status x) status) then
    (x, Some (BusinessError "INVALID_STATUS_TRANSITION"
                ("cannot transition from " ++ Status x ++ " to " ++ status)))
  else if vo.TransactionStatus.IsCompleted status then
    (withStatus status (Some now) x, None)
  else
    (withStatus status (CompletedAt x) x, None).

End Transaction.

(** The creation factories.  [id] is the identifier [vo.NewTransactionID()]
    returned and [now] the instant [time.Now()] returned. *)
Section Factories.
Context `{!GoRuntime}.

Definition NewDebitTransaction (id : vo.TransactionID) (now : Time)
    (fromAccountID : vo.AccountID) (amount : vo.Money)
    (description reference : string) : Error + Transaction.t :=
  if vo.AccountID.IsEmpty fromAccountID then
    inl (ValidationError "fromAccountID"
           "from account ID is required for debit transaction")
  else if vo.IsZero amount then inl ErrInvalidTransactionAmount
  else
    inr {| Transaction.ID := id;
           Transaction.FromAccountID := Some fromAccountID;
           Transaction.ToAccountID := None;
           Transaction.TransactionType := vo.TransactionTypeDebit;
           Transaction.Amount := amount;
           Transaction.Description := strings_TrimSpace description;
           Transaction.Reference := strings_TrimSpace reference;
           Transaction.Status := vo.TransactionStatusPending;
           Transaction.CreatedAt := now;
           Transaction.CompletedAt := None |}.

Definition NewCreditTransaction (id : vo.TransactionID) (now : Time)
    (toAccountID : vo.AccountID) (amount : vo.Money)
    (description reference : string) : Error + Transaction.t :=
  if vo.AccountID.IsEmpty toAccountID then
    inl (ValidationError "toAccountID"
           "to account ID is required for credit transaction")
  else if vo.IsZero amount then inl ErrInvalidTransactionAmount
  else
    inr {| Transaction.ID := id;
           Transaction.FromAccountID := None;
           Transaction.ToAccountID := Some toAccountID;
           Transaction.TransactionType := vo.TransactionTypeCredit;
           Transaction.Amount := amount;
           Transaction.Description := strings_TrimSpace description;
           Transaction.Reference := strings_TrimSpace reference;
           Transaction.Status := vo.TransactionStatusPending;
           Transaction.CreatedAt := now;
           Transaction.CompletedAt := None |}.

Definition NewTransferTransaction (id : vo.TransactionID) (now : Time)
    (fromAccountID toAccountID : vo.AccountID) (amount : vo.Money)
    (description reference : string) : Error + Transaction.t :=
  if vo.AccountID.IsEmpty fromAccountID then
    inl (ValidationError "fromAccountID"
           "from account ID is required for transfer transaction")
  else if vo.AccountID.IsEmpty toAccountID then
    inl (ValidationError "toAccountID"
           "to account ID is required for transfer transaction")
  else if String.eqb (vo.AccountID.String fromAccountID)
                     (vo.AccountID.String toAccountID) then
    inl ErrSameAccountTransfer
  else if vo.IsZero amount then inl ErrInvalidTransactionAmount
  else
    inr {| Transaction.ID := id;
           Transaction.FromAccountID := Some fromAccountID;
           Transaction.ToAccountID := Some toAccountID;
           Transaction.TransactionType := vo.TransactionTypeTransfer;
           Transaction.Amount := amount;
           Transaction.Description := strings_TrimSpace description;
           Transaction.Reference := strings_TrimSpace reference;
           Transaction.Status := vo.TransactionStatusPending;
           Transaction.CreatedAt := now;
           Transaction.CompletedAt := None |}.

(** NewAccount; [id] is the identifier [vo.NewAccountID()] returned. *)
Definition NewAccount (id : vo.AccountID) (now : Time)
    (accountName : string) (initialBalance : vo.Money) : Error + Account.t :=
  if String.eqb (strings_TrimSpace accountName) "" then
    inl (ValidationError "accountName" "account name is required")
  else
    inr {| Account.ID := id;
           Account.AccountName := strings_TrimSpace accountName;
           Account.Balance := initialBalance;
           Account.Status := vo.AccountStatusActive;
           Account.CreatedAt := now;
           Account.UpdatedAt := now |}.

End Factories.
End entity.

(* ===================================================================== *)
(** ** package dto (internal/application/dto) *)
(* ===================================================================== *)
Module dto.

Module TransactionResponse.
Record t : Type := mk {
  ID : string;
  FromAccountID : option string;
  ToAccountID : option string;
  TransactionType : string;
  Amount : float64;
  Description : string;
  Reference : string;
  Status : string;
  CreatedAt : Time;
  CompletedAt : option Time
}.
End TransactionResponse.

Module ConfirmTransactionRequest.
Record t : Type := mk { ID : string }.
End ConfirmTransactionRequest.

Module CancelTransactionRequest.
Record t : Type := mk { ID : string }.
End CancelTransactionRequest.

Module TransactionMapper.
Section Mapper.
Context `{!GoRuntime}.
Import entity.

Definition ToResponse (transaction : Transaction.t) : TransactionResponse.t :=
  {| TransactionResponse.ID := vo.TransactionID.String (Transaction.ID transaction);
     TransactionResponse.FromAccountID :=
       match Transaction.FromAccountID transaction with
       | Some fromID => Some (vo.AccountID.String fromID)
       | None => None
       end;
     TransactionResponse.ToAccountID :=
       match Transaction.ToAccountID transaction with
       | Some toID => Some (vo.AccountID.String toID)
       | None => None
       end;
     TransactionResponse.TransactionType := Transaction.TransactionType transaction;
     TransactionResponse.Amount :=
       decimal_InexactFloat64 (vo.Amount (Transaction.Amount transaction));
     TransactionResponse.Description := Transaction.Description transaction;
     TransactionResponse.Reference := Transaction.Reference transaction;
     TransactionResponse.Status := Transaction.Status transaction;
     TransactionResponse.CreatedAt := Transaction.CreatedAt transaction;
     TransactionResponse.CompletedAt := Transaction.CompletedAt transaction |}.

End Mapper.
End TransactionMapper.

End dto.

(* ===================================================================== *)
(** ** package model (internal/adapter/repository/gorm/model) *)
(* ===================================================================== *)

(** [gorm.Model], the struct the gorm library has every model embed: the
    primary key and the three bookkeeping timestamps. *)
Module gorm.
Record Model : Type := mkModel {
  ID : Z;
  CreatedAt : Time;
  UpdatedAt : Time;
  DeletedAt : option Time
}.
End gorm.

Module model.

(** The zero value [time.Time{}], which a field left out of a composite
    literal holds. *)
Definition zeroTime : Time := 0.

(** The model structs embed [gorm.Model] and declare timestamps of their
    own under the same names; a selector such as [t.CreatedAt] denotes the
    field the struct declares itself, the embedded one being reached through
    [t.Model] only. *)

(** *** transaction_model.go *)
Module Transaction.
Record t : Type := mk {
  Model : gorm.Model;
  TransactionID : string;
  FromAccountID : option string;
  ToAccountID : option string;
  TransactionType : string;
  Amount : decimal.Decimal;
  Description : string;
  Reference : string;
  Status : string;
  CreatedAt : Time;
  CompletedAt : option Time
}.
End Transaction.

(** *** account_model.go *)
Module Account.
Record t : Type := mk {
  Model : gorm.Model;
  AccountID : string;
  AccountName : string;
  Balance : decimal.Decimal;
  Status : string;
  CreatedAt : Time;
  UpdatedAt : Time
}.
End Account.

Section Conversions.
Context `{!GoRuntime}.

(** ToDomainTransaction converts GORM model to domain entity. *)
Definition ToDomainTransaction (t : Transaction.t)
  : Error + entity.Transaction.t :=
  match vo.NewTransactionIDFromString (Transaction.TransactionID t) with
  | inl err => inl err
  | inr transactionID =>
      let fromParsed : Error + option vo.AccountID :=
        match Transaction.FromAccountID t with
        | Some s =>
            match vo.NewAccountIDFromString s with
            | inl err => inl err
            | inr fromID => inr (Some fromID)
            end
        | None => inr None
        end in
      match fromParsed with
      | inl err => inl err
      | inr fromAccountID =>
          let toParsed : Error + option vo.AccountID :=
            match Transaction.ToAccountID t with
            | Some s =>
                match vo.NewAccountIDFromString s with
                | inl err => inl err
                | inr toID => inr (Some toID)
                end
            | None => inr None
            end in
          match toParsed with
          | inl err => inl err
          | inr toAccountID =>
              inr {| entity.Transaction.ID := transactionID;
                     entity.Transaction.FromAccountID := fromAccountID;
                     entity.Transaction.ToAccountID := toAccountID;
                     entity.Transaction.TransactionType :=
                       Transaction.TransactionType t;
                     entity.Transaction.Amount := vo.NewMoney (Transaction.Amount t);
                     entity.Transaction.Description := Transaction.Description t;
                     entity.Transaction.Reference := Transaction.Reference t;
                     entity.Transaction.Status := Transaction.Status t;
                     entity.Transaction.CreatedAt := Transaction.CreatedAt t;
                     entity.Transaction.CompletedAt := Transaction.CompletedAt t |}
          end
      end
  end.

(** ToDomainAccount converts GORM model to domain entity. *)
Definition ToDomainAccount (a : Account.t) : Error + entity.Account.t :=
  match vo.NewAccountIDFromString (Account.AccountID a) with
  | inl err => inl err
  | inr accountID =>
      inr {| entity.Account.ID := accountID;
             entity.Account.AccountName := Account.AccountName a;
             entity.Account.Balance := vo.NewMoney (Account.Balance a);
             entity.Account.Status := Account.Status a;
             entity.Account.CreatedAt := Account.CreatedAt a;
             entity.Account.UpdatedAt := Account.UpdatedAt a |}
  end.

End Conversions.

Definition optionString (id : option vo.AccountID) : option string :=
  match id with
  | Some accountID => Some (vo.AccountID.String accountID)
  | None => None
  end.

(** FromDomainTransaction converts domain entity to GORM model.  The
    literal sets the embedded [Model.CreatedAt]; the struct's own
    [CreatedAt] is not among its fields. *)
Definition FromDomainTransaction (domainTransaction : entity.Transaction.t)
  : Transaction.t :=
  {| Transaction.Model :=
       {| gorm.ID := 0;
          gorm.CreatedAt := entity.Transaction.CreatedAt domainTransaction;
          gorm.UpdatedAt := zeroTime;
          gorm.DeletedAt := None |};
     Transaction.TransactionID :=
       vo.TransactionID.String (entity.Transaction.ID domainTransaction);
     Transaction.FromAccountID :=
       optionString (entity.Transaction.FromAccountID domainTransaction);
     Transaction.ToAccountID :=
       optionString (entity.Transaction.ToAccountID domainTransaction);
     Transaction.TransactionType :=
       entity.Transaction.TransactionType domainTransaction;
     Transaction.Amount := vo.Amount (entity.Transaction.Amount domainTransaction);
     Transaction.Description := entity.Transaction.Description domainTransaction;
     Transaction.Reference := entity.Transaction.Reference domainTransaction;
     Transaction.Status := entity.Transaction.Status domainTransaction;
     Transaction.CreatedAt := zeroTime;
     Transaction.CompletedAt := entity.Transaction.CompletedAt domainTransaction |}.

(** UpdateFromDomain updates the GORM model with domain entity data.  The
    struct declares no [UpdatedAt] of its own, so [t.UpdatedAt] is the
    embedded field; [now] is the instant [time.Now()] returned. *)
Definition UpdateTransactionFromDomain (now : Time) (t : Transaction.t)
    (domainTransaction : entity.Transaction.t) : Transaction.t :=
  {| Transaction.Model :=
       {| gorm.ID := gorm.ID (Transaction.Model t);
          gorm.CreatedAt := gorm.CreatedAt (Transaction.Model t);
          gorm.UpdatedAt := now;
          gorm.DeletedAt := gorm.DeletedAt (Transaction.Model t) |};
     Transaction.TransactionID :=
       vo.TransactionID.String (entity.Transaction.ID domainTransaction);
     Transaction.FromAccountID :=
       optionString (entity.Transaction.FromAccountID domainTransaction);
     Transaction.ToAccountID :=
       optionString (entity.Transaction.ToAccountID domainTransaction);
     Transaction.TransactionType :=
       entity.Transaction.TransactionType domainTransaction;
     Transaction.Amount := vo.Amount (entity.Transaction.Amount domainTransaction);
     Transaction.Description := entity.Transaction.Description domainTransaction;
     Transaction.Reference := entity.Transaction.Reference domainTransaction;
     Transaction.Status := entity.Transaction.Status domainTransaction;
     Transaction.CreatedAt := Transaction.CreatedAt t;
     Transaction.CompletedAt := entity.Transaction.CompletedAt domainTransaction |}.

(** FromDomainAccount converts domain entity to GORM model.  Both
    timestamps go to the embedded [Model]; the struct's own [CreatedAt] and
    [UpdatedAt] are not among the fields of the literal. *)
Definition FromDomainAccount (domainAccount : entity.Account.t) : Account.t :=
  {| Account.Model :=
       {| gorm.ID := 0;
          gorm.CreatedAt := entity.Account.CreatedAt domainAccount;
          gorm.UpdatedAt := entity.Account.UpdatedAt domainAccount;
          gorm.DeletedAt := None |};
     Account.AccountID := vo.AccountID.String (entity.Account.ID domainAccount);
     Account.AccountName := entity.Account.AccountName domainAccount;
     Account.Balance := vo.Amount (entity.Account.Balance domainAccount);
     Account.Status := entity.Account.Status domainAccount;
     Account.CreatedAt := zeroTime;
     Account.UpdatedAt := zeroTime |}.

(** UpdateFromDomain updates the GORM model with domain entity data;
    [a.UpdatedAt] is the field the struct declares itself. *)
Definition UpdateAccountFromDomain (a : Account.t)
    (domainAccount : entity.Account.t) : Account.t :=
  {| Account.Model := Account.Model a;
     Account.AccountID := vo.AccountID.String (entity.Account.ID domainAccount);
     Account.AccountName := entity.Account.AccountName domainAccount;
     Account.Balance := vo.Amount (entity.Account.Balance domainAccount);
     Account.Status := entity.Account.Status domainAccount;
     Account.CreatedAt := Account.CreatedAt a;
     Account.UpdatedAt := entity.Account.UpdatedAt domainAccount |}.

End model.

(* ===================================================================== *)
(** ** The collaborators: repositories, cache, clock *)
(* ===================================================================== *)
Module infra.
Import entity.

(** What the cache holds under a key: a lock token (the string
    ["lock_<n>"], carried as the instant [n]) or a transaction response. *)
Inductive CacheValue : Type :=
  | CachedLock (stamp : Time)
  | CachedTransaction (r : dto.TransactionResponse.t).

(** The calls the use case makes on its collaborators (the methods of
    [repository.TransactionRepository], [repository.AccountRepository] and
    [infra.CacheService] that it uses, and [time.Now]).  Logging has no
    effect on any state and is left out.  Durations are in nanoseconds. *)
Inductive Call : Type :=
  | TimeNow
  | CacheGet (key : string)
  | CacheSet (key : string) (value : CacheValue) (expiration : Z)
  | CacheDelete (key : string)
  | TransactionGetByID (id : vo.TransactionID)
  | TransactionUpdate (transaction : Transaction.t)
  | AccountGetByID (id : vo.AccountID)
  | AccountUpdate (account : Account.t).

Definition Result (c : Call) : Type :=
  match c with
  | TimeNow => Time
  | CacheGet _ => (Error + CacheValue)%type
  | CacheSet _ _ _ => option Error
  | CacheDelete _ => option Error
  | TransactionGetByID _ => (Error + Transaction.t)%type
  | TransactionUpdate _ => option Error
  | AccountGetByID _ => (Error + Account.t)%type
  | AccountUpdate _ => option Error
  end.

(** A use-case function is a tree of calls: it returns, or makes a call and
    continues with its result. *)
Inductive Prog (A : Type) : Type :=
  | Ret (a : A)
  | Do (c : Call) (k : Result c -> Prog A).
Arguments Ret {A} a.
Arguments Do {A} c k.

Fixpoint bind {A B : Type} (m : Prog A) (f : A -> Prog B) : Prog B :=
  match m with
  | Ret a => f a
  | Do c k => Do c (fun r => bind (k r) f)
  end.

#[global] Instance Prog_ret : MRet Prog := @Ret.
#[global] Instance Prog_bind : MBind Prog := fun A B f m => bind m f.

Definition call (c : Call) : Prog (Result c) := Do c Ret.

(** Modelled from the spec: the collaborators of section 6, whose
    implementations are not part of the core.  AccountStore and
    TransactionStore: "GetByID(id) -> record | NotFound", "Update(record) ->
    ok | NotFound"; the cache: "Get(key) -> value | miss", "Set(key, value,
    ttl) -> ok", "Delete(key) -> ok"; and, from section 7, the cache may be
    unavailable, in which case the call fails and changes nothing.
    [cacheFaults] scripts the coming cache calls ([true]: that call fails;
    when the script is exhausted every call succeeds); [clock] gives the
    reading of each successive [time.Now()]; expiry of cache entries is not
    modelled.  [journal] is a ghost record of the repository and cache calls
    made so far, most recent first. *)
Record World : Type := mkWorld {
  transactions : gmap string Transaction.t;
  accounts : gmap string Account.t;
  cache : gmap string CacheValue;
  cacheFaults : list bool;
  clock : nat -> Time;
  ticks : nat;
  journal : list Call
}.

Definition ErrCacheUnavailable : Error := ErrInfra "cache unavailable".
Definition ErrCacheMiss : Error := ErrInfra "cache: key not found".

(** The state after a repository or cache call [c] was made: the stores and
    the fault script as given, the call recorded. *)
Definition after (c : Call) (w : World)
    (transactions' : gmap string Transaction.t)
    (accounts' : gmap string Account.t)
    (cache' : gmap string CacheValue)
    (cacheFaults' : list bool) : World :=
  {| transactions := transactions'; accounts := accounts'; cache := cache';
     cacheFaults := cacheFaults'; clock := clock w; ticks := ticks w;
     journal := c :: journal w |}.

Definition cacheFails (w : World) : bool :=
  match cacheFaults w with
  | fault :: _ => fault
  | [] => false
  end.

Definition perform (c : Call) (w : World) : Result c * World :=
  match c as c0 return Result c0 * World with
  | TimeNow =>
      (clock w (ticks w),
       {| transactions := transactions w; accounts := accounts w;
          cache := cache w; cacheFaults := cacheFaults w; clock := clock w;
          ticks := S (ticks w); journal := journal w |})
  | CacheGet key =>
      let w' := after (CacheGet key) w (transactions w) (accounts w) (cache w)
                      (tail (cacheFaults w)) in
      if cacheFails w then (inl ErrCacheUnavailable, w')
      else match cache w !! key with
           | Some v => (inr v, w')
           | None => (inl ErrCacheMiss, w')
           end
  | CacheSet key value expiration =>
      if cacheFails w then
        (Some ErrCacheUnavailable,
         after (CacheSet key value expiration) w (transactions w) (accounts w)
               (cache w) (tail (cacheFaults w)))
      else
        (None,
         after (CacheSet key value expiration) w (transactions w) (accounts w)
               (<[key := value]> (cache w)) (tail (cacheFaults w)))
  | CacheDelete key =>
      if cacheFails w then
        (Some ErrCacheUnavailable,
         after (CacheDelete key) w (transactions w) (accounts w)
               (cache w) (tail (cacheFaults w)))
      else
        (None,
         after (CacheDelete key) w (transactions w) (accounts w)
               (delete key (cache w)) (tail (cacheFaults w)))
  | TransactionGetByID id =>
      let w' := after (TransactionGetByID id) w (transactions w) (accounts w)
                      (cache w) (cacheFaults w) in
      match transactions w !! vo.TransactionID.String id with
      | Some transaction => (inr transaction, w')
      | None => (inl ErrTransactionNotFound, w')
      end
  | TransactionUpdate transaction =>
      let key := vo.TransactionID.String (Transaction.ID transaction) in
      match transactions w !! key with
      | Some _ =>
          (None,
           after (TransactionUpdate transaction) w
                 (<[key := transaction]> (transactions w)) (accounts w)
                 (cache w) (cacheFaults w))
      | None =>
          (Some ErrTransactionNotFound,
           after (TransactionUpdate transaction) w (transactions w) (accounts w)
                 (cache w) (cacheFaults w))
      end
  | AccountGetByID id =>
      let w' := after (AccountGetByID id) w (transactions w) (accounts w)
                      (cache w) (cacheFaults w) in
      match accounts w !! vo.AccountID.String id with
      | Some account => (inr account, w')
      | None => (inl ErrAccountNotFound, w')
      end
  | AccountUpdate account =>
      let key := vo.AccountID.String (Account.ID account) in
      match accounts w !! key with
      | Some _ =>
          (None,
           after (AccountUpdate account) w (transactions w)
                 (<[key := account]> (accounts w)) (cache w) (cacheFaults w))
      | None =>
          (Some ErrAccountNotFound,
           after (AccountUpdate account) w (transactions w) (accounts w)
                 (cache w) (cacheFaults w))
      end
  end.

(** Running a program to completion when nothing else runs. *)
Fixpoint run {A : Type} (p : Prog A) (w : World) : A * World :=
  match p with
  | Ret a => (a, w)
  | Do c k => let '(r, w') := perform c w in run (k r) w'
  end.

(** Which recorded calls touch an account, and which persist one. *)
Definition touchesAccount (c : Call) : bool :=
  match c with
  | AccountGetByID _ | AccountUpdate _ => true
  | _ => false
  end.

Definition persistsAccount (c : Call) : bool :=
  match c with
  | AccountUpdate _ => true
  | _ => false
  end.

(** The calls made between the state [w] and the later state [w'] all
    satisfy [ok]. *)
Definition callsBetween (ok : Call -> bool) (w w' : World) : Prop :=
  exists calls : list Call,
    journal w' = (calls ++ journal w)%list /\ forallb ok calls = true.

Definition leavesAccountsAlone (c : Call) : bool := negb (touchesAccount c).

(** Several invocations in progress at once.  A call on a collaborator is
    the unit of interleaving: what an invocation computes between two calls
    is local to it.  [step] lets a program make its next call; [schedule]
    names, call after call, the invocation that moves. *)
Definition step {A : Type} (p : Prog A) (w : World) : Prog A * World :=
  match p with
  | Ret a => (Ret a, w)
  | Do c k => let '(r, w') := perform c w in (k r, w')
  end.

Fixpoint interleave {A : Type} (schedule : list nat) (threads : list (Prog A))
    (w : World) : list (Prog A) * World :=
  match schedule with
  | [] => (threads, w)
  | i :: rest =>
      match threads !! i with
      | Some p =>
          let '(p', w') := step p w in
          interleave rest (<[i := p']> threads) w'
      | None => interleave rest threads w
      end
  end.

End infra.

(* ===================================================================== *)
(** ** package usecase (internal/application/transaction.go) *)
(* ===================================================================== *)
Module usecase.
Import entity infra.

Definition Second : Z := 1000000000.
Definition Minute : Z := 60 * Second.
Definition Hour : Z := 60 * Minute.

Section UseCase.
Context `{!GoRuntime}.

(** Where the source calls an entity method that stamps a timestamp
    ([Debit], [Credit], [MarkAsCompleted]), the clock is read just before
    the call and the reading is handed to the method; when the method fails
    the reading goes unused. *)

(** [uc.cache.Get(ctx, key, &dest)] with a [dto.TransactionResponse]
    destination: a value of another shape cannot be decoded into it. *)
Definition cacheGetTransactionResponse (key : string)
  : Prog (Error + dto.TransactionResponse.t) :=
  r ← call (CacheGet key);
  mret (match r with
        | inl err => inl err
        | inr (CachedTransaction resp) => inr resp
        | inr (CachedLock _) => inl (ErrInfra "cache: cannot decode value")
        end).

(** acquireDistributedLock acquires a distributed lock using the cache. *)
Definition acquireDistributedLock (key : string) (expiration : Z)
  : Prog (bool * option Error) :=
  now ← call TimeNow;
  let lockValue := CachedLock now in
  err ← call (CacheSet key lockValue expiration);
  match err with
  | Some e => mret (false, Some e)
  | None => mret (true, None)
  end.

(** releaseLock releases a distributed lock. *)
Definition releaseLock (key : string) : Prog (option Error) :=
  call (CacheDelete key).

(** invalidateAccountCaches invalidates account caches after balance changes. *)
Definition invalidateAccountCaches (transaction : Transaction.t) : Prog unit :=
  _ ← match Transaction.FromAccountID transaction with
      | Some fromID =>
          _ ← call (CacheDelete ("account:" ++ vo.AccountID.String fromID));
          mret tt
      | None => mret tt
      end;
  match Transaction.ToAccountID transaction with
  | Some toID =>
      _ ← call (CacheDelete ("account:" ++ vo.AccountID.String toID));
      mret tt
  | None => mret tt
  end.

(** processDebitTransaction processes a debit transaction. *)
Definition processDebitTransaction (transaction : Transaction.t)
  : Prog (option Error) :=
  match Transaction.FromAccountID transaction with
  | None => mret (Some ErrMissingAccountID)
  | Some fromID =>
      r ← call (AccountGetByID fromID);
      match r with
      | inl _ => mret (Some ErrAccountNotFound)
      | inr account =>
          if negb (Account.CanTransact account) then
            mret (Some ErrAccountCannotTransact)
          else
            now ← call TimeNow;
            match Account.Debit now (Transaction.Amount transaction) account with
            | (_, Some err) => mret (Some err)
            | (account', None) => call (AccountUpdate account')
            end
      end
  end.

(** processCreditTransaction processes a credit transaction. *)
Definition processCreditTransaction (transaction : Transaction.t)
  : Prog (option Error) :=
  match Transaction.ToAccountID transaction with
  | None => mret (Some ErrMissingAccountID)
  | Some toID =>
      r ← call (AccountGetByID toID);
      match r with
      | inl _ => mret (Some ErrAccountNotFound)
      | inr account =>
          if negb (Account.CanTransact account) then
            mret (Some ErrAccountCannotTransact)
          else
            now ← call TimeNow;
            match Account.Credit now (Transaction.Amount transaction) account with
            | (_, Some err) => mret (Some err)
            | (account', None) => call (AccountUpdate account')
            end
      end
  end.

(** The two in-memory mutations of processTransferTransaction (the debit of
    the source, the credit of the destination and the rollback between
    them), returning the error together with the two account objects as the
    function leaves them. *)
Definition transferMutations (amount : vo.Money)
    (fromAccount toAccount : Account.t)
  : Prog (option Error * Account.t * Account.t) :=
  now ← call TimeNow;
  match Account.Debit now amount fromAccount with
  | (fromAccount', Some err) =>
      mret (Some (Errorf "failed to debit from account: " err ""),
            fromAccount', toAccount)
  | (fromAccount', None) =>
      now' ← call TimeNow;
      match Account.Credit now' amount toAccount with
      | (toAccount', Some err) =>
          (* Rollback the debit if credit fails; error ignored *)
          now'' ← call TimeNow;
          let '(fromAccount'', _) := Account.Credit now'' amount fromAccount' in
          mret (Some (Errorf "failed to credit to account: " err ""),
                fromAccount'', toAccount')
      | (toAccount', None) => mret (None, fromAccount', toAccount')
      end
  end.

(** processTransferTransaction processes a transfer transaction. *)
Definition processTransferTransaction (transaction : Transaction.t)
  : Prog (option Error) :=
  match Transaction.FromAccountID transaction, Transaction.ToAccountID transaction with
  | Some fromID, Some toID =>
      r ← call (AccountGetByID fromID);
      match r with
      | inl _ => mret (Some ErrAccountNotFound)
      | inr fromAccount =>
          r' ← call (AccountGetByID toID);
          match r' with
          | inl _ => mret (Some ErrAccountNotFound)
          | inr toAccount =>
              if negb (Account.CanTransact fromAccount) then
                mret (Some ErrAccountCannotTransact)
              else if negb (Account.CanTransact toAccount) then
                mret (Some ErrAccountCannotTransact)
              else
                '(err, fromAccount', toAccount') ←
                  transferMutations (Transaction.Amount transaction)
                                    fromAccount toAccount;
                match err with
                | Some e => mret (Some e)
                | None =>
                    err1 ← call (AccountUpdate fromAccount');
                    match err1 with
                    | Some e =>
                        mret (Some (Errorf "failed to update from account: " e ""))
                    | None =>
                        err2 ← call (AccountUpdate toAccount');
                        match err2 with
                        | Some e =>
                            mret (Some (Errorf "failed to update to account: " e ""))
                        | None => mret None
                        end
                    end
                end
          end
      end
  | _, _ => mret (Some ErrMissingAccountID)
  end.

(** processTransaction executes the actual transaction logic. *)
Definition processTransaction (transaction : Transaction.t) : Prog (option Error) :=
  let ty := Transaction.TransactionType transaction in
  if String.eqb ty vo.TransactionTypeDebit then processDebitTransaction transaction
  else if String.eqb ty vo.TransactionTypeCredit then processCreditTransaction transaction
  else if String.eqb ty vo.TransactionTypeTransfer then processTransferTransaction transaction
  else mret (Some (Errorf "" ErrUnsupportedType (" : " ++ ty))).

(** The part of ConfirmTransaction that runs while the lock is held: from
    the reload of the transaction to the return. *)
Definition confirmLocked (reqID : string) (transactionID : vo.TransactionID)
    (idempotencyKey : string) : Prog (Error + dto.TransactionResponse.t) :=
  r ← call (TransactionGetByID transactionID);
  match r with
  | inl _ => mret (inl ErrTransactionNotFound)
  | inr transaction =>
      if vo.TransactionStatus.IsCompleted (Transaction.Status transaction) then
        let response := dto.TransactionMapper.ToResponse transaction in
        _ ← call (CacheSet idempotencyKey (CachedTransaction response) (24 * Hour));
        mret (inr response)
      else if negb (vo.TransactionStatus.CanTransitionTo
                      (Transaction.Status transaction)
                      vo.TransactionStatusCompleted) then
        mret (inl (Errorf "" ErrTransactionCannotBeConfirmed
                     (" in status : " ++ Transaction.Status transaction)))
      else
        perr ← processTransaction transaction;
        match perr with
        | Some err =>
            _ ← match Transaction.MarkAsFailed transaction with
                | (_, Some markErr) => mret tt
                | (transaction', None) =>
                    _ ← call (TransactionUpdate transaction'); mret tt
                end;
            mret (inl err)
        | None =>
            now ← call TimeNow;
            match Transaction.MarkAsCompleted now transaction with
            | (_, Some err) => mret (inl err)
            | (transaction', None) =>
                uerr ← call (TransactionUpdate transaction');
                match uerr with
                | Some err => mret (inl err)
                | None =>
                    let response := dto.TransactionMapper.ToResponse transaction' in
                    _ ← call (CacheSet idempotencyKey
                                (CachedTransaction response) (24 * Hour));
                    _ ← call (CacheSet ("transaction:" ++ reqID)
                                (CachedTransaction response) (30 * Minute));
                    _ ← invalidateAccountCaches transaction';
                    mret (inr response)
                end
            end
        end
  end.

(** ConfirmTransaction confirms and processes a transaction. *)
Definition ConfirmTransaction (req : dto.ConfirmTransactionRequest.t)
  : Prog (Error + dto.TransactionResponse.t) :=
  let reqID := dto.ConfirmTransactionRequest.ID req in
  match vo.NewTransactionIDFromString reqID with
  | inl err => mret (inl err)
  | inr transactionID =>
      let idempotencyKey := "confirm_transaction:" ++ reqID in
      cached ← cacheGetTransactionResponse idempotencyKey;
      match cached with
      | inr cachedResult => mret (inr cachedResult)
      | inl _ =>
          let lockKey := "lock:transaction:" ++ reqID in
          '(lockAcquired, err) ← acquireDistributedLock lockKey (30 * Second);
          match err with
          | Some e => mret (inl (Errorf "failed to acquire lock: " e ""))
          | None =>
              if negb lockAcquired then mret (inl ErrTransactionAlreadyInProgress)
              else
                (* the deferred releaseLock runs on every return below *)
                result ← confirmLocked reqID transactionID idempotencyKey;
                _ ← releaseLock lockKey;
                mret result
          end
      end
  end.

(** CancelTransaction cancels a transaction. *)
Definition CancelTransaction (req : dto.CancelTransactionRequest.t)
  : Prog (option Error) :=
  let reqID := dto.CancelTransactionRequest.ID req in
  match vo.NewTransactionIDFromString reqID with
  | inl err => mret (Some err)
  | inr transactionID =>
      r ← call (TransactionGetByID transactionID);
      match r with
      | inl _ => mret (Some ErrTransactionNotFound)
      | inr transaction =>
          if negb (vo.TransactionStatus.IsPending (Transaction.Status transaction)) then
            mret (Some (Errorf "" ErrTransactionCannotBeCancelled
                          (" in status: " ++ Transaction.Status transaction)))
          else
            match Transaction.MarkAsCancelled transaction with
            | (_, Some err) => mret (Some err)
            | (transaction', None) =>
                uerr ← call (TransactionUpdate transaction');
                match uerr with
                | Some err => mret (Some err)
                | None =>
                    let response := dto.TransactionMapper.ToResponse transaction' in
                    _ ← call (CacheSet ("transaction:" ++ reqID)
                                (CachedTransaction response) (30 * Minute));
                    mret None
                end
            end
      end
  end.

(** GetTransaction retrieves a transaction by ID. *)
Definition GetTransaction (id : string) : Prog (Error + dto.TransactionResponse.t) :=
  match vo.NewTransactionIDFromString id with
  | inl err => mret (inl err)
  | inr transactionID =>
      let cacheKey := "transaction:" ++ id in
      cached ← cacheGetTransactionResponse cacheKey;
      match cached with
      | inr cachedResponse => mret (inr cachedResponse)
      | inl _ =>
          r ← call (TransactionGetByID transactionID);
          match r with
          | inl _ => mret (inl ErrTransactionNotFound)
          | inr transaction =>
              let response := dto.TransactionMapper.ToResponse transaction in
              _ ← call (CacheSet cacheKey (CachedTransaction response) (30 * Minute));
              mret (inr response)
          end
      end
  end.



End UseCase.
End usecase.

(* ===================================================================== *)
(** ** The transition tables of the specification *)
(* ===================================================================== *)
Module tables.

(** The tables as the specification words them: each source status with the
    targets it allows. *)
Definition accountTable : list (string * list string) :=
  [ ("ACTIVE", ["INACTIVE"; "SUSPENDED"]);
    ("INACTIVE", ["ACTIVE"; "SUSPENDED"]);
    ("SUSPENDED", ["ACTIVE"; "INACTIVE"]) ].

Definition transactionTable : list (string * list string) :=
  [ ("PENDING", ["COMPLETED"; "FAILED"; "CANCELLED"]);
    ("FAILED", ["CANCELLED"]);
    ("COMPLETED", []);
    ("CANCELLED", []) ].

Definition accountStatuses : list string := ["ACTIVE"; "INACTIVE"; "SUSPENDED"].
Definition transactionStatuses : list string :=
  ["PENDING"; "COMPLETED"; "FAILED"; "CANCELLED"].

Definition allows (table : list (string * list string)) (from to : string) : bool :=
  existsb (fun row => String.eqb (fst row) from && existsb (String.eqb to) (snd row))
          table.

End tables.

(* ===================================================================== *)
(** ** Data for worked examples *)
(* ===================================================================== *)
Module sample.
Import entity infra.

(** A runtime for the examples: no trimming needed, a timestamp parses when
    it is all digits, the float rendering keeps the coefficient. *)
Definition runtime : GoRuntime :=
  {| strings_TrimSpace := fun s => s;
     time_Parse_ok := fun _ v => forallb strconv.isDigit (list_ascii_of_string v);
     decimal_InexactFloat64 := fun d => decimal.value d |}.

Definition idA : vo.AccountID := vo.mkAccountID "2024072900000001".
Definition idB : vo.AccountID := vo.mkAccountID "2024072900000002".

(** Account A holds 100.00, account B holds 10.00. *)
Definition accountA : Account.t :=
  {| Account.ID := idA; Account.AccountName := "A";
     Account.Balance := vo.NewMoney (decimal.mkDecimal 10000 (-2));
     Account.Status := vo.AccountStatusActive;
     Account.CreatedAt := 5; Account.UpdatedAt := 5 |}.

Definition accountB : Account.t :=
  {| Account.ID := idB; Account.AccountName := "B";
     Account.Balance := vo.NewMoney (decimal.mkDecimal 1000 (-2));
     Account.Status := vo.AccountStatusActive;
     Account.CreatedAt := 6; Account.UpdatedAt := 6 |}.

Definition txnID : string := "TXN20240729143045123456".

(** A pending debit of 40 from account A. *)
Definition pendingDebit : Transaction.t :=
  {| Transaction.ID := vo.mkTransactionID txnID;
     Transaction.FromAccountID := Some idA;
     Transaction.ToAccountID := None;
     Transaction.TransactionType := vo.TransactionTypeDebit;
     Transaction.Amount := vo.NewMoneyFromInt 40;
     Transaction.Description := "withdrawal";
     Transaction.Reference := "REF001";
     Transaction.Status := vo.TransactionStatusPending;
     Transaction.CreatedAt := 7;
     Transaction.CompletedAt := None |}.

(** A pending transfer of 40 from account A to account B. *)
Definition pendingTransfer : Transaction.t :=
  {| Transaction.ID := vo.mkTransactionID txnID;
     Transaction.FromAccountID := Some idA;
     Transaction.ToAccountID := Some idB;
     Transaction.TransactionType := vo.TransactionTypeTransfer;
     Transaction.Amount := vo.NewMoneyFromInt 40;
     Transaction.Description := "transfer";
     Transaction.Reference := "REF002";
     Transaction.Status := vo.TransactionStatusPending;
     Transaction.CreatedAt := 7;
     Transaction.CompletedAt := None |}.

Definition worldWith (transaction : Transaction.t)
    (cache0 : gmap string CacheValue) : World :=
  {| transactions := {[ txnID := transaction ]};
     accounts := {[ "2024072900000001" := accountA; "2024072900000002" := accountB ]};
     cache := cache0;
     cacheFaults := [];
     clock := fun n => 1000 + Z.of_nat n;
     ticks := 0;
     journal := [] |}.

Definition world : World := worldWith pendingDebit ∅.


(** The lock of the sample transaction is already held by someone else. *)
Definition worldWithLockHeld : World :=
  worldWith pendingDebit {[ "lock:transaction:TXN20240729143045123456" := CachedLock 999 ]}.

(** The cache answers the first call and fails the second. *)
Definition worldWithCacheOutage : World :=
  {| transactions := transactions world; accounts := accounts world;
     cache := cache world; cacheFaults := [false; true];
     clock := clock world; ticks := ticks world; journal := journal world |}.

Definition confirmRequest : dto.ConfirmTransactionRequest.t :=
  dto.ConfirmTransactionRequest.mk txnID.

Definition cancelRequest : dto.CancelTransactionRequest.t :=
  dto.CancelTransactionRequest.mk txnID.

Definition confirmSample : Prog (Error + dto.TransactionResponse.t) :=
  usecase.ConfirmTransaction (H := runtime) confirmRequest.

(** What confirming the pending debit in [world] returns. *)
Definition completedResponse : dto.TransactionResponse.t :=
  {| dto.TransactionResponse.ID := txnID;
     dto.TransactionResponse.FromAccountID := Some "2024072900000001";
     dto.TransactionResponse.ToAccountID := None;
     dto.TransactionResponse.TransactionType := "DEBIT";
     dto.TransactionResponse.Amount := 40;
     dto.TransactionResponse.Description := "withdrawal";
     dto.TransactionResponse.Reference := "REF001";
     dto.TransactionResponse.Status := "COMPLETED";
     dto.TransactionResponse.CreatedAt := 7;
     dto.TransactionResponse.CompletedAt := Some 1002 |}.

(** Two confirmations of the same transaction in progress at once: each
    checks the idempotency cache, takes the lock and reloads the PENDING
    transaction before the other has finished; then the first runs to its
    end, then the second. *)
Definition overlappingSchedule : list nat :=
  (replicate 4 0 ++ replicate 4 1 ++ replicate 9 0 ++ replicate 9 1)%list%nat.

(** A pending transfer of 40 from account A to account A itself, as no
    factory makes it. *)
Definition selfTransfer : Transaction.t :=
  {| Transaction.ID := vo.mkTransactionID txnID;
     Transaction.FromAccountID := Some idA;
     Transaction.ToAccountID := Some idA;
     Transaction.TransactionType := vo.TransactionTypeTransfer;
     Transaction.Amount := vo.NewMoneyFromInt 40;
     Transaction.Description := "transfer";
     Transaction.Reference := "REF004";
     Transaction.Status := vo.TransactionStatusPending;
     Transaction.CreatedAt := 7;
     Transaction.CompletedAt := None |}.

Definition transferWorld : World := worldWith pendingTransfer ∅.

(** A row of the accounts table and a row of the transactions table. *)
Definition accountRow : model.Account.t :=
  {| model.Account.Model :=
       {| gorm.ID := 17; gorm.CreatedAt := 3; gorm.UpdatedAt := 4;
          gorm.DeletedAt := None |};
     model.Account.AccountID := "2024072900000001";
     model.Account.AccountName := "A";
     model.Account.Balance := decimal.mkDecimal 500 (-2);
     model.Account.Status := "ACTIVE";
     model.Account.CreatedAt := 3;
     model.Account.UpdatedAt := 4 |}.

Definition transactionRow : model.Transaction.t :=
  {| model.Transaction.Model :=
       {| gorm.ID := 23; gorm.CreatedAt := 7; gorm.UpdatedAt := 7;
          gorm.DeletedAt := None |};
     model.Transaction.TransactionID := txnID;
     model.Transaction.FromAccountID := Some "2024072900000001";
     model.Transaction.ToAccountID := None;
     model.Transaction.TransactionType := "DEBIT";
     model.Transaction.Amount := decimal.mkDecimal 40 0;
     model.Transaction.Description := "withdrawal";
     model.Transaction.Reference := "REF001";
     model.Transaction.Status := "PENDING";
     model.Transaction.CreatedAt := 7;
     model.Transaction.CompletedAt := None |}.
End sample.

(* ===================================================================== *)
(** ** Vocabulary for the properties of the use case *)
(* ===================================================================== *)
Module observations.
Import entity infra.

Definition idempotencyKey (reqID : string) : string := "confirm_transaction:" ++ reqID.
Definition lockKey (reqID : string) : string := "lock:transaction:" ++ reqID.

(** Between [w] and [w'] both repositories kept their content and no call
    touched an account. *)
Definition storesUntouched (w w' : World) : Prop :=
  transactions w' = transactions w /\ accounts w' = accounts w /\
  callsBetween leavesAccountsAlone w w'.

(** No terminal result is cached for the transaction. *)
Definition noCachedResult (reqID : string) (w : World) : Prop :=
  forall r, cache w !! idempotencyKey reqID <> Some (CachedTransaction r).


Definition isCacheCall (c : Call) : bool :=
  match c with
  | CacheGet _ | CacheSet _ _ _ | CacheDelete _ => true
  | _ => false
  end.




(** Every account is stored under its own identifier and every transaction
    under its own, as a repository that looks records up by their identifier
    column has it. *)
Definition wellKeyed (w : World) : Prop :=
  (forall key a, accounts w !! key = Some a ->
                 vo.AccountID.String (Account.ID a) = key) /\
  (forall key x, transactions w !! key = Some x ->
                 vo.TransactionID.String (Transaction.ID x) = key).

Definition transactionKey (id : string) : string := "transaction:" ++ id.

(** The balance of the account stored under [id], if there is one. *)
Definition balanceOf (id : vo.AccountID) (w : World) : option vo.Money :=
  Account.Balance <$> accounts w !! vo.AccountID.String id.

(** The status of the account stored under [id], if there is one. *)
Definition statusOf (id : vo.AccountID) (w : World) : option vo.AccountStatus :=
  Account.Status <$> accounts w !! vo.AccountID.String id.

(** The number a decimal denotes, counted in units of [10 ^ m], for an [m]
    not above its exponent; [floor2] and [floor3] give a unit that suits two
    or three decimals at once. *)
Definition units (m : Z) (d : decimal.Decimal) : Z :=
  decimal.value d * 10 ^ (decimal.exp d - m).

Definition floor2 (a b : decimal.Decimal) : Z :=
  Z.min (decimal.exp a) (decimal.exp b).

Definition floor3 (a b c : decimal.Decimal) : Z :=
  Z.min (decimal.exp a) (Z.min (decimal.exp b) (decimal.exp c)).



(** The state in which ConfirmTransaction reaches processTransaction when
    the cache is available and holds no result for the request: the stores
    as they were, the lock set with the first clock reading, and the
    idempotency lookup, the lock and the reload of the transaction on
    record. *)
Definition underLock (reqID : string) (w : World) : World :=
  {| transactions := transactions w; accounts := accounts w;
     cache := <[lockKey reqID := CachedLock (clock w (ticks w))]> (cache w);
     cacheFaults := [];
     clock := clock w; ticks := S (ticks w);
     journal := TransactionGetByID (vo.mkTransactionID reqID)
                :: CacheSet (lockKey reqID) (CachedLock (clock w (ticks w)))
                     (30 * usecase.Second)
                :: CacheGet (idempotencyKey reqID) :: journal w |}.

(** [key] is not the identifier of an account the transaction names. *)
Definition foreignTo (t : Transaction.t) (key : string) : Prop :=
  forall acc, Transaction.FromAccountID t = Some acc \/
              Transaction.ToAccountID t = Some acc ->
              key <> vo.AccountID.String acc.

End observations.

(* ===================================================================== *)
(** ** Histories of entity method calls *)
(* ===================================================================== *)
Module histories.
Import entity.

(** The methods of Transaction that change its state, with the arguments of
    a call. *)
Inductive TransactionOp : Type :=
  | OpMarkAsCompleted (now : Time)
  | OpMarkAsFailed
  | OpMarkAsCancelled
  | OpSetTransactionStatus (now : Time) (status : vo.TransactionStatus).

Definition applyTransactionOp (op : TransactionOp) (x : Transaction.t)
  : Transaction.t * option Error :=
  match op with
  | OpMarkAsCompleted now => Transaction.MarkAsCompleted now x
  | OpMarkAsFailed => Transaction.MarkAsFailed x
  | OpMarkAsCancelled => Transaction.MarkAsCancelled x
  | OpSetTransactionStatus now status => Transaction.SetStatus now status x
  end.

(** The transaction after the calls [ops] were made on it one after the
    other, whether each returned an error or not. *)
Fixpoint applyTransactionOps (ops : list TransactionOp) (x : Transaction.t)
  : Transaction.t :=
  match ops with
  | [] => x
  | op :: rest => applyTransactionOps rest (fst (applyTransactionOp op x))
  end.

(** How many of the calls [ops] returned no error. *)
Fixpoint succeeded (ops : list TransactionOp) (x : Transaction.t) : nat :=
  match ops with
  | [] => 0
  | op :: rest =>
      let '(x', err) := applyTransactionOp op x in
      ((if err is None then 1 else 0) + succeeded rest x')%nat
  end.

(** The methods of Account that change its state. *)
Inductive AccountOp : Type :=
  | OpDebit (now : Time) (amount : vo.Money)
  | OpCredit (now : Time) (amount : vo.Money)
  | OpSuspend (now : Time)
  | OpActivate (now : Time)
  | OpDeactivate (now : Time)
  | OpSetAccountStatus (now : Time) (status : vo.AccountStatus).

Definition applyAccountOp (op : AccountOp) (a : Account.t)
  : Account.t * option Error :=
  match op with
  | OpDebit now amount => Account.Debit now amount a
  | OpCredit now amount => Account.Credit now amount a
  | OpSuspend now => Account.Suspend now a
  | OpActivate now => Account.Activate now a
  | OpDeactivate now => Account.Deactivate now a
  | OpSetAccountStatus now status => Account.SetStatus now status a
  end.

Fixpoint applyAccountOps (ops : list AccountOp) (a : Account.t) : Account.t :=
  match ops with
  | [] => a
  | op :: rest => applyAccountOps rest (fst (applyAccountOp op a))
  end.

(** A transaction as one of the three factories makes it. *)
Definition created `{!GoRuntime} (x : Transaction.t) : Prop :=
  (exists id now from amount description reference,
      NewDebitTransaction id now from amount description reference = inr x) \/
  (exists id now to amount description reference,
      NewCreditTransaction id now to amount description reference = inr x) \/
  (exists id now from to amount description reference,
      NewTransferTransaction id now from to amount description reference = inr x).

(** The status of a transaction is valid and it carries a completion time
    exactly when it is COMPLETED. *)
Definition settled (x : Transaction.t) : Prop :=
  vo.TransactionStatus.IsValid (Transaction.Status x) = true /\
  (Transaction.Status x = vo.TransactionStatusCompleted <->
   is_Some (Transaction.CompletedAt x)).

(** [x'] is the request [x] was created as: all fields but the status and
    the completion time agree. *)
Definition sameRequest (x x' : Transaction.t) : Prop :=
  Transaction.ID x' = Transaction.ID x /\
  Transaction.FromAccountID x' = Transaction.FromAccountID x /\
  Transaction.ToAccountID x' = Transaction.ToAccountID x /\
  Transaction.TransactionType x' = Transaction.TransactionType x /\
  Transaction.Amount x' = Transaction.Amount x /\
  Transaction.Description x' = Transaction.Description x /\
  Transaction.Reference x' = Transaction.Reference x /\
  Transaction.CreatedAt x' = Transaction.CreatedAt x.

End histories.


(* ===================================================================== *)
(** ** Proof automation *)
(* ===================================================================== *)

Import entity infra usecase observations.

(** Case analysis on the membership of a status in a table. *)
Ltac each_status H :=
  repeat (destruct H as [H | H]; [symmetry in H | ]); try contradiction.

(** Symbolic execution: expose the calls of a program, perform them one by
    one, and split on every test the program or a collaborator makes. *)
Ltac prog_unfold := unfold mbind, mret, Prog_bind, Prog_ret, call in *.

Ltac status_cbn :=
  cbn [negb andb orb String.eqb Ascii.eqb Bool.eqb
       vo.TransactionStatusPending vo.TransactionStatusCompleted
       vo.TransactionStatusFailed vo.TransactionStatusCancelled
       vo.TransactionStatus.CanTransitionTo vo.TransactionStatus.IsCompleted
       vo.TransactionStatus.IsPending] in *.

Ltac proj_cbn :=
  cbn [run bind perform after fst snd tail negb
       transactions accounts cache cacheFaults clock ticks journal
       vo.TransactionID.String vo.transaction_id_value
       vo.AccountID.String vo.account_id_value
       Transaction.withStatus Transaction.ID Transaction.FromAccountID
       Transaction.ToAccountID Transaction.TransactionType Transaction.Amount
       Transaction.Description Transaction.Reference Transaction.Status
       Transaction.CreatedAt Transaction.CompletedAt
       dto.ConfirmTransactionRequest.ID dto.CancelTransactionRequest.ID] in *.

(** The calls a state records beyond those of an earlier state. *)
Ltac journal_prefix :=
  lazymatch goal with
  | |- ?l = (?calls ++ ?base)%list =>
      let rec go l :=
        lazymatch l with
        | base => constr:(@nil Call)
        | ?c :: ?rest => let r := go rest in constr:(c :: r)
        end in
      let pre := go l in unify calls pre; reflexivity
  end.

Ltac calls_between :=
  unfold callsBetween; cbn [journal after];
  eexists; split; [journal_prefix | reflexivity].

(* ===================================================================== *)
(** ** Properties of the domain layer *)
(* ===================================================================== *)


(** *** Money *)

Lemma rescale_down (d : decimal.Decimal) (e : Z) :
  e < decimal.exp d ->
  decimal.rescale d e =
  decimal.mkDecimal (decimal.value d * 10 ^ (decimal.exp d - e)) e.
Proof.
  intros Hlt. unfold decimal.rescale.
  destruct (Z.eqb_spec (decimal.exp d) e) as [Heq|_]; [lia|].
  destruct (Z.gtb_spec e (decimal.exp d)); [lia|].
  f_equal. f_equal. f_equal. lia.
Qed.

Lemma decimal_add_sub_equal (a b : decimal.Decimal) :
  decimal.Equal (decimal.Sub (decimal.Add a b) b) a = true.
Proof.
  destruct a as [va ea], b as [vb eb].
  destruct (Z.lt_trichotomy ea eb) as [Hlt | [-> | Hgt]].
  - (* b is brought to the exponent of a, twice *)
    unfold decimal.Add, decimal.RescalePair; simpl.
    destruct (Z.ltb_spec ea eb); [|lia].
    rewrite rescale_down by (simpl; lia); simpl.
    unfold decimal.Sub, decimal.RescalePair; simpl.
    destruct (Z.ltb_spec ea eb); [|lia].
    rewrite rescale_down by (simpl; lia); simpl.
    unfold decimal.Equal, decimal.Cmp; simpl.
    rewrite Z.eqb_refl.
    replace (va + vb * 10 ^ (eb - ea) - vb * 10 ^ (eb - ea)) with va by lia.
    by rewrite Z.compare_refl.
  - (* equal exponents: plain integer arithmetic *)
    unfold decimal.Add, decimal.Sub, decimal.RescalePair; simpl.
    rewrite Z.ltb_irrefl, Z.gtb_ltb, Z.ltb_irrefl; simpl.
    rewrite Z.ltb_irrefl, Z.gtb_ltb, Z.ltb_irrefl; simpl.
    unfold decimal.Equal, decimal.Cmp; simpl.
    rewrite Z.eqb_refl.
    replace (va + vb - vb) with va by lia.
    by rewrite Z.compare_refl.
  - (* a is brought to the exponent of b; the comparison brings it there again *)
    unfold decimal.Add, decimal.RescalePair; simpl.
    destruct (Z.ltb_spec ea eb); [lia|].
    destruct (Z.gtb_spec ea eb); [|lia].
    rewrite rescale_down by (simpl; lia); simpl.
    unfold decimal.Sub, decimal.RescalePair; simpl.
    rewrite Z.ltb_irrefl, Z.gtb_ltb, Z.ltb_irrefl; simpl.
    unfold decimal.Equal, decimal.Cmp, decimal.RescalePair; simpl.
    destruct (Z.eqb_spec eb ea); [lia|].
    destruct (Z.ltb_spec eb ea); [|lia].
    rewrite rescale_down by (simpl; lia); simpl.
    replace (va * 10 ^ (ea - eb) + vb - vb) with (va * 10 ^ (ea - eb)) by lia.
    by rewrite Z.compare_refl.
Qed.

(** C10. For all Money values a and b, adding b to a and then subtracting b
    yields a value Equal to a, and neither Add nor Subtract returns an
    error. *)
Theorem money_add_subtract_roundtrip (a b : vo.Money) :
  exists sum back : vo.Money,
    vo.Add a b = (sum, None) /\
    vo.Subtract sum b = (back, None) /\
    vo.Equal back a = true.
Proof.
  eexists _, _. split; [reflexivity|]. split; [reflexivity|].
  unfold vo.Equal. simpl. apply decimal_add_sub_equal.
Qed.

(** *** Account.Debit and Account.Credit *)

Lemma positive_not_zero (amount : vo.Money) :
  vo.IsPositive amount = true -> vo.IsZero amount = false.
Proof.
  unfold vo.IsPositive, vo.IsZero, decimal.IsPositive, decimal.IsZero.
  intros Hpos%Z.eqb_eq. rewrite Hpos. reflexivity.
Qed.

Lemma nonpositive_not_positive (amount : vo.Money) :
  vo.IsZero amount = true \/ vo.IsNegative amount = true ->
  vo.IsZero amount || negb (vo.IsPositive amount) = true.
Proof.
  unfold vo.IsPositive, vo.IsZero, vo.IsNegative,
    decimal.IsPositive, decimal.IsZero, decimal.IsNegative.
  intros [Hz%Z.eqb_eq | Hn%Z.eqb_eq]; rewrite ?Hz, ?Hn; reflexivity.
Qed.

(** C1. For every account and every strictly positive amount: when balance
    minus amount is negative, Debit fails with ErrInsufficientBalance and
    leaves the account (its Balance in particular) as it was; otherwise it
    succeeds, the new Balance is the old Balance minus the amount and
    UpdatedAt is the current instant. *)
Theorem debit_positive_amount (now : Time) (a : Account.t) (amount : vo.Money) :
  vo.IsPositive amount = true ->
  let newBalance := fst (vo.Subtract (Account.Balance a) amount) in
  if vo.IsNegative newBalance then
    Account.Debit now amount a = (a, Some ErrInsufficientBalance)
  else
    Account.Debit now amount a =
      ({| Account.ID := Account.ID a;
          Account.AccountName := Account.AccountName a;
          Account.Balance := newBalance;
          Account.Status := Account.Status a;
          Account.CreatedAt := Account.CreatedAt a;
          Account.UpdatedAt := now |}, None).
Proof.
  intros Hpos. unfold Account.Debit.
  rewrite (positive_not_zero _ Hpos), Hpos. simpl.
  unfold vo.IsNegative.
  destruct (decimal.IsNegative _); reflexivity.
Qed.

(** C7. For every account, whatever its status, and every amount that is
    zero or negative, Debit and Credit fail and leave the account, hence its
    Balance and UpdatedAt, as it was. *)
Theorem nonpositive_amount_changes_nothing
    (now : Time) (a : Account.t) (amount : vo.Money) :
  vo.IsZero amount = true \/ vo.IsNegative amount = true ->
  Account.Debit now amount a = (a, Some ErrInvalidTransactionAmount) /\
  Account.Credit now amount a = (a, Some ErrInvalidTransactionAmount).
Proof.
  intros Hnonpos%nonpositive_not_positive.
  unfold Account.Debit, Account.Credit. rewrite Hnonpos. split; reflexivity.
Qed.

(** *** The status state machines *)

(** C5 (amended). For every ordered pair of statuses of the Account table
    and of the Transaction table, Account.SetStatus, MarkAsCompleted,
    MarkAsFailed and MarkAsCancelled succeed exactly when the pair is in the
    transition tables, and otherwise fail with INVALID_STATUS_TRANSITION and
    leave the entity as it was.  A successful Account.SetStatus sets
    UpdatedAt to the current instant and a successful MarkAsCompleted sets
    CompletedAt to it; a successful MarkAsFailed or MarkAsCancelled changes
    the Status only. *)
Theorem status_transitions_follow_tables :
  (forall (now : Time) (a : Account.t) (target : vo.AccountStatus),
      In (Account.Status a) tables.accountStatuses ->
      In target tables.accountStatuses ->
      Account.SetStatus now target a =
        if tables.allows tables.accountTable (Account.Status a) target then
          ({| Account.ID := Account.ID a;
              Account.AccountName := Account.AccountName a;
              Account.Balance := Account.Balance a;
              Account.Status := target;
              Account.CreatedAt := Account.CreatedAt a;
              Account.UpdatedAt := now |}, None)
        else
          (a, Some (BusinessError "INVALID_STATUS_TRANSITION"
                      ("cannot transition from " ++ Account.Status a
                       ++ " to " ++ target))))
  /\
  (forall (now : Time) (x : Transaction.t),
      In (Transaction.Status x) tables.transactionStatuses ->
      let from := Transaction.Status x in
      Transaction.MarkAsCompleted now x =
        (if tables.allows tables.transactionTable from "COMPLETED" then
           (Transaction.withStatus "COMPLETED" (Some now) x, None)
         else
           (x, Some (BusinessError "INVALID_STATUS_TRANSITION"
                       ("cannot transition from " ++ from ++ " to COMPLETED"))))
      /\
      Transaction.MarkAsFailed x =
        (if tables.allows tables.transactionTable from "FAILED" then
           (Transaction.withStatus "FAILED" (Transaction.CompletedAt x) x, None)
         else
           (x, Some (BusinessError "INVALID_STATUS_TRANSITION"
                       ("cannot transition from " ++ from ++ " to FAILED"))))
      /\
      Transaction.MarkAsCancelled x =
        (if tables.allows tables.transactionTable from "CANCELLED" then
           (Transaction.withStatus "CANCELLED" (Transaction.CompletedAt x) x, None)
         else
           (x, Some (BusinessError "INVALID_STATUS_TRANSITION"
                       ("cannot transition from " ++ from ++ " to CANCELLED"))))).
Proof.
  split.
  - intros now [id name balance status created updated] target Hfrom Htarget.
    simpl in *. each_status Hfrom; each_status Htarget; subst; reflexivity.
  - intros now [id from to ty amount descr ref status created completed] Hfrom.
    simpl in *. each_status Hfrom; subst; repeat split; reflexivity.
Qed.

(** *** The creation factories *)

(** C4 (the defect). The factories test the amount with IsZero only: given
    the negative amount -5 each of them returns a PENDING transaction
    carrying that amount, where ErrInvalidTransactionAmount ("transaction
    amount must be greater than zero") was due. *)
Theorem factories_accept_negative_amount :
  forall (rt : GoRuntime) (id : vo.TransactionID) (now : Time)
         (description reference : string),
    let amount := vo.NewMoneyFromInt (-5) in
    vo.IsPositive amount = false /\
    (exists x, NewDebitTransaction id now sample.idA amount description reference
               = inr x
               /\ Transaction.Status x = vo.TransactionStatusPending
               /\ Transaction.Amount x = amount) /\
    (exists x, NewCreditTransaction id now sample.idB amount description reference
               = inr x
               /\ Transaction.Status x = vo.TransactionStatusPending
               /\ Transaction.Amount x = amount) /\
    (exists x, NewTransferTransaction id now sample.idA sample.idB amount
                 description reference
               = inr x
               /\ Transaction.Status x = vo.TransactionStatusPending
               /\ Transaction.Amount x = amount).
Proof.
  intros rt id now description reference amount.
  split; [reflexivity|].
  repeat split; eexists; (split; [reflexivity|]); split; reflexivity.
Qed.








(* ===================================================================== *)
(** ** Properties of the use case *)
(* ===================================================================== *)

Lemma run_bind {A B : Type} (m : Prog A) (f : A -> Prog B) (w : World) :
  run (bind m f) w = let '(a, w') := run m w in run (f a) w'.
Proof.
  revert w. induction m as [a | c k IH]; intros w; simpl; [reflexivity|].
  destruct (perform c w) as [r w']. apply IH.
Qed.

Ltac exec :=
  repeat first
    [ progress proj_cbn
    | rewrite run_bind in *
    | case_match; simplify_eq ].

Lemma validate_error `{!GoRuntime} (id : string) (e : Error) :
  vo.validateTransactionID id = Some e -> e = ErrInvalidTransactionID.
Proof. unfold vo.validateTransactionID. repeat case_match; congruence. Qed.

Lemma process_errors `{!GoRuntime} (t : Transaction.t) (w : World) (e : Error) :
  fst (run (processTransaction t) w) = Some e ->
  Is e ErrTransactionAlreadyInProgress = false.
Proof.
  unfold processTransaction, processDebitTransaction, processCreditTransaction,
    processTransferTransaction, transferMutations.
  unfold Account.Debit, Account.Credit, vo.Subtract, vo.Add.
  prog_unfold. exec; cbn; intros; simplify_eq; reflexivity.
Qed.

Lemma confirmLocked_errors `{!GoRuntime} reqID tid key (w : World) (e : Error) :
  fst (run (confirmLocked reqID tid key) w) = inl e ->
  Is e ErrTransactionAlreadyInProgress = false.
Proof.
  unfold confirmLocked, invalidateAccountCaches,
    Transaction.MarkAsFailed, Transaction.MarkAsCompleted.
  prog_unfold. exec.
  all: cbn; intros; simplify_eq; try reflexivity.
  all: eapply process_errors; erewrite H3; reflexivity.
Qed.

Lemma acquire_outcome (key : string) (expiration : Z) (w : World) :
  fst (run (acquireDistributedLock key expiration) w) =
  if cacheFails w then (false, Some ErrCacheUnavailable) else (true, None).
Proof.
  unfold acquireDistributedLock. prog_unfold. cbn [run bind perform].
  unfold cacheFails at 1. cbn [cacheFaults].
  fold (cacheFails w). destruct (cacheFails w); reflexivity.
Qed.

(** C8. Lock acquisition is an unconditional cache Set: whenever the cache
    write succeeds the lock is granted and the key holds the new token,
    whatever the key held before; acquisition never reports "not granted"
    without an error; and ConfirmTransaction never returns
    ErrTransactionAlreadyInProgress. *)
Theorem lock_acquisition_is_unconditional `{!GoRuntime} :
  (forall (key : string) (expiration : Z) (w : World),
      cacheFails w = false ->
      exists w',
        run (acquireDistributedLock key expiration) w = ((true, None), w') /\
        cache w' !! key = Some (CachedLock (clock w (ticks w))))
  /\
  (forall (key : string) (expiration : Z) (w : World),
      fst (run (acquireDistributedLock key expiration) w) <> (false, None))
  /\
  (forall (req : dto.ConfirmTransactionRequest.t) (w : World) (err : Error),
      fst (run (ConfirmTransaction req) w) = inl err ->
      Is err ErrTransactionAlreadyInProgress = false).
Proof.
  split; [|split].
  - intros key expiration w Hok.
    unfold acquireDistributedLock. prog_unfold. cbn [run bind perform].
    unfold cacheFails in *. cbn [cacheFaults]. rewrite Hok.
    eexists. split; [reflexivity|]. cbn. apply lookup_insert_eq.
  - intros key expiration w. rewrite acquire_outcome.
    destruct (cacheFails w); discriminate.
  - intros req w err. unfold ConfirmTransaction, vo.NewTransactionIDFromString.
    destruct (vo.validateTransactionID _) as [e|] eqn:Hvalid.
    { apply validate_error in Hvalid as ->. cbn. intros; simplify_eq. reflexivity. }
    unfold mbind, Prog_bind, mret, Prog_ret. rewrite run_bind.
    destruct (run (cacheGetTransactionResponse _) w) as [cached w1].
    destruct cached as [_e|resp]; [|cbn; discriminate].
    rewrite run_bind.
    pose proof (acquire_outcome
                  ("lock:transaction:" ++ dto.ConfirmTransactionRequest.ID req)
                  (30 * Second) w1) as Hacq.
    destruct (run (acquireDistributedLock _ _) w1) as [[acquired lockErr] w2].
    simpl in Hacq. destruct (cacheFails w1); simplify_eq.
    { cbn. intros; simplify_eq. reflexivity. }
    cbn [negb]. rewrite run_bind.
    destruct (run (confirmLocked _ _ _) w2) as [result w3] eqn:Hlocked.
    rewrite run_bind. destruct (run (releaseLock _) w3) as [released w4].
    cbn. intros ->.
    eapply confirmLocked_errors; erewrite Hlocked; reflexivity.
Qed.



Lemma parsed_id `{!GoRuntime} (reqID : string) (id : vo.TransactionID) :
  vo.NewTransactionIDFromString reqID = inr id -> id = vo.mkTransactionID reqID.
Proof.
  unfold vo.NewTransactionIDFromString. case_match; congruence.
Qed.

Lemma callsBetween_trans ok w1 w2 w3 :
  callsBetween ok w1 w2 -> callsBetween ok w2 w3 -> callsBetween ok w1 w3.
Proof.
  intros (c1 & H1 & Hok1) (c2 & H2 & Hok2). exists (c2 ++ c1)%list. split.
  - rewrite H2, H1. by rewrite app_assoc.
  - rewrite forallb_app. by rewrite Hok1, Hok2.
Qed.

Lemma storesUntouched_trans w1 w2 w3 : storesUntouched w1 w2 -> storesUntouched w2 w3 -> storesUntouched w1 w3.
Proof.
  intros (Ht1 & Ha1 & Hc1) (Ht2 & Ha2 & Hc2). repeat split; try congruence.
  eapply callsBetween_trans; eassumption.
Qed.

Lemma perform_cache_call (c : Call) (w : World) :
  isCacheCall c = true ->
  let w' := snd (perform c w) in
  storesUntouched w w' /\ cacheFaults w' = tail (cacheFaults w) /\
  forall key,
    cache w' !! key = cache w !! key \/
    match c with
    | CacheSet key' value _ => key' = key /\ cache w' !! key = Some value
    | CacheDelete key' => key' = key /\ cache w' !! key = None
    | _ => False
    end.
Proof.
  destruct c; try discriminate; intros _; cbn [perform].
  all: repeat case_match; cbn [snd].
  all: unfold storesUntouched, after; cbn [transactions accounts cache cacheFaults journal].
  all: (split; [repeat split; eexists [_]; split; reflexivity|]).
  all: (split; [reflexivity|]); intros key'; auto.
  - destruct (decide (key = key')) as [->|Hne].
    + right. split; [done|]. apply lookup_insert_eq.
    + left. by apply lookup_insert_ne.
  - destruct (decide (key = key')) as [->|Hne].
    + right. split; [done|]. apply lookup_delete_eq.
    + left. by apply lookup_delete_ne.
Qed.


Lemma cacheGet_spec (key : string) (w : World) :
  let '(r, w') := run (cacheGetTransactionResponse key) w in
  storesUntouched w w' /\ cache w' = cache w /\ cacheFaults w' = tail (cacheFaults w) /\
  (forall resp, r = inr resp -> cache w !! key = Some (CachedTransaction resp)) /\
  (cacheFails w = false ->
   forall resp, cache w !! key = Some (CachedTransaction resp) -> r = inr resp).
Proof.
  unfold cacheGetTransactionResponse. prog_unfold. cbn [run bind perform].
  unfold cacheFails. exec; unfold storesUntouched; cbn.
  all: repeat split; try calls_between; congruence.
Qed.

Lemma acquire_spec (key : string) (expiration : Z) (w : World) :
  let '((acquired, err), w') := run (acquireDistributedLock key expiration) w in
  storesUntouched w w' /\ cacheFaults w' = tail (cacheFaults w) /\
  (acquired, err) =
    (if cacheFails w then (false, Some ErrCacheUnavailable) else (true, None)) /\
  (forall key', key' <> key -> cache w' !! key' = cache w !! key').
Proof.
  unfold acquireDistributedLock. prog_unfold. cbn [run bind perform].
  unfold cacheFails. exec; unfold storesUntouched; cbn.
  all: repeat split; try calls_between; try congruence.
  all: intros key' Hne; by rewrite lookup_insert_ne.
Qed.


Lemma process_frame `{!GoRuntime} (t : Transaction.t) (w : World) :
  let w' := snd (run (processTransaction t) w) in
  transactions w' = transactions w /\ cache w' = cache w /\
  cacheFaults w' = cacheFaults w.
Proof.
  unfold processTransaction, processDebitTransaction, processCreditTransaction,
    processTransferTransaction, transferMutations.
  prog_unfold. exec; cbn; done.
Qed.



Lemma available (w : World) : cacheFaults w = [] -> cacheFails w = false.
Proof. unfold cacheFails. by intros ->. Qed.

Ltac confirm_start Hparse :=
  unfold ConfirmTransaction; cbn [dto.ConfirmTransactionRequest.ID];
  rewrite Hparse; unfold mbind, Prog_bind, mret, Prog_ret;
  fold (idempotencyKey) (lockKey).





(** A transaction that is neither COMPLETED nor able to become so is
    refused. *)
Lemma confirm_refused `{!GoRuntime} (reqID : string) (id : vo.TransactionID)
    (w : World) (t : Transaction.t) :
  vo.NewTransactionIDFromString reqID = inr id ->
  cacheFaults w = [] ->
  noCachedResult reqID w ->
  transactions w !! reqID = Some t ->
  vo.TransactionStatus.IsCompleted (Transaction.Status t) = false ->
  vo.TransactionStatus.CanTransitionTo (Transaction.Status t)
    vo.TransactionStatusCompleted = false ->
  exists w',
    run (ConfirmTransaction (dto.ConfirmTransactionRequest.mk reqID)) w
      = (inl (Errorf "" ErrTransactionCannotBeConfirmed
                (" in status : " ++ Transaction.Status t)), w') /\
    storesUntouched w w'.
Proof.
  intros Hparse Hfaults Hnone Hstored Hnotdone Hcannot.
  pose proof (parsed_id _ _ Hparse) as ->. confirm_start Hparse.
  rewrite run_bind.
  pose proof (cacheGet_spec (idempotencyKey reqID) w) as Hget.
  destruct (run (cacheGetTransactionResponse _) w) as [cached wa].
  destruct Hget as (Hwa & _ & Hfa & Hhit & _).
  destruct cached as [miss|resp]; [|by destruct (Hnone resp (Hhit resp eq_refl))].
  rewrite run_bind.
  pose proof (acquire_spec (lockKey reqID) (30 * Second) wa) as Hacq.
  destruct (run (acquireDistributedLock _ _) wa) as [[acquired err] wb].
  destruct Hacq as (Hwb & Hfb & Hgranted & _).
  rewrite Hfaults in Hfa. cbn in Hfa. rewrite (available _ Hfa) in Hgranted.
  injection Hgranted as -> ->. cbn [negb].
  assert (transactions wb !! reqID = Some t) as Hstored'.
  { destruct Hwa as (Ha & _), Hwb as (Hb & _). by rewrite Hb, Ha. }
  unfold confirmLocked, releaseLock. unfold mbind, Prog_bind, mret, Prog_ret, call.
  proj_cbn. rewrite Hstored', Hnotdone, Hcannot. proj_cbn.
  pose proof (storesUntouched_trans _ _ _ Hwa Hwb) as (Ht & Ha & Hcalls).
  destruct (cacheFails _); proj_cbn.
  all: eexists; (split; [reflexivity|]); unfold storesUntouched; proj_cbn.
  all: repeat split; try done.
  all: apply (callsBetween_trans _ _ wb); [exact Hcalls | calls_between].
Qed.

(** C6. CancelTransaction succeeds exactly while the transaction is PENDING,
    leaving it CANCELLED; in any other status it fails with
    ErrTransactionCannotBeCancelled and changes nothing; and a confirmation
    attempted after the cancellation fails with
    ErrTransactionCannotBeConfirmed. *)
Theorem cancel_only_while_pending `{!GoRuntime}
    (reqID : string) (id : vo.TransactionID) (w : World) (t : Transaction.t) :
  vo.NewTransactionIDFromString reqID = inr id ->
  transactions w !! reqID = Some t ->
  Transaction.ID t = id ->
  let '(err, w1) := run (CancelTransaction (dto.CancelTransactionRequest.mk reqID)) w in
  accounts w1 = accounts w /\
  (Transaction.Status t <> vo.TransactionStatusPending ->
     err = Some (Errorf "" ErrTransactionCannotBeCancelled
                   (" in status: " ++ Transaction.Status t)) /\
     Is (Errorf "" ErrTransactionCannotBeCancelled
           (" in status: " ++ Transaction.Status t))
        ErrTransactionCannotBeCancelled = true /\
     transactions w1 = transactions w)
  /\
  (Transaction.Status t = vo.TransactionStatusPending ->
     err = None /\
     transactions w1 =
       <[reqID := Transaction.withStatus vo.TransactionStatusCancelled
                    (Transaction.CompletedAt t) t]> (transactions w) /\
     (noCachedResult reqID w -> cacheFaults w1 = [] ->
      exists w2,
        run (ConfirmTransaction (dto.ConfirmTransactionRequest.mk reqID)) w1
          = (inl (Errorf "" ErrTransactionCannotBeConfirmed
                    " in status : CANCELLED"), w2) /\
        Is (Errorf "" ErrTransactionCannotBeConfirmed " in status : CANCELLED")
           ErrTransactionCannotBeConfirmed = true /\
        transactions w2 = transactions w1 /\ accounts w2 = accounts w1)).
Proof.
  intros Hparse Hstored Hid.
  pose proof (parsed_id _ _ Hparse) as Heq. rewrite Heq in *. clear Heq id.
  unfold CancelTransaction. cbn [dto.CancelTransactionRequest.ID].
  rewrite Hparse. unfold mbind, Prog_bind, mret, Prog_ret, call.
  proj_cbn. rewrite Hstored. unfold vo.TransactionStatus.IsPending.
  destruct (String.eqb_spec (Transaction.Status t) vo.TransactionStatusPending)
    as [Hpending | Hother]; cbn [negb run].
  - (* PENDING *)
    unfold Transaction.MarkAsCancelled. rewrite Hpending. status_cbn.
    proj_cbn. rewrite Hid. proj_cbn. rewrite Hstored. proj_cbn.
    set (t' := Transaction.withStatus _ _ t).
    destruct (cacheFails _); proj_cbn.
    all: split; [done|]; split; [done|]; intros _.
    all: split; [done|]; split; [done|]; intros Hnone Hfaults.
    all: match goal with
         | |- exists w2, run _ ?w1 = _ /\ _ =>
             destruct (confirm_refused reqID (vo.mkTransactionID reqID) w1 t')
               as (w2 & Hrun & Ht & Ha & _);
             [ exact Hparse | exact Hfaults | | proj_cbn; apply lookup_insert_eq
             | reflexivity | reflexivity | ]
         end.
    all: try (exists w2; split; [exact Hrun|]; split; [reflexivity|];
              split; assumption).
    + exact Hnone.
    + intros r. unfold noCachedResult in Hnone. proj_cbn.
      rewrite lookup_insert_ne by (unfold idempotencyKey; cbn; discriminate).
      apply Hnone.
  - (* any other status *)
    split; [done|]. split; [|done]. intros _. split; [done|]. split; [|done].
    reflexivity.
Qed.

(** *** Concurrent confirmations *)

(** A single invocation scheduled alone behaves as [run] says. *)
Lemma interleave_alone {A : Type} (p : Prog A) (w : World) :
  exists n : nat,
    interleave (replicate n 0%nat) [p] w = ([Ret (fst (run p w))], snd (run p w)).
Proof.
  revert w. induction p as [a | c k IH]; intros w.
  - exists 0%nat. reflexivity.
  - cbn [run]. destruct (perform c w) as [r' w'] eqn:Hperform.
    destruct (IH r' w') as [n Hn]. exists (S n).
    cbn [replicate interleave]. cbn. rewrite Hperform. exact Hn.
Qed.

(** C9 (the defect). Two confirmations of the same PENDING debit of 40 from
    an account holding 100.00, overlapping as in [sample.overlappingSchedule]:
    both are granted the lock, both return COMPLETED (with different
    payloads), the account is persisted twice and ends at 20.00. *)
Theorem concurrent_confirmations_both_mutate :
  let '(threads, w') :=
    interleave sample.overlappingSchedule
      [sample.confirmSample; sample.confirmSample] sample.world in
  (exists r0 r1 : dto.TransactionResponse.t,
      threads = [Ret (inr r0); Ret (inr r1)] /\
      dto.TransactionResponse.Status r0 = vo.TransactionStatusCompleted /\
      dto.TransactionResponse.Status r1 = vo.TransactionStatusCompleted /\
      r0 <> r1) /\
  List.length (List.filter persistsAccount (journal w')) = 2%nat /\
  (Account.Balance <$> accounts w' !! vo.AccountID.String sample.idA)
    = Some (vo.NewMoney (decimal.mkDecimal 2000 (-2))) /\
  (Account.Balance <$> accounts sample.world !! vo.AccountID.String sample.idA)
    = Some (vo.NewMoney (decimal.mkDecimal 10000 (-2))).
Proof.
  vm_compute. split; [|repeat split].
  eexists _, _. split; [reflexivity|]. split; [reflexivity|].
  split; [reflexivity|]. discriminate.
Qed.

(* ===================================================================== *)
(** ** Worked instances *)
(* ===================================================================== *)

Lemma sample_id_parses :
  vo.NewTransactionIDFromString (H := sample.runtime) sample.txnID
  = inr (vo.mkTransactionID sample.txnID).
Proof. vm_compute. reflexivity. Qed.

Lemma sample_nothing_cached : noCachedResult sample.txnID sample.world.
Proof. intros r. cbn. rewrite lookup_empty. discriminate. Qed.

(** Debiting 40 from 100.00 leaves 60.00, stamped with the current instant. *)
Lemma debit_positive_amount_witness :
  vo.IsPositive (vo.NewMoneyFromInt 40) = true /\
  Account.Debit 2000 (vo.NewMoneyFromInt 40) sample.accountA =
    ({| Account.ID := sample.idA; Account.AccountName := "A";
        Account.Balance := vo.NewMoney (decimal.mkDecimal 6000 (-2));
        Account.Status := vo.AccountStatusActive;
        Account.CreatedAt := 5; Account.UpdatedAt := 2000 |}, None).
Proof.
  split; [reflexivity|].
  exact (debit_positive_amount 2000 sample.accountA (vo.NewMoneyFromInt 40) eq_refl).
Defined.

(** An amount of -5 is rejected by Debit and by Credit. *)
Lemma nonpositive_amount_changes_nothing_witness :
  (vo.IsZero (vo.NewMoneyFromInt (-5)) = true
   \/ vo.IsNegative (vo.NewMoneyFromInt (-5)) = true) /\
  Account.Debit 2000 (vo.NewMoneyFromInt (-5)) sample.accountA
    = (sample.accountA, Some ErrInvalidTransactionAmount) /\
  Account.Credit 2000 (vo.NewMoneyFromInt (-5)) sample.accountA
    = (sample.accountA, Some ErrInvalidTransactionAmount).
Proof.
  split; [right; reflexivity|].
  exact (nonpositive_amount_changes_nothing 2000 sample.accountA
           (vo.NewMoneyFromInt (-5)) (or_intror eq_refl)).
Defined.

(** ACTIVE to SUSPENDED is allowed and stamps UpdatedAt; PENDING to
    CANCELLED is allowed and changes the Status only. *)
Lemma status_transitions_follow_tables_witness :
  Account.SetStatus 2000 "SUSPENDED" sample.accountA =
    ({| Account.ID := sample.idA; Account.AccountName := "A";
        Account.Balance := vo.NewMoney (decimal.mkDecimal 10000 (-2));
        Account.Status := "SUSPENDED";
        Account.CreatedAt := 5; Account.UpdatedAt := 2000 |}, None) /\
  Transaction.MarkAsCancelled sample.pendingDebit =
    (Transaction.withStatus "CANCELLED" None sample.pendingDebit, None).
Proof.
  split.
  - exact (proj1 status_transitions_follow_tables 2000 sample.accountA
             "SUSPENDED" (or_introl eq_refl)
             (or_intror (or_intror (or_introl eq_refl)))).
  - exact (proj2 (proj2 (proj2 status_transitions_follow_tables 2000
                           sample.pendingDebit (or_introl eq_refl)))).
Defined.

(** C5 as stated does not hold: PENDING to FAILED is in the table and
    MarkAsFailed succeeds, yet it is not the case that it updates a
    timestamp: CreatedAt and CompletedAt are what they were. *)
Lemma markAsFailed_updates_no_timestamp :
  tables.allows tables.transactionTable "PENDING" "FAILED" = true /\
  Transaction.MarkAsFailed sample.pendingDebit =
    (Transaction.withStatus "FAILED" None sample.pendingDebit, None) /\
  ~ (exists x',
        Transaction.MarkAsFailed sample.pendingDebit = (x', None) /\
        (Transaction.CreatedAt x' <> Transaction.CreatedAt sample.pendingDebit \/
         Transaction.CompletedAt x' <> Transaction.CompletedAt sample.pendingDebit)).
Proof.
  split; [reflexivity|]. split; [reflexivity|].
  intros (x' & Hmark & Hstamp). injection Hmark as <-.
  destruct Hstamp as [Hcreated | Hcompleted]; [apply Hcreated | apply Hcompleted];
    reflexivity.
Qed.

(** The lock is granted although the key already holds another token, and
    a confirmation that cannot write the lock fails with the cache's error,
    not with ErrTransactionAlreadyInProgress. *)
Lemma lock_acquisition_is_unconditional_witness :
  cache sample.worldWithLockHeld !! lockKey sample.txnID = Some (CachedLock 999) /\
  (exists w',
      run (acquireDistributedLock (lockKey sample.txnID) (30 * Second))
          sample.worldWithLockHeld = ((true, None), w') /\
      cache w' !! lockKey sample.txnID = Some (CachedLock 1000)) /\
  fst (run sample.confirmSample sample.worldWithCacheOutage)
    = inl (Errorf "failed to acquire lock: " ErrCacheUnavailable "") /\
  Is (Errorf "failed to acquire lock: " ErrCacheUnavailable "")
     ErrTransactionAlreadyInProgress = false.
Proof.
  split; [vm_compute; reflexivity|]. split; [|split].
  - exact (proj1 (lock_acquisition_is_unconditional (H := sample.runtime))
             (lockKey sample.txnID) (30 * Second) sample.worldWithLockHeld eq_refl).
  - vm_compute. reflexivity.
  - apply (proj2 (proj2 (lock_acquisition_is_unconditional (H := sample.runtime)))
             sample.confirmRequest sample.worldWithCacheOutage).
    vm_compute. reflexivity.
Defined.



(** Cancelling the sample debit while PENDING leaves it CANCELLED, after
    which its confirmation is refused. *)
Lemma cancel_only_while_pending_witness :
  exists w1 w2 : World,
    run (CancelTransaction (H := sample.runtime) sample.cancelRequest) sample.world
      = (None, w1) /\
    transactions w1 !! sample.txnID =
      Some (Transaction.withStatus "CANCELLED" None sample.pendingDebit) /\
    run sample.confirmSample w1
      = (inl (Errorf "" ErrTransactionCannotBeConfirmed " in status : CANCELLED"),
         w2).
Proof.
  pose proof (cancel_only_while_pending (H := sample.runtime) sample.txnID
                (vo.mkTransactionID sample.txnID) sample.world sample.pendingDebit
                sample_id_parses) as Hcancel.
  assert (run (CancelTransaction (H := sample.runtime) sample.cancelRequest)
              sample.world
          = (None,
             snd (run (CancelTransaction (H := sample.runtime) sample.cancelRequest)
                      sample.world)))
    as Hrun by (vm_compute; reflexivity).
  unfold sample.cancelRequest in Hrun. rewrite Hrun in Hcancel.
  destruct Hcancel as (_ & _ & Hpending).
  - vm_compute. reflexivity.
  - reflexivity.
  - destruct (Hpending eq_refl) as (_ & Hstored & Hconfirm).
    destruct (Hconfirm sample_nothing_cached) as (w2 & Hrefused & _).
    + vm_compute. reflexivity.
    + eexists _, w2. split; [exact Hrun|]. split; [|exact Hrefused].
      rewrite Hstored. apply lookup_insert_eq.
Defined.

(* ===================================================================== *)
(** ** Money, accounts and transactions: further properties *)
(* ===================================================================== *)

Import histories.

(** *** Decimals as integers in a common unit *)

(** Two decimals are compared, added and subtracted after the one with the
    larger exponent is rescaled to the smaller.  Counted in a unit
    [10 ^ m] that suits both, the operations are those of the integers:
    this is what the lemmas below say, and what turns a statement about
    Money into one about integers. *)

Lemma pow10_pos (k : Z) : 0 <= k -> 0 < 10 ^ k.
Proof. intros. apply Z.pow_pos_nonneg; lia. Qed.

Lemma pow10_split (a b m : Z) : m <= b -> b <= a ->
  10 ^ (a - m) = 10 ^ (a - b) * 10 ^ (b - m).
Proof. intros. rewrite <- Z.pow_add_r by lia. f_equal. lia. Qed.

Lemma RescalePair_units (a b : decimal.Decimal) (m : Z) :
  m <= decimal.exp a -> m <= decimal.exp b ->
  let '(ra, rb) := decimal.RescalePair a b in
  decimal.exp ra = Z.min (decimal.exp a) (decimal.exp b) /\
  decimal.exp rb = Z.min (decimal.exp a) (decimal.exp b) /\
  units m ra = units m a /\ units m rb = units m b.
Proof.
  intros Ha Hb. unfold decimal.RescalePair.
  destruct (Z.ltb_spec (decimal.exp a) (decimal.exp b)) as [Hlt|Hge].
  - rewrite rescale_down by lia. unfold units; cbn [decimal.exp decimal.value].
    repeat split; try lia.
    rewrite (pow10_split (decimal.exp b) (decimal.exp a) m) by lia. ring.
  - destruct (Z.gtb_spec (decimal.exp a) (decimal.exp b)) as [Hgt|Hle].
    + rewrite rescale_down by lia. unfold units; cbn [decimal.exp decimal.value].
      repeat split; try lia.
      rewrite (pow10_split (decimal.exp a) (decimal.exp b) m) by lia. ring.
    + repeat split; lia.
Qed.

Lemma Add_units (a b : decimal.Decimal) (m : Z) :
  m <= decimal.exp a -> m <= decimal.exp b ->
  m <= decimal.exp (decimal.Add a b) /\
  units m (decimal.Add a b) = units m a + units m b.
Proof.
  intros Ha Hb. pose proof (RescalePair_units a b m Ha Hb) as H.
  unfold decimal.Add. destruct (decimal.RescalePair a b) as [ra rb].
  destruct H as (Ea & Eb & Ua & Ub). cbn [decimal.exp]. split; [lia|].
  rewrite <- Ua, <- Ub. unfold units; cbn [decimal.exp decimal.value].
  rewrite Ea, Eb. ring.
Qed.

Lemma Sub_units (a b : decimal.Decimal) (m : Z) :
  m <= decimal.exp a -> m <= decimal.exp b ->
  m <= decimal.exp (decimal.Sub a b) /\
  units m (decimal.Sub a b) = units m a - units m b.
Proof.
  intros Ha Hb. pose proof (RescalePair_units a b m Ha Hb) as H.
  unfold decimal.Sub. destruct (decimal.RescalePair a b) as [ra rb].
  destruct H as (Ea & Eb & Ua & Ub). cbn [decimal.exp]. split; [lia|].
  rewrite <- Ua, <- Ub. unfold units; cbn [decimal.exp decimal.value].
  rewrite Ea, Eb. ring.
Qed.

Lemma Cmp_units (a b : decimal.Decimal) (m : Z) :
  m <= decimal.exp a -> m <= decimal.exp b ->
  decimal.Cmp a b = (units m a ?= units m b).
Proof.
  intros Ha Hb. unfold decimal.Cmp.
  destruct (Z.eqb_spec (decimal.exp a) (decimal.exp b)) as [He|Hne].
  - unfold units. rewrite He.
    apply Zmult_compare_compat_r. apply Z.lt_gt, pow10_pos. lia.
  - pose proof (RescalePair_units a b m Ha Hb) as H.
    destruct (decimal.RescalePair a b) as [ra rb].
    destruct H as (Ea & Eb & Ua & Ub).
    rewrite <- Ua, <- Ub. unfold units. rewrite Ea, Eb.
    apply Zmult_compare_compat_r. apply Z.lt_gt, pow10_pos. lia.
Qed.

Lemma Sign_units (a : decimal.Decimal) (m : Z) :
  m <= decimal.exp a -> decimal.Sign a = Z.sgn (units m a).
Proof.
  intros Ha. unfold decimal.Sign, units.
  rewrite Z.sgn_mul. rewrite (Z.sgn_pos (10 ^ _)) by (apply pow10_pos; lia). lia.
Qed.

Lemma compare_cases (x y : Z) :
  (x ?= y) = Lt /\ x < y \/ (x ?= y) = Eq /\ x = y \/ (x ?= y) = Gt /\ x > y.
Proof.
  destruct (Z.compare_spec x y); [right; left | left | right; right];
    (split; [reflexivity | lia]).
Qed.

(** Read every comparison in the goal and the hypotheses in the unit
    [10 ^ m]. *)
Ltac by_units m :=
  unfold vo.Equal, vo.LessThan, vo.LessThanOrEqual, vo.GreaterThan,
    vo.GreaterThanOrEqual, decimal.Equal, decimal.LessThan,
    decimal.LessThanOrEqual, decimal.GreaterThan, decimal.GreaterThanOrEqual in *;
  repeat match goal with
    | H : context [decimal.Cmp ?a ?b] |- _ =>
        rewrite (Cmp_units a b m) in H by (unfold floor2, floor3 in *; lia)
    | |- context [decimal.Cmp ?a ?b] =>
        rewrite (Cmp_units a b m) by (unfold floor2, floor3 in *; lia)
    end.

(** Split on the outcome of every integer comparison. *)
Ltac compare_split :=
  repeat match goal with
    | H : context [?x ?= ?y] |- _ =>
        let E := fresh "E" in
        destruct (compare_cases x y) as [[E ?]|[[E ?]|[E ?]]]; rewrite E in *; clear E
    | |- context [?x ?= ?y] =>
        let E := fresh "E" in
        destruct (compare_cases x y) as [[E ?]|[[E ?]|[E ?]]]; rewrite E in *; clear E
    end.

(** X1. The order tests of Money (GreaterThan, GreaterThanOrEqual,
    LessThan, LessThanOrEqual, Equal) describe one total order: each test is
    the mirror image or the negation of another, two amounts are Equal
    exactly when each is LessThanOrEqual the other, and the order is
    transitive, whatever the exponents the amounts are written with. *)
Theorem money_order_is_total (a b c : vo.Money) :
  vo.GreaterThan a b = vo.LessThan b a /\
  vo.GreaterThanOrEqual a b = vo.LessThanOrEqual b a /\
  vo.LessThanOrEqual a b = negb (vo.LessThan b a) /\
  vo.Equal a b = vo.LessThanOrEqual a b && vo.LessThanOrEqual b a /\
  (vo.LessThanOrEqual a b = true -> vo.LessThanOrEqual b c = true ->
   vo.LessThanOrEqual a c = true) /\
  (vo.LessThan a b = true -> vo.LessThanOrEqual b c = true ->
   vo.LessThan a c = true).
Proof.
  destruct a as [a], b as [b], c as [c]; cbn [vo.amount].
  by_units (floor3 a b c). cbn [vo.amount]. by_units (floor3 a b c).
  repeat split; compare_split; intros; try reflexivity; try discriminate; try lia.
Qed.

Lemma sgn_tests (x : Z) :
  ((Z.sgn x =? 0) = true /\ (Z.sgn x =? 1) = false /\ (Z.sgn x =? -1) = false /\ x = 0) \/
  ((Z.sgn x =? 0) = false /\ (Z.sgn x =? 1) = true /\ (Z.sgn x =? -1) = false /\ 0 < x) \/
  ((Z.sgn x =? 0) = false /\ (Z.sgn x =? 1) = false /\ (Z.sgn x =? -1) = true /\ x < 0).
Proof.
  destruct x; cbn; [left | right; left | right; right]; repeat split; lia.
Qed.

(** Split on the sign of every integer whose sign is tested. *)
Ltac sgn_split :=
  repeat match goal with
    | H : context [Z.sgn ?x =? _] |- _ =>
        let E0 := fresh "E" in let E1 := fresh "E" in let E2 := fresh "E" in
        destruct (sgn_tests x) as [(E0 & E1 & E2 & ?)|[(E0 & E1 & E2 & ?)|(E0 & E1 & E2 & ?)]];
        rewrite ?E0, ?E1, ?E2 in *; clear E0 E1 E2
    | |- context [Z.sgn ?x =? _] =>
        let E0 := fresh "E" in let E1 := fresh "E" in let E2 := fresh "E" in
        destruct (sgn_tests x) as [(E0 & E1 & E2 & ?)|[(E0 & E1 & E2 & ?)|(E0 & E1 & E2 & ?)]];
        rewrite ?E0, ?E1, ?E2 in *; clear E0 E1 E2
    end.

(** X2. Equal is an equivalence on Money (reflexive, symmetric,
    transitive) that every other operation respects: Equal operands give
    Equal sums and differences and the same answers to LessThan, Equal,
    IsZero, IsPositive and IsNegative.  So 1.0 and 1.00 are never told
    apart. *)
Theorem money_equal_is_a_congruence (a a' b b' : vo.Money) :
  vo.Equal a a = true /\
  vo.Equal a b = vo.Equal b a /\
  (vo.Equal a a' = true -> vo.Equal a' b = true -> vo.Equal a b = true) /\
  (vo.Equal a a' = true -> vo.Equal b b' = true ->
   vo.Equal (fst (vo.Add a b)) (fst (vo.Add a' b')) = true /\
   vo.Equal (fst (vo.Subtract a b)) (fst (vo.Subtract a' b')) = true /\
   vo.LessThan a b = vo.LessThan a' b' /\
   vo.Equal a b = vo.Equal a' b' /\
   vo.IsZero a = vo.IsZero a' /\
   vo.IsPositive a = vo.IsPositive a' /\
   vo.IsNegative a = vo.IsNegative a').
Proof.
  destruct a as [a], a' as [a'], b as [b], b' as [b'].
  unfold vo.Add, vo.Subtract. cbn [vo.amount fst].
  set (m := Z.min (floor2 a a') (floor2 b b')).
  assert (m <= decimal.exp a /\ m <= decimal.exp a' /\
          m <= decimal.exp b /\ m <= decimal.exp b') as (Ha & Ha' & Hb & Hb')
    by (unfold m, floor2; lia).
  destruct (Add_units a b m Ha Hb) as [Hab Uab].
  destruct (Add_units a' b' m Ha' Hb') as [Hab' Uab'].
  destruct (Sub_units a b m Ha Hb) as [Hsb Usb].
  destruct (Sub_units a' b' m Ha' Hb') as [Hsb' Usb'].
  unfold vo.Equal, vo.LessThan, decimal.Equal, decimal.LessThan. cbn [vo.amount].
  rewrite (Cmp_units a a m), (Cmp_units a b m), (Cmp_units b a m),
    (Cmp_units a a' m), (Cmp_units a' b m), (Cmp_units b b' m),
    (Cmp_units a' b' m), (Cmp_units _ _ m Hab Hab'), (Cmp_units _ _ m Hsb Hsb')
    by assumption.
  rewrite Uab, Uab', Usb, Usb'.
  unfold vo.IsZero, vo.IsPositive, vo.IsNegative, decimal.IsZero,
    decimal.IsPositive, decimal.IsNegative. cbn [vo.amount].
  rewrite (Sign_units a m Ha), (Sign_units a' m Ha').
  generalize (units m a) (units m a') (units m b) (units m b'). clear.
  intros x x' y y'.
  rewrite Z.compare_refl.
  repeat split; intros; compare_split; sgn_split;
    try reflexivity; try discriminate; try lia.
Qed.

(** X3. The sign tests of Money agree with its order: IsZero is
    Equal to ZeroMoney, IsPositive is GreaterThan ZeroMoney, IsNegative is
    LessThan ZeroMoney.  Abs is never negative, is idempotent, leaves an
    amount that is not negative as it is, and of a negative amount gives
    zero minus the amount. *)
Theorem money_sign_tests_agree_with_order (m : vo.Money) :
  vo.IsZero m = vo.Equal m vo.ZeroMoney /\
  vo.IsPositive m = vo.GreaterThan m vo.ZeroMoney /\
  vo.IsNegative m = vo.LessThan m vo.ZeroMoney /\
  vo.IsNegative (vo.Abs m) = false /\
  vo.Abs (vo.Abs m) = vo.Abs m /\
  (vo.IsNegative m = false -> vo.Abs m = m) /\
  (vo.IsNegative m = true ->
   vo.Equal (vo.Abs m) (fst (vo.Subtract vo.ZeroMoney m)) = true).
Proof.
  destruct m as [d].
  set (m := floor2 d decimal.Zero).
  assert (m <= decimal.exp d /\ m <= decimal.exp decimal.Zero) as [Hd Hz]
    by (unfold m, floor2; lia).
  assert (units m decimal.Zero = 0) as Uz by reflexivity.
  destruct (Sub_units decimal.Zero d m Hz Hd) as [Hs Us].
  assert (Habs : m <= decimal.exp (decimal.Abs d) /\
                 units m (decimal.Abs d) = Z.abs (units m d)).
  { unfold decimal.Abs, decimal.IsNegative. rewrite (Sign_units d m Hd).
    assert (0 < 10 ^ (decimal.exp d - m)) as Hp by (apply pow10_pos; lia).
    unfold units in *.
    destruct (Z.eqb_spec (Z.sgn (decimal.value d * 10 ^ (decimal.exp d - m))) (-1)) as [E|E];
      cbn [negb decimal.exp decimal.value]; (split; [lia|]).
    - rewrite Z.abs_mul, (Z.abs_eq (10 ^ _)) by lia. reflexivity.
    - symmetry. apply Z.abs_eq.
      destruct (sgn_tests (decimal.value d * 10 ^ (decimal.exp d - m)))
        as [(_ & _ & _ & ?)|[(_ & _ & _ & ?)|(_ & _ & E' & ?)]]; lia. }
  destruct Habs as [Ha Ua].
  assert (Hidem : decimal.IsNegative (decimal.Abs d) = false).
  { unfold decimal.IsNegative. rewrite (Sign_units _ m Ha), Ua. lia. }
  unfold vo.IsZero, vo.IsPositive, vo.IsNegative, vo.Equal, vo.GreaterThan,
    vo.LessThan, vo.Abs, vo.Subtract, vo.ZeroMoney, vo.NewMoney.
  cbn [vo.amount fst].
  split; [|split; [|split; [|split; [|split; [|split]]]]].
  - unfold decimal.IsZero, decimal.Equal.
    rewrite (Sign_units d m Hd), (Cmp_units d decimal.Zero m Hd Hz), Uz.
    compare_split; sgn_split; try reflexivity; lia.
  - unfold decimal.IsPositive, decimal.GreaterThan.
    rewrite (Sign_units d m Hd), (Cmp_units d decimal.Zero m Hd Hz), Uz.
    compare_split; sgn_split; try reflexivity; lia.
  - unfold decimal.IsNegative, decimal.LessThan.
    rewrite (Sign_units d m Hd), (Cmp_units d decimal.Zero m Hd Hz), Uz.
    compare_split; sgn_split; try reflexivity; lia.
  - exact Hidem.
  - f_equal. unfold decimal.Abs at 1. rewrite Hidem. reflexivity.
  - intros Hn. f_equal. unfold decimal.Abs. rewrite Hn. reflexivity.
  - intros Hn. unfold decimal.Equal.
    rewrite (Cmp_units _ _ m Ha Hs), Ua, Us, Uz.
    unfold decimal.IsNegative in Hn. rewrite (Sign_units d m Hd) in Hn.
    compare_split; sgn_split; try reflexivity; try discriminate; lia.
Qed.

(** Debit in terms of the order on Money. *)
Lemma debit_outcome (now : Time) (amount : vo.Money) (a : Account.t) :
  Account.Debit now amount a =
    if negb (vo.IsPositive amount) then (a, Some ErrInvalidTransactionAmount)
    else if vo.GreaterThan amount (Account.Balance a)
    then (a, Some ErrInsufficientBalance)
    else ({| Account.ID := Account.ID a;
             Account.AccountName := Account.AccountName a;
             Account.Balance := fst (vo.Subtract (Account.Balance a) amount);
             Account.Status := Account.Status a;
             Account.CreatedAt := Account.CreatedAt a;
             Account.UpdatedAt := now |}, None).
Proof.
  unfold Account.Debit.
  destruct amount as [d]. destruct (Account.Balance a) as [b] eqn:Hb.
  set (m := floor2 b d).
  assert (m <= decimal.exp b /\ m <= decimal.exp d) as [Hmb Hmd]
    by (unfold m, floor2; lia).
  destruct (Sub_units b d m Hmb Hmd) as [Hs Us].
  unfold vo.Subtract, vo.Amount, vo.IsZero, vo.IsPositive, vo.GreaterThan,
    decimal.IsZero, decimal.IsPositive, decimal.IsNegative, decimal.GreaterThan.
  cbn [vo.amount fst].
  rewrite (Sign_units d m Hmd), (Sign_units _ m Hs), Us, (Cmp_units d b m Hmd Hmb).
  compare_split; sgn_split; cbn [negb orb]; try reflexivity; lia.
Qed.

Lemma credit_outcome (now : Time) (amount : vo.Money) (a : Account.t) :
  Account.Credit now amount a =
    if negb (vo.IsPositive amount) then (a, Some ErrInvalidTransactionAmount)
    else ({| Account.ID := Account.ID a;
             Account.AccountName := Account.AccountName a;
             Account.Balance := fst (vo.Add (Account.Balance a) amount);
             Account.Status := Account.Status a;
             Account.CreatedAt := Account.CreatedAt a;
             Account.UpdatedAt := now |}, None).
Proof.
  unfold Account.Credit, vo.IsZero, vo.IsPositive, decimal.IsZero,
    decimal.IsPositive, decimal.Sign.
  sgn_split; reflexivity.
Qed.

(** X4. Account.Debit succeeds exactly when the amount is positive
    and LessThanOrEqual the balance; it returns ErrInsufficientBalance
    exactly when the amount is positive and GreaterThan the balance, and
    ErrInvalidTransactionAmount exactly when the amount is not positive.
    Account.Credit succeeds exactly when the amount is positive. *)
Theorem debit_succeeds_iff_funds_suffice
    (now : Time) (amount : vo.Money) (a : Account.t) :
  (snd (Account.Debit now amount a) = None <->
   vo.IsPositive amount = true /\
   vo.LessThanOrEqual amount (Account.Balance a) = true) /\
  (snd (Account.Debit now amount a) = Some ErrInsufficientBalance <->
   vo.IsPositive amount = true /\
   vo.GreaterThan amount (Account.Balance a) = true) /\
  (snd (Account.Debit now amount a) = Some ErrInvalidTransactionAmount <->
   vo.IsPositive amount = false) /\
  (snd (Account.Credit now amount a) = None <-> vo.IsPositive amount = true).
Proof.
  rewrite debit_outcome, credit_outcome.
  unfold vo.LessThanOrEqual, vo.GreaterThan, decimal.LessThanOrEqual,
    decimal.GreaterThan.
  destruct (vo.IsPositive amount); cbn [negb snd];
    destruct (decimal.Cmp (vo.amount amount) (vo.amount (Account.Balance a)));
    cbn [snd]; repeat split; intros; try tauto; try discriminate;
    try (destruct H; discriminate).
Qed.

(** *** Accounts *)

(** Splitting on the comparisons of a status with the status constants. *)
Ltac eqb_split :=
  repeat match goal with
    | |- context [String.eqb ?s ?c] =>
        destruct (String.eqb_spec s c); subst; cbn [negb andb orb] in *
    | H : context [String.eqb ?s ?c] |- _ =>
        destruct (String.eqb_spec s c); subst; cbn [negb andb orb] in *
    end.

Lemma account_transition_graph (s target : vo.AccountStatus) :
  vo.AccountStatus.CanTransitionTo s target = true <->
  vo.AccountStatus.IsValid s = true /\ vo.AccountStatus.IsValid target = true /\
  s <> target.
Proof.
  unfold vo.AccountStatus.CanTransitionTo, vo.AccountStatus.IsValid,
    vo.AccountStatusActive, vo.AccountStatusInactive, vo.AccountStatusSuspended.
  eqb_split; split; intros; try discriminate; try tauto;
    try (repeat split; (reflexivity || discriminate || congruence));
    try (destruct H as (? & ? & ?); (discriminate || congruence)).
Qed.

(** X5. Over all strings, AccountStatus.CanTransitionTo allows a
    move exactly between two different valid statuses: an unknown status
    neither moves nor is moved to, and no status moves to itself. *)
Theorem account_status_graph_is_complete (s target : vo.AccountStatus) :
  vo.AccountStatus.CanTransitionTo s target = true <->
  vo.AccountStatus.IsValid s = true /\ vo.AccountStatus.IsValid target = true /\
  s <> target.
Proof. apply account_transition_graph. Qed.

(** X6. Account.Suspend, Account.Activate and Account.Deactivate
    succeed exactly when SetStatus to SUSPENDED, ACTIVE and INACTIVE does,
    and then leave the same account; each succeeds exactly when the current
    status is valid and differs from its target. *)
Theorem named_transitions_are_SetStatus (now : Time) (a a' : Account.t) :
  (Account.Suspend now a = (a', None) <->
   Account.SetStatus now vo.AccountStatusSuspended a = (a', None)) /\
  (Account.Activate now a = (a', None) <->
   Account.SetStatus now vo.AccountStatusActive a = (a', None)) /\
  (Account.Deactivate now a = (a', None) <->
   Account.SetStatus now vo.AccountStatusInactive a = (a', None)) /\
  (snd (Account.Suspend now a) = None <->
   vo.AccountStatus.IsValid (Account.Status a) = true /\
   Account.Status a <> vo.AccountStatusSuspended) /\
  (snd (Account.Activate now a) = None <->
   vo.AccountStatus.IsValid (Account.Status a) = true /\
   Account.Status a <> vo.AccountStatusActive) /\
  (snd (Account.Deactivate now a) = None <->
   vo.AccountStatus.IsValid (Account.Status a) = true /\
   Account.Status a <> vo.AccountStatusInactive).
Proof.
  unfold Account.Suspend, Account.Activate, Account.Deactivate, Account.SetStatus.
  change (vo.AccountStatus.IsValid vo.AccountStatusSuspended) with true.
  change (vo.AccountStatus.IsValid vo.AccountStatusActive) with true.
  change (vo.AccountStatus.IsValid vo.AccountStatusInactive) with true.
  cbn [negb].
  pose proof (account_transition_graph (Account.Status a)) as G.
  repeat split;
    try (destruct (vo.AccountStatus.CanTransitionTo _ _) eqn:E; cbn [negb snd];
         first [ tauto | discriminate
               | intros; apply G in E; (tauto || apply E)
               | intros [? ?]; exfalso;
                 match type of E with
                 | vo.AccountStatus.CanTransitionTo _ ?t = false =>
                     assert (vo.AccountStatus.CanTransitionTo (Account.Status a) t = true)
                       by (apply G; repeat split; (assumption || reflexivity));
                     congruence
                 end ]).
Qed.

(** What one call of a method of Account preserves. *)
Lemma applyAccountOp_preserves (op : AccountOp) (a : Account.t) :
  let a' := fst (applyAccountOp op a) in
  Account.ID a' = Account.ID a /\
  Account.AccountName a' = Account.AccountName a /\
  Account.CreatedAt a' = Account.CreatedAt a /\
  (vo.IsNegative (Account.Balance a) = false ->
   vo.IsNegative (Account.Balance a') = false) /\
  (vo.AccountStatus.IsValid (Account.Status a) = true ->
   vo.AccountStatus.IsValid (Account.Status a') = true).
Proof.
  destruct op as [now amount|now amount|now|now|now|now status];
    cbn [applyAccountOp].
  - rewrite debit_outcome.
    destruct (vo.IsPositive amount) eqn:Hp; cbn [negb fst]; [|tauto].
    destruct (vo.GreaterThan amount (Account.Balance a)) eqn:Hg; cbn [fst]; [tauto|].
    cbn [Account.ID Account.AccountName Account.CreatedAt Account.Balance Account.Status].
    repeat split; try tauto. intros _.
    destruct amount as [d]. destruct (Account.Balance a) as [b].
    set (m := floor2 b d).
    assert (m <= decimal.exp b /\ m <= decimal.exp d) as [Hmb Hmd]
      by (unfold m, floor2; lia).
    destruct (Sub_units b d m Hmb Hmd) as [Hs Us].
    unfold vo.GreaterThan, decimal.GreaterThan, vo.IsNegative, vo.Subtract,
      decimal.IsNegative in *. cbn [vo.amount fst] in *.
    rewrite (Cmp_units d b m Hmd Hmb) in Hg.
    rewrite (Sign_units _ m Hs), Us.
    compare_split; sgn_split; try reflexivity; try discriminate; lia.
  - rewrite credit_outcome.
    destruct (vo.IsPositive amount) eqn:Hp; cbn [negb fst]; [|tauto].
    cbn [Account.ID Account.AccountName Account.CreatedAt Account.Balance Account.Status].
    repeat split; try tauto.
    destruct amount as [d]. destruct (Account.Balance a) as [b].
    set (m := floor2 b d).
    assert (m <= decimal.exp b /\ m <= decimal.exp d) as [Hmb Hmd]
      by (unfold m, floor2; lia).
    destruct (Add_units b d m Hmb Hmd) as [Hs Us].
    unfold vo.IsPositive, vo.IsNegative, vo.Add, decimal.IsPositive,
      decimal.IsNegative in *. cbn [vo.amount fst] in *.
    rewrite (Sign_units d m Hmd) in Hp.
    rewrite (Sign_units b m Hmb), (Sign_units _ m Hs), Us.
    intros Hb. sgn_split; try reflexivity; try discriminate; lia.
  - unfold Account.Suspend.
    destruct (vo.AccountStatus.CanTransitionTo _ _); cbn; tauto.
  - unfold Account.Activate.
    destruct (vo.AccountStatus.CanTransitionTo _ _); cbn; tauto.
  - unfold Account.Deactivate.
    destruct (vo.AccountStatus.CanTransitionTo _ _); cbn; tauto.
  - unfold Account.SetStatus.
    destruct (vo.AccountStatus.IsValid status) eqn:Hv; cbn [negb fst]; [|tauto].
    destruct (vo.AccountStatus.CanTransitionTo _ _); cbn; tauto.
Qed.

Lemma account_history (ops : list AccountOp) (a : Account.t) :
  let a' := applyAccountOps ops a in
  Account.ID a' = Account.ID a /\
  Account.AccountName a' = Account.AccountName a /\
  Account.CreatedAt a' = Account.CreatedAt a /\
  (vo.IsNegative (Account.Balance a) = false ->
   vo.IsNegative (Account.Balance a') = false) /\
  (vo.AccountStatus.IsValid (Account.Status a) = true ->
   vo.AccountStatus.IsValid (Account.Status a') = true).
Proof.
  revert a. induction ops as [|op rest IH]; intros a; cbn [applyAccountOps].
  - tauto.
  - destruct (applyAccountOp_preserves op a) as (H1 & H2 & H3 & H4 & H5).
    destruct (IH (fst (applyAccountOp op a))) as (I1 & I2 & I3 & I4 & I5).
    cbv zeta. rewrite I1, I2, I3. repeat split; auto.
Qed.

(** X7. Whatever sequence of Debit, Credit, Suspend, Activate,
    Deactivate and SetStatus calls is made on an account, failed calls
    included, its ID, its name and its creation time stay as they were, a
    balance that was not negative is not negative afterwards, and a valid
    status stays valid. *)
Theorem account_history_invariants (ops : list AccountOp) (a : Account.t) :
  let a' := applyAccountOps ops a in
  Account.ID a' = Account.ID a /\
  Account.AccountName a' = Account.AccountName a /\
  Account.CreatedAt a' = Account.CreatedAt a /\
  (vo.IsNegative (Account.Balance a) = false ->
   vo.IsNegative (Account.Balance a') = false) /\
  (vo.AccountStatus.IsValid (Account.Status a) = true ->
   vo.AccountStatus.IsValid (Account.Status a') = true).
Proof. apply account_history. Qed.

(** X8. On an account whose balance is not negative, crediting a
    positive amount and then debiting the same amount both succeed and give
    back a balance Equal to the first one, the status and the ID
    untouched. *)
Theorem debit_undoes_credit (now now' : Time) (amount : vo.Money) (a : Account.t) :
  vo.IsPositive amount = true ->
  vo.IsNegative (Account.Balance a) = false ->
  exists a' a'',
    Account.Credit now amount a = (a', None) /\
    Account.Debit now' amount a' = (a'', None) /\
    vo.Equal (Account.Balance a'') (Account.Balance a) = true /\
    Account.Status a'' = Account.Status a /\ Account.ID a'' = Account.ID a.
Proof.
  intros Hp Hb. rewrite credit_outcome, Hp. cbn [negb].
  match goal with |- exists a' a'', (?x, None) = _ /\ _ => exists x end.
  rewrite debit_outcome, Hp. cbn [negb Account.Balance].
  destruct amount as [d]. destruct (Account.Balance a) as [b] eqn:Eb.
  set (m := floor2 b d).
  assert (m <= decimal.exp b /\ m <= decimal.exp d) as [Hmb Hmd]
    by (unfold m, floor2; lia).
  destruct (Add_units b d m Hmb Hmd) as [Hs Us].
  destruct (Sub_units _ d m Hs Hmd) as [Hs' Us'].
  assert (Hle : vo.GreaterThan {| vo.amount := d |}
                  (fst (vo.Add {| vo.amount := b |} {| vo.amount := d |})) = false).
  { unfold vo.GreaterThan, decimal.GreaterThan, vo.Add, vo.IsNegative,
      decimal.IsNegative in *. cbn [vo.amount fst] in *.
    rewrite (Cmp_units d _ m Hmd Hs), Us.
    rewrite (Sign_units b m Hmb) in Hb.
    compare_split; sgn_split; try reflexivity; try discriminate; lia. }
  rewrite Hle. eexists. split; [reflexivity|]. split; [reflexivity|].
  cbn [Account.Balance Account.Status Account.ID]. repeat split.
  unfold vo.Equal, decimal.Equal, vo.Subtract, vo.Add. cbn [vo.amount fst].
  rewrite (Cmp_units _ b m Hs' Hmb), Us', Us.
  replace (units m b + units m d - units m d) with (units m b) by ring.
  rewrite Z.compare_refl. reflexivity.
Qed.

(** X9. An account that NewAccount returns carries the given
    identifier, the trimmed name (which is not empty), the given balance and
    can transact; when the opening balance is not negative, every later
    sequence of calls on the account leaves the identifier, the name and the
    creation time in place, the balance not negative and the status
    valid. *)
Theorem opened_account_stays_sound `{!GoRuntime}
    (id : vo.AccountID) (now : Time) (accountName : string) (initialBalance : vo.Money)
    (a : Account.t) (ops : list AccountOp) :
  NewAccount id now accountName initialBalance = inr a ->
  vo.IsNegative initialBalance = false ->
  let a' := applyAccountOps ops a in
  Account.ID a' = id /\
  Account.AccountName a' = strings_TrimSpace accountName /\
  Account.AccountName a' <> "" /\
  Account.CreatedAt a' = now /\
  vo.IsNegative (Account.Balance a') = false /\
  vo.AccountStatus.IsValid (Account.Status a') = true /\
  Account.CanTransact a = true /\
  Account.Balance a = initialBalance.
Proof.
  intros Hnew Hbal. unfold NewAccount in Hnew.
  destruct (String.eqb_spec (strings_TrimSpace accountName) "") as [|Hname];
    [discriminate|].
  injection Hnew as <-. cbv zeta.
  match goal with
  | |- context [applyAccountOps ops ?a0] =>
      destruct (account_history ops a0) as (-> & -> & -> & Hb & Hs)
  end.
  cbn [Account.ID Account.AccountName Account.CreatedAt Account.Balance
       Account.Status] in *.
  repeat split; auto.
Qed.

(** *** Transactions *)

Ltac transaction_unfold :=
  unfold applyTransactionOp, Transaction.MarkAsCompleted, Transaction.MarkAsFailed,
    Transaction.MarkAsCancelled, Transaction.SetStatus,
    vo.TransactionStatus.CanTransitionTo, vo.TransactionStatus.IsValid,
    vo.TransactionStatus.IsCompleted,
    vo.TransactionStatusPending, vo.TransactionStatusCompleted,
    vo.TransactionStatusFailed, vo.TransactionStatusCancelled in *.

(** X10. Transaction.SetStatus with COMPLETED, FAILED or CANCELLED
    is MarkAsCompleted, MarkAsFailed or MarkAsCancelled: same transaction
    afterwards, same error with the same message.  SetStatus to PENDING and
    SetStatus to a string that is no status always fail and leave the
    transaction as it was. *)
Theorem SetStatus_agrees_with_the_mark_methods (now : Time) (x : Transaction.t) :
  Transaction.SetStatus now vo.TransactionStatusCompleted x
    = Transaction.MarkAsCompleted now x /\
  Transaction.SetStatus now vo.TransactionStatusFailed x
    = Transaction.MarkAsFailed x /\
  Transaction.SetStatus now vo.TransactionStatusCancelled x
    = Transaction.MarkAsCancelled x /\
  (exists e, Transaction.SetStatus now vo.TransactionStatusPending x = (x, Some e)) /\
  (forall status,
      vo.TransactionStatus.IsValid status = false ->
      exists e, Transaction.SetStatus now status x = (x, Some e)).
Proof.
  split; [|split; [|split; [|split]]].
  - transaction_unfold. cbn [String.eqb Ascii.eqb Bool.eqb negb orb andb].
    eqb_split; reflexivity.
  - transaction_unfold. cbn [String.eqb Ascii.eqb Bool.eqb negb orb andb].
    eqb_split; reflexivity.
  - transaction_unfold. cbn [String.eqb Ascii.eqb Bool.eqb negb orb andb].
    eqb_split; reflexivity.
  - transaction_unfold. cbn [String.eqb Ascii.eqb Bool.eqb negb orb andb].
    eqb_split; eexists; reflexivity.
  - intros status Hv. unfold Transaction.SetStatus. rewrite Hv. cbn [negb].
    eexists; reflexivity.
Qed.


Lemma applyTransactionOp_cases (op : TransactionOp) (x : Transaction.t) :
  (exists e, applyTransactionOp op x = (x, Some e)) \/
  (exists status completedAt,
      applyTransactionOp op x = (Transaction.withStatus status completedAt x, None) /\
      vo.TransactionStatus.CanTransitionTo (Transaction.Status x) status = true /\
      vo.TransactionStatus.IsValid status = true /\
      (if String.eqb status vo.TransactionStatusCompleted
       then is_Some completedAt else completedAt = Transaction.CompletedAt x)).
Proof.
  destruct op as [now| | |now status]; cbn [applyTransactionOp].
  - unfold Transaction.MarkAsCompleted.
    destruct (vo.TransactionStatus.CanTransitionTo _ _) eqn:E; cbn [negb];
      [right|left; eauto].
    do 2 eexists. split; [reflexivity|]. split; [exact E|]. split; [reflexivity|].
    cbn. eauto.
  - unfold Transaction.MarkAsFailed.
    destruct (vo.TransactionStatus.CanTransitionTo _ _) eqn:E; cbn [negb];
      [right|left; eauto].
    do 2 eexists. split; [reflexivity|]. split; [exact E|]. split; reflexivity.
  - unfold Transaction.MarkAsCancelled.
    destruct (vo.TransactionStatus.CanTransitionTo _ _) eqn:E; cbn [negb];
      [right|left; eauto].
    do 2 eexists. split; [reflexivity|]. split; [exact E|]. split; reflexivity.
  - unfold Transaction.SetStatus.
    destruct (vo.TransactionStatus.IsValid status) eqn:V; cbn [negb]; [|left; eauto].
    destruct (vo.TransactionStatus.CanTransitionTo _ _) eqn:E; cbn [negb];
      [|left; eauto].
    right. unfold vo.TransactionStatus.IsCompleted.
    destruct (String.eqb status vo.TransactionStatusCompleted) eqn:C;
      do 2 eexists; (split; [reflexivity|]); rewrite ?C; repeat split; eauto.
Qed.

Lemma completed_is_no_target_of_failed (s status : string) :
  vo.TransactionStatus.CanTransitionTo s status = true ->
  s = vo.TransactionStatusPending \/
  s = vo.TransactionStatusFailed /\ status = vo.TransactionStatusCancelled.
Proof.
  unfold vo.TransactionStatus.CanTransitionTo.
  destruct (String.eqb_spec s vo.TransactionStatusPending); [tauto|].
  destruct (String.eqb_spec s vo.TransactionStatusCompleted); [discriminate|].
  destruct (String.eqb_spec s vo.TransactionStatusFailed).
  - destruct (String.eqb_spec status vo.TransactionStatusCancelled); [tauto|discriminate].
  - destruct (String.eqb_spec s vo.TransactionStatusCancelled); discriminate.
Qed.

Lemma applyTransactionOp_preserves (op : TransactionOp) (x : Transaction.t) :
  settled x ->
  settled (fst (applyTransactionOp op x)) /\
  sameRequest x (fst (applyTransactionOp op x)).
Proof.
  intros [Hv Hc].
  destruct (applyTransactionOp_cases op x) as [[e ->]|(status & c & -> & Ht & Hs & Hk)];
    cbn [fst].
  - split; [split; assumption|]. repeat split.
  - split; [|repeat split]. split; [exact Hs|].
    cbn [Transaction.withStatus Transaction.Status Transaction.CompletedAt].
    destruct (String.eqb_spec status vo.TransactionStatusCompleted) as [->|Hne].
    + tauto.
    + subst c. split; [contradiction|]. intros Hsome. apply Hc in Hsome.
      apply completed_is_no_target_of_failed in Ht. rewrite Hsome in Ht.
      destruct Ht as [?|[? _]]; discriminate.
Qed.

Lemma created_settled `{!GoRuntime} (x : Transaction.t) :
  created x ->
  Transaction.Status x = vo.TransactionStatusPending /\
  Transaction.CompletedAt x = None /\
  vo.IsZero (Transaction.Amount x) = false /\
  match Transaction.FromAccountID x, Transaction.ToAccountID x with
  | Some from, None =>
      Transaction.TransactionType x = vo.TransactionTypeDebit /\
      vo.AccountID.IsEmpty from = false
  | None, Some to =>
      Transaction.TransactionType x = vo.TransactionTypeCredit /\
      vo.AccountID.IsEmpty to = false
  | Some from, Some to =>
      Transaction.TransactionType x = vo.TransactionTypeTransfer /\
      vo.AccountID.IsEmpty from = false /\ vo.AccountID.IsEmpty to = false /\
      from <> to
  | None, None => False
  end.
Proof.
  intros [Hc|[Hc|Hc]].
  - destruct Hc as (id & now & from & amount & d & r & Hc).
    unfold NewDebitTransaction in Hc.
    destruct (vo.AccountID.IsEmpty from) eqn:E1; [discriminate|].
    destruct (vo.IsZero amount) eqn:E2; [discriminate|].
    injection Hc as <-. cbn. auto.
  - destruct Hc as (id & now & to & amount & d & r & Hc).
    unfold NewCreditTransaction in Hc.
    destruct (vo.AccountID.IsEmpty to) eqn:E1; [discriminate|].
    destruct (vo.IsZero amount) eqn:E2; [discriminate|].
    injection Hc as <-. cbn. auto.
  - destruct Hc as (id & now & from & to & amount & d & r & Hc).
    unfold NewTransferTransaction in Hc.
    destruct (vo.AccountID.IsEmpty from) eqn:E1; [discriminate|].
    destruct (vo.AccountID.IsEmpty to) eqn:E2; [discriminate|].
    destruct (String.eqb_spec (vo.AccountID.String from) (vo.AccountID.String to))
      as [?|E3]; [discriminate|].
    destruct (vo.IsZero amount) eqn:E4; [discriminate|].
    injection Hc as <-. cbn. repeat split; auto. intros ->. auto.
Qed.

(** X11. A transaction made by one of the three factories and then
    put through any sequence of MarkAsCompleted, MarkAsFailed,
    MarkAsCancelled and SetStatus calls, failed calls included, always has a
    valid status, has a completion time exactly when its status is
    COMPLETED, keeps its ID, accounts, type, amount, description, reference
    and creation time, has an amount that is not zero, and has the accounts
    its type asks for: a source only for DEBIT, a destination only for
    CREDIT, two different accounts for TRANSFER. *)
Theorem transaction_history_invariants `{!GoRuntime}
    (ops : list TransactionOp) (x : Transaction.t) :
  created x ->
  let x' := applyTransactionOps ops x in
  vo.TransactionStatus.IsValid (Transaction.Status x') = true /\
  (Transaction.Status x' = vo.TransactionStatusCompleted <->
   is_Some (Transaction.CompletedAt x')) /\
  sameRequest x x' /\
  vo.IsZero (Transaction.Amount x') = false /\
  match Transaction.FromAccountID x', Transaction.ToAccountID x' with
  | Some from, None =>
      Transaction.TransactionType x' = vo.TransactionTypeDebit /\
      vo.AccountID.IsEmpty from = false
  | None, Some to =>
      Transaction.TransactionType x' = vo.TransactionTypeCredit /\
      vo.AccountID.IsEmpty to = false
  | Some from, Some to =>
      Transaction.TransactionType x' = vo.TransactionTypeTransfer /\
      vo.AccountID.IsEmpty from = false /\ vo.AccountID.IsEmpty to = false /\
      from <> to
  | None, None => False
  end.
Proof.
  intros Hc. apply created_settled in Hc as (Hs & Hn & Hz & Hshape).
  assert (Hset : settled x).
  { split; [rewrite Hs; reflexivity|]. rewrite Hs, Hn. split; [discriminate|].
    intros [? ?]; discriminate. }
  cbv zeta.
  enough (settled (applyTransactionOps ops x) /\
          sameRequest x (applyTransactionOps ops x)) as [[? ?] S].
  { pose proof S as (? & Ef & Et & Ety & Ea & ? & ? & ?).
    rewrite Ef, Et, Ety, Ea. tauto. }
  clear Hs Hn Hz Hshape. revert x Hset.
  induction ops as [|op rest IH]; intros x Hset; cbn [applyTransactionOps].
  - split; [assumption|repeat split].
  - destruct (applyTransactionOp_preserves op x Hset) as [Hset' Hsame].
    destruct (IH _ Hset') as [? Hsame']. split; [assumption|].
    unfold sameRequest in *. intuition congruence.
Qed.

Lemma stuck_op (op : TransactionOp) (x : Transaction.t) :
  Transaction.Status x <> vo.TransactionStatusPending ->
  Transaction.Status x <> vo.TransactionStatusFailed ->
  exists e, applyTransactionOp op x = (x, Some e).
Proof.
  intros Hp Hf.
  destruct (applyTransactionOp_cases op x) as [?|(status & c & _ & Ht & _)];
    [assumption|].
  apply completed_is_no_target_of_failed in Ht. tauto.
Qed.

Lemma stuck_history (ops : list TransactionOp) (x : Transaction.t) :
  Transaction.Status x <> vo.TransactionStatusPending ->
  Transaction.Status x <> vo.TransactionStatusFailed ->
  applyTransactionOps ops x = x /\ succeeded ops x = 0%nat.
Proof.
  intros Hp Hf. induction ops as [|op rest IH]; [split; reflexivity|].
  destruct (stuck_op op x Hp Hf) as [e He].
  cbn [applyTransactionOps succeeded]. rewrite He. cbn [fst]. exact IH.
Qed.

Lemma transition_leaves_pending (status s : string) :
  vo.TransactionStatus.CanTransitionTo s status = true ->
  status <> vo.TransactionStatusPending.
Proof.
  unfold vo.TransactionStatus.CanTransitionTo. intros Ht ->. revert Ht.
  eqb_split; discriminate.
Qed.

Lemma succeeded_after_failed (ops : list TransactionOp) (x : Transaction.t) :
  Transaction.Status x <> vo.TransactionStatusPending ->
  (succeeded ops x <= 1)%nat.
Proof.
  revert x. induction ops as [|op rest IH]; intros x Hp; cbn [succeeded]; [lia|].
  destruct (applyTransactionOp_cases op x) as [[e ->]|(status & c & -> & Ht & _)].
  - specialize (IH x Hp). lia.
  - apply completed_is_no_target_of_failed in Ht as [?|[Hf ->]]; [contradiction|].
    destruct (stuck_history rest
                (Transaction.withStatus vo.TransactionStatusCancelled c x)) as [_ ->];
      cbn; (discriminate || lia).
Qed.

(** X12. In any sequence of status calls on a transaction at most
    two succeed, at most one once the transaction has left PENDING, and none
    once it is COMPLETED or CANCELLED (or carries an unknown status): the
    transaction then stays exactly as it is.  A transaction found PENDING
    after a sequence of calls has not been changed by any of them. *)
Theorem transaction_status_settles (ops : list TransactionOp) (x : Transaction.t) :
  (succeeded ops x <= 2)%nat /\
  (Transaction.Status x <> vo.TransactionStatusPending -> (succeeded ops x <= 1)%nat) /\
  (Transaction.Status x <> vo.TransactionStatusPending ->
   Transaction.Status x <> vo.TransactionStatusFailed ->
   applyTransactionOps ops x = x /\ succeeded ops x = 0%nat) /\
  (Transaction.Status (applyTransactionOps ops x) = vo.TransactionStatusPending ->
   applyTransactionOps ops x = x /\ succeeded ops x = 0%nat).
Proof.
  split; [|split; [apply succeeded_after_failed|split; [apply stuck_history|]]].
  - revert x. induction ops as [|op rest IH]; intros x; cbn [succeeded]; [lia|].
    destruct (applyTransactionOp_cases op x) as [[e ->]|(status & c & -> & Ht & _)].
    + specialize (IH x). lia.
    + apply transition_leaves_pending in Ht.
      pose proof (succeeded_after_failed rest (Transaction.withStatus status c x) Ht). lia.
  - revert x. induction ops as [|op rest IH]; intros x; cbn [succeeded applyTransactionOps];
      [split; reflexivity|].
    destruct (applyTransactionOp_cases op x) as [[e ->]|(status & c & -> & Ht & _)];
      cbn [fst]; [apply IH|].
    intros Hp. exfalso. apply transition_leaves_pending in Ht.
    destruct (IH _ Hp) as [E _]. rewrite E in Hp. contradiction.
Qed.

(* ===================================================================== *)
(** ** Identifiers *)
(* ===================================================================== *)

Lemma digit_is_digit (k : Z) :
  0 <= k < 10 ->
  strconv.isDigit (fmt.digit k) = true /\
  Z.of_nat (nat_of_ascii (fmt.digit k)) - 48 = k.
Proof.
  intros Hk.
  assert (k = 0 \/ k = 1 \/ k = 2 \/ k = 3 \/ k = 4 \/ k = 5 \/ k = 6 \/ k = 7
          \/ k = 8 \/ k = 9) as Hc by lia.
  repeat (destruct Hc as [->|Hc]; [split; reflexivity|]). subst. split; reflexivity.
Qed.

Lemma digitsValue_app (l1 l2 : list ascii) (acc : Z) :
  strconv.digitsValue acc (string_of_list_ascii (l1 ++ l2)) =
  match strconv.digitsValue acc (string_of_list_ascii l1) with
  | Some v => strconv.digitsValue v (string_of_list_ascii l2)
  | None => None
  end.
Proof.
  revert acc. induction l1 as [|c l1 IH]; intros acc; cbn; [reflexivity|].
  destruct (strconv.isDigit c); [apply IH|reflexivity].
Qed.

Lemma digitsValue_zeros (k : nat) (acc : Z) :
  strconv.digitsValue acc (string_of_list_ascii (List.repeat "0"%char k))
  = Some (acc * 10 ^ Z.of_nat k).
Proof.
  revert acc. induction k as [|k IH]; intros acc.
  - cbn. f_equal. lia.
  - cbn [List.repeat string_of_list_ascii strconv.digitsValue].
    change (strconv.isDigit "0") with true. cbv iota.
    rewrite IH. f_equal. rewrite Nat2Z.inj_succ, Z.pow_succ_r by lia.
    change (Z.of_nat (nat_of_ascii "0") - 48) with 0. ring.
Qed.

Lemma digitsRev_value (fuel : nat) (n acc : Z) :
  0 <= n < 10 ^ Z.of_nat fuel ->
  strconv.digitsValue acc (string_of_list_ascii (rev (fmt.digitsRev fuel n)))
  = Some (acc * 10 ^ Z.of_nat (List.length (fmt.digitsRev fuel n)) + n).
Proof.
  revert n acc. induction fuel as [|fuel IH]; intros n acc Hn.
  - cbn in *. f_equal. lia.
  - cbn [fmt.digitsRev]. destruct (Z.ltb_spec n 10) as [Hlt|Hge].
    + cbn [rev app string_of_list_ascii strconv.digitsValue List.length].
      destruct (digit_is_digit n) as [-> ->]; [lia|]. f_equal. lia.
    + cbn [rev List.length]. rewrite digitsValue_app.
      rewrite Nat2Z.inj_succ, Z.pow_succ_r in Hn by lia.
      rewrite IH by (split; [apply Z.div_pos; lia | apply Z.div_lt_upper_bound; lia]).
      cbn [string_of_list_ascii strconv.digitsValue].
      destruct (digit_is_digit (n mod 10)) as [-> ->];
        [apply Z.mod_pos_bound; lia|].
      f_equal. rewrite Nat2Z.inj_succ, Z.pow_succ_r by lia.
      pose proof (Z.div_mod n 10). lia.
Qed.

Lemma digitsRev_length (fuel : nat) (k : nat) (n : Z) :
  0 <= n < 10 ^ Z.of_nat (S k) -> (1 <= fuel)%nat ->
  (1 <= List.length (fmt.digitsRev fuel n) <= S k)%nat.
Proof.
  revert k n. induction fuel as [|fuel IH]; intros k n Hn Hf; [lia|].
  cbn [fmt.digitsRev]. destruct (Z.ltb_spec n 10) as [Hlt|Hge]; cbn [List.length]; [lia|].
  destruct k as [|k]; [cbn in Hn; lia|].
  destruct fuel as [|fuel]; [cbn; lia|].
  rewrite Nat2Z.inj_succ, Z.pow_succ_r in Hn by lia.
  specialize (IH k (n / 10)).
  assert (0 <= n / 10 < 10 ^ Z.of_nat (S k)) as Hd
    by (split; [apply Z.div_pos; lia | apply Z.div_lt_upper_bound; lia]).
  specialize (IH Hd). lia.
Qed.

Lemma enough_fuel (n : Z) :
  0 <= n -> n < 10 ^ Z.of_nat (S (Z.to_nat (Z.log2 n))).
Proof.
  intros Hn. destruct (Z.eq_dec n 0) as [->|Hne]; [reflexivity|].
  pose proof (Z.log2_nonneg n).
  rewrite Nat2Z.inj_succ, Z2Nat.id by lia.
  destruct (Z.log2_spec n) as [_ Hlt]; [lia|].
  eapply Z.lt_le_trans; [exact Hlt|].
  apply Z.pow_le_mono_l. lia.
Qed.

Lemma length_string_of_list (l : list ascii) :
  String.length (string_of_list_ascii l) = List.length l.
Proof. induction l as [|c l IH]; cbn; [reflexivity|]. rewrite IH. reflexivity. Qed.

Lemma append_cons (x : ascii) (a b : string) :
  (String x a ++ b) = String x (a ++ b).
Proof. reflexivity. Qed.

Lemma append_nil (b : string) : ("" ++ b) = b.
Proof. reflexivity. Qed.

Lemma length_append (a b : string) :
  String.length (a ++ b) = (String.length a + String.length b)%nat.
Proof.
  induction a as [|c a IH]; [reflexivity|].
  rewrite append_cons. cbn [String.length]. rewrite IH. reflexivity.
Qed.

Lemma substring_whole (b : string) :
  String.substring 0 (String.length b) b = b.
Proof. induction b as [|c b IH]; cbn; [reflexivity|]. rewrite IH. reflexivity. Qed.

Lemma substring_head (b c : string) :
  String.substring 0 (String.length b) (b ++ c) = b.
Proof.
  induction b as [|x b IH].
  - rewrite append_nil. destruct c; reflexivity.
  - rewrite append_cons. cbn [String.length String.substring]. rewrite IH. reflexivity.
Qed.

Lemma substring_skip (a s : string) (n : nat) :
  String.substring (String.length a) n (a ++ s) = String.substring 0 n s.
Proof.
  induction a as [|x a IH]; [reflexivity|].
  rewrite append_cons. cbn [String.length String.substring]. exact IH.
Qed.

(** The padded rendering of [n] reads back as [n] and has exactly [width]
    characters when [n] has at most [width] digits. *)
Lemma SprintfPadded_spec (width : nat) (n acc : Z) :
  0 <= n < 10 ^ Z.of_nat width -> (1 <= width)%nat ->
  String.length (fmt.SprintfPadded width n) = width /\
  strconv.digitsValue acc (fmt.SprintfPadded width n)
    = Some (acc * 10 ^ Z.of_nat width + n).
Proof.
  intros Hn Hw. unfold fmt.SprintfPadded, fmt.decimalDigits.
  set (fuel := S (Z.to_nat (Z.log2 n))).
  destruct width as [|k]; [lia|].
  pose proof (digitsRev_length fuel k n Hn ltac:(unfold fuel; lia)) as Hlen.
  pose proof (enough_fuel n ltac:(lia)) as Hfuel. fold fuel in Hfuel.
  split.
  - rewrite length_string_of_list.
    rewrite List.length_app, List.repeat_length, List.length_rev. lia.
  - rewrite digitsValue_app, digitsValue_zeros, digitsRev_value by lia.
    rewrite List.length_rev. f_equal.
    rewrite <- Z.mul_assoc, <- Z.pow_add_r by lia. repeat f_equal. lia.
Qed.

(** A string that starts with a digit carries no sign. *)
Lemma ParseInt_unsigned (c : ascii) (rest : string) (v : Z) :
  strconv.isDigit c = true ->
  strconv.digitsValue 0 (String c rest) = Some v ->
  v <= 2 ^ 63 - 1 -> 0 <= v ->
  strconv.ParseInt10_64 (String c rest) = Some v.
Proof.
  intros Hc Hv Hmax Hmin. unfold strconv.ParseInt10_64.
  assert ((match String c rest with
           | String "+"%char r => (false, r)
           | String "-"%char r => (true, r)
           | _ => (false, String c rest)
           end) = (false, String c rest)) as ->.
  { destruct c as [[] [] [] [] [] [] [] []]; try discriminate Hc; reflexivity. }
  rewrite Hv.
  destruct (Z.leb_spec (- 2 ^ 63) v); [|lia].
  destruct (Z.leb_spec v (2 ^ 63 - 1)); [|lia]. reflexivity.
Qed.

Lemma digitsValue_bounds (s : string) (acc : Z) :
  forallb strconv.isDigit (list_ascii_of_string s) = true -> 0 <= acc ->
  exists v, strconv.digitsValue acc s = Some v /\
            acc * 10 ^ Z.of_nat (String.length s) <= v
              < (acc + 1) * 10 ^ Z.of_nat (String.length s).
Proof.
  revert acc. induction s as [|c s IH]; intros acc Hd Hacc.
  - exists acc. cbn. split; [reflexivity|lia].
  - cbn [list_ascii_of_string forallb] in Hd. apply andb_prop in Hd as [Hc Hd].
    cbn [strconv.digitsValue String.length]. rewrite Hc.
    assert (0 <= Z.of_nat (nat_of_ascii c) - 48 <= 9) as Hr.
    { unfold strconv.isDigit in Hc. apply andb_prop in Hc as [H1 H2].
      apply Nat.leb_le in H1, H2. lia. }
    destruct (IH (10 * acc + (Z.of_nat (nat_of_ascii c) - 48)) Hd ltac:(lia))
      as (v & Hv & Hlo & Hhi).
    exists v. split; [exact Hv|].
    rewrite Nat2Z.inj_succ, Z.pow_succ_r by lia.
    assert (0 < 10 ^ Z.of_nat (String.length s)) by (apply pow10_pos; lia).
    nia.
Qed.

(** X13. An identifier NewTransactionID builds from a 14-character
    timestamp that time.Parse accepts and a number drawn below 999999 has
    23 characters, passes validateTransactionID, is returned unchanged by
    NewTransactionIDFromString, and its suffix reads back as the number
    drawn. *)
Theorem generated_transaction_ids_are_valid `{!GoRuntime}
    (timestamp : string) (n : Z) :
  String.length timestamp = 14%nat ->
  time_Parse_ok "20060102150405" timestamp = true ->
  0 <= n < 999999 ->
  let id := vo.NewTransactionID timestamp n in
  String.length (vo.TransactionID.String id) = 23%nat /\
  vo.TransactionID_IsValid id = true /\
  vo.NewTransactionIDFromString (vo.TransactionID.String id) = inr id /\
  strconv.ParseInt10_64 (String.substring 17 6 (vo.TransactionID.String id)) = Some n.
Proof.
  intros Hlen Hparse Hn. cbv zeta.
  unfold vo.NewTransactionID, vo.TransactionID.String. cbn [vo.transaction_id_value].
  destruct (SprintfPadded_spec 6 n 0) as [Hslen Hsval]; [cbn; lia|lia|].
  set (suffix := fmt.SprintfPadded 6 n) in *.
  assert (Hsub : String.substring 17 6 ("TXN" ++ timestamp ++ suffix) = suffix).
  { change 17%nat with (String.length "TXN" + 14)%nat.
    change ("TXN" ++ timestamp ++ suffix)
      with (String "T" (String "X" (String "N" (timestamp ++ suffix)))).
    cbn [String.length Nat.add String.substring].
    rewrite <- Hlen, substring_skip, <- Hslen. apply substring_whole. }
  assert (Hts : String.substring 3 14 ("TXN" ++ timestamp ++ suffix) = timestamp).
  { change ("TXN" ++ timestamp ++ suffix)
      with (String "T" (String "X" (String "N" (timestamp ++ suffix)))).
    cbn [String.substring]. rewrite <- Hlen. apply substring_head. }
  assert (Htot : String.length ("TXN" ++ timestamp ++ suffix) = 23%nat).
  { rewrite !length_append, Hlen, Hslen. reflexivity. }
  assert (Hint : strconv.ParseInt10_64 suffix = Some n).
  { destruct suffix as [|c rest] eqn:Es; [discriminate Hslen|].
    apply ParseInt_unsigned; try lia.
    - cbn [strconv.digitsValue] in Hsval.
      destruct (strconv.isDigit c); [reflexivity|discriminate].
    - rewrite Hsval. f_equal; lia. }
  assert (Hval : vo.validateTransactionID ("TXN" ++ timestamp ++ suffix) = None).
  { unfold vo.validateTransactionID. rewrite Htot.
    change ("TXN" ++ timestamp ++ suffix)
      with (String "T" (String "X" (String "N" (timestamp ++ suffix)))) at 1 2.
    cbn [String.eqb String.prefix Ascii.eqb Bool.eqb negb andb].
    destruct (ascii_dec _ _); [|congruence].
    destruct (ascii_dec _ _); [|congruence].
    destruct (ascii_dec _ _); [|congruence].
    rewrite Hts, Hparse.
    change (23 - 17)%nat with 6%nat. rewrite Hsub, Hint.
    rewrite bool_decide_eq_true_2 by eauto.
    destruct (timestamp ++ suffix); reflexivity. }
  split; [exact Htot|]. split; [|split].
  - unfold vo.TransactionID_IsValid. cbn [vo.transaction_id_value].
    rewrite Hval. reflexivity.
  - unfold vo.NewTransactionIDFromString. rewrite Hval. reflexivity.
  - rewrite Hsub. exact Hint.
Qed.

Lemma digitsValue_append (a b : string) (acc : Z) :
  strconv.digitsValue acc (a ++ b) =
  match strconv.digitsValue acc a with
  | Some v => strconv.digitsValue v b
  | None => None
  end.
Proof.
  revert acc. induction a as [|c a IH]; intros acc; [reflexivity|].
  rewrite append_cons. cbn [strconv.digitsValue].
  destruct (strconv.isDigit c); [apply IH|reflexivity].
Qed.

(** X14. An identifier NewAccountID builds from an 8-digit date that
    time.Parse accepts and a number drawn below 99999999 has 16 characters,
    passes validateAccountID, is returned unchanged by
    NewAccountIDFromString and is not empty. *)
Theorem generated_account_ids_are_valid `{!GoRuntime}
    (datePrefix : string) (n : Z) :
  String.length datePrefix = 8%nat ->
  forallb strconv.isDigit (list_ascii_of_string datePrefix) = true ->
  time_Parse_ok "20060102" datePrefix = true ->
  0 <= n < 99999999 ->
  let id := vo.NewAccountID datePrefix n in
  String.length (vo.AccountID.String id) = 16%nat /\
  vo.AccountID_IsValid id = true /\
  vo.NewAccountIDFromString (vo.AccountID.String id) = inr id /\
  vo.AccountID.IsEmpty id = false.
Proof.
  intros Hlen Hdigits Hparse Hn. cbv zeta.
  unfold vo.NewAccountID, vo.AccountID.String, vo.AccountID.IsEmpty.
  cbn [vo.account_id_value].
  destruct (digitsValue_bounds datePrefix 0 Hdigits ltac:(lia)) as (v & Hv & Hlo & Hhi).
  rewrite Hlen in Hlo, Hhi.
  destruct (SprintfPadded_spec 8 n v) as [Hslen Hsval]; [cbn; lia|lia|].
  set (sequence := fmt.SprintfPadded 8 n) in *.
  assert (Htot : String.length (datePrefix ++ sequence) = 16%nat).
  { rewrite length_append, Hlen, Hslen. reflexivity. }
  assert (Hdate : String.substring 0 8 (datePrefix ++ sequence) = datePrefix).
  { rewrite <- Hlen. apply substring_head. }
  assert (Hint : is_Some (strconv.ParseInt10_64 (datePrefix ++ sequence))).
  { destruct datePrefix as [|c rest] eqn:Ed; [discriminate Hlen|].
    rewrite append_cons. eexists. apply ParseInt_unsigned.
    - cbn [list_ascii_of_string forallb] in Hdigits.
      apply andb_prop in Hdigits as [Hc _]. exact Hc.
    - rewrite <- append_cons, digitsValue_append, Hv. exact Hsval.
    - cbn in *. lia.
    - cbn in *. lia. }
  assert (Hne : String.eqb (datePrefix ++ sequence) "" = false).
  { destruct (String.eqb_spec (datePrefix ++ sequence) "") as [E|]; [|reflexivity].
    rewrite E in Htot. discriminate. }
  assert (Hval : vo.validateAccountID (datePrefix ++ sequence) = None).
  { unfold vo.validateAccountID. rewrite Hne, Htot, Hdate, Hparse.
    rewrite bool_decide_eq_true_2 by exact Hint. reflexivity. }
  split; [exact Htot|]. split; [|split].
  - unfold vo.AccountID_IsValid. cbn [vo.account_id_value]. rewrite Hval. reflexivity.
  - unfold vo.NewAccountIDFromString. rewrite Hval. reflexivity.
  - exact Hne.
Qed.

Lemma parsed_ids_facts `{!GoRuntime} (s : string) :
  (forall id, vo.NewTransactionIDFromString s = inr id ->
     vo.TransactionID.String id = s /\ vo.TransactionID.IsEmpty id = false /\
     String.prefix "TXN" s = true /\ (23 <= String.length s)%nat /\
     vo.TransactionID_IsValid id = true) /\
  (forall id, vo.NewAccountIDFromString s = inr id ->
     vo.AccountID.String id = s /\ vo.AccountID.IsEmpty id = false /\
     String.length s = 16%nat /\ vo.AccountID_IsValid id = true) /\
  (forall e, vo.NewTransactionIDFromString s = inl e -> e = ErrInvalidTransactionID) /\
  (forall e, vo.NewAccountIDFromString s = inl e -> e = ErrInvalidAccountID) /\
  ~ (vo.validateAccountID s = None /\ vo.validateTransactionID s = None).
Proof.
  unfold vo.NewTransactionIDFromString, vo.NewAccountIDFromString,
    vo.TransactionID_IsValid, vo.AccountID_IsValid, vo.TransactionID.IsEmpty,
    vo.AccountID.IsEmpty, vo.TransactionID.String, vo.AccountID.String.
  assert (Ht : vo.validateTransactionID s = None ->
               String.eqb s "" = false /\ String.prefix "TXN" s = true /\
               (23 <= String.length s)%nat).
  { unfold vo.validateTransactionID.
    destruct (String.eqb s ""); [discriminate|].
    destruct (String.prefix "TXN" s); [|discriminate]. cbn [negb].
    destruct (Nat.ltb_spec (String.length s) 23); [discriminate|]. auto. }
  assert (Ha : vo.validateAccountID s = None ->
               String.eqb s "" = false /\ String.length s = 16%nat).
  { unfold vo.validateAccountID.
    destruct (String.eqb s ""); [discriminate|].
    destruct (Nat.eqb_spec (String.length s) 16); [|discriminate]. auto. }
  assert (Hte : forall e, vo.validateTransactionID s = Some e -> e = ErrInvalidTransactionID).
  { unfold vo.validateTransactionID. intros e.
    repeat match goal with |- context [if ?b then _ else _] => destruct b end;
      congruence. }
  assert (Hae : forall e, vo.validateAccountID s = Some e -> e = ErrInvalidAccountID).
  { unfold vo.validateAccountID. intros e.
    repeat match goal with |- context [if ?b then _ else _] => destruct b end;
      congruence. }
  split; [|split; [|split; [|split]]].
  - intros id Hid. destruct (vo.validateTransactionID s) eqn:E; [discriminate|].
    injection Hid as <-. cbn [vo.transaction_id_value]. rewrite E.
    destruct (Ht eq_refl) as (? & ? & ?). auto.
  - intros id Hid. destruct (vo.validateAccountID s) eqn:E; [discriminate|].
    injection Hid as <-. cbn [vo.account_id_value]. rewrite E.
    destruct (Ha eq_refl) as (? & ?). auto.
  - intros e He. destruct (vo.validateTransactionID s) eqn:E; [|discriminate].
    injection He as <-. auto.
  - intros e He. destruct (vo.validateAccountID s) eqn:E; [|discriminate].
    injection He as <-. auto.
  - intros (Hacc & Htxn). destruct (Ht Htxn) as (_ & _ & ?).
    destruct (Ha Hacc) as (_ & ?). lia.
Qed.

(** X15. NewTransactionIDFromString and NewAccountIDFromString return
    an identifier whose text is the string given, which is valid and not
    empty; a transaction identifier starts with TXN and has at least 23
    characters, an account identifier has exactly 16; the only errors are
    ErrInvalidTransactionID and ErrInvalidAccountID; and no string is both a
    valid account identifier and a valid transaction identifier. *)
Theorem parsed_ids_keep_their_text `{!GoRuntime} (s : string) :
  (forall id, vo.NewTransactionIDFromString s = inr id ->
     vo.TransactionID.String id = s /\ vo.TransactionID.IsEmpty id = false /\
     String.prefix "TXN" s = true /\ (23 <= String.length s)%nat /\
     vo.TransactionID_IsValid id = true) /\
  (forall id, vo.NewAccountIDFromString s = inr id ->
     vo.AccountID.String id = s /\ vo.AccountID.IsEmpty id = false /\
     String.length s = 16%nat /\ vo.AccountID_IsValid id = true) /\
  (forall e, vo.NewTransactionIDFromString s = inl e -> e = ErrInvalidTransactionID) /\
  (forall e, vo.NewAccountIDFromString s = inl e -> e = ErrInvalidAccountID) /\
  ~ (vo.validateAccountID s = None /\ vo.validateTransactionID s = None).
Proof. apply parsed_ids_facts. Qed.

(* ===================================================================== *)
(** ** The persistence model *)
(* ===================================================================== *)

Lemma valid_transaction_id_parses `{!GoRuntime} (id : vo.TransactionID) :
  vo.TransactionID_IsValid id = true ->
  vo.NewTransactionIDFromString (vo.TransactionID.String id) = inr id.
Proof.
  unfold vo.TransactionID_IsValid, vo.NewTransactionIDFromString, vo.TransactionID.String.
  intros Hv. apply bool_decide_eq_true_1 in Hv. rewrite Hv. destruct id; reflexivity.
Qed.

Lemma valid_account_id_parses `{!GoRuntime} (id : vo.AccountID) :
  vo.AccountID_IsValid id = true ->
  vo.NewAccountIDFromString (vo.AccountID.String id) = inr id.
Proof.
  unfold vo.AccountID_IsValid, vo.NewAccountIDFromString, vo.AccountID.String.
  intros Hv. apply bool_decide_eq_true_1 in Hv. rewrite Hv. destruct id; reflexivity.
Qed.

(** X16. For a transaction whose identifiers are valid,
    FromDomainTransaction followed by ToDomainTransaction gives back every
    field except CreatedAt, which comes back as the zero time: the value is
    put in the embedded gorm.Model and read from the struct's own field.
    UpdateFromDomain followed by ToDomainTransaction gives back every field
    with the CreatedAt of the stored row, whose primary key is kept. *)
Theorem transaction_model_roundtrip `{!GoRuntime}
    (x : Transaction.t) (now : Time) (stored : model.Transaction.t) :
  vo.TransactionID_IsValid (Transaction.ID x) = true ->
  (forall id, Transaction.FromAccountID x = Some id -> vo.AccountID_IsValid id = true) ->
  (forall id, Transaction.ToAccountID x = Some id -> vo.AccountID_IsValid id = true) ->
  let returned (createdAt : Time) : Transaction.t :=
    {| Transaction.ID := Transaction.ID x;
       Transaction.FromAccountID := Transaction.FromAccountID x;
       Transaction.ToAccountID := Transaction.ToAccountID x;
       Transaction.TransactionType := Transaction.TransactionType x;
       Transaction.Amount := Transaction.Amount x;
       Transaction.Description := Transaction.Description x;
       Transaction.Reference := Transaction.Reference x;
       Transaction.Status := Transaction.Status x;
       Transaction.CreatedAt := createdAt;
       Transaction.CompletedAt := Transaction.CompletedAt x |} in
  model.ToDomainTransaction (model.FromDomainTransaction x)
    = inr (returned model.zeroTime) /\
  model.ToDomainTransaction (model.UpdateTransactionFromDomain now stored x)
    = inr (returned (model.Transaction.CreatedAt stored)) /\
  gorm.ID (model.Transaction.Model (model.UpdateTransactionFromDomain now stored x))
    = gorm.ID (model.Transaction.Model stored) /\
  gorm.CreatedAt (model.Transaction.Model (model.FromDomainTransaction x))
    = Transaction.CreatedAt x.
Proof.
  intros Hid Hfrom Hto. cbv zeta.
  unfold model.ToDomainTransaction, model.FromDomainTransaction,
    model.UpdateTransactionFromDomain.
  cbn [model.Transaction.TransactionID model.Transaction.FromAccountID
       model.Transaction.ToAccountID model.Transaction.TransactionType
       model.Transaction.Amount model.Transaction.Description
       model.Transaction.Reference model.Transaction.Status
       model.Transaction.CreatedAt model.Transaction.CompletedAt
       model.Transaction.Model gorm.ID gorm.CreatedAt].
  rewrite (valid_transaction_id_parses _ Hid).
  assert (Hmoney : vo.NewMoney (vo.Amount (Transaction.Amount x)) = Transaction.Amount x)
    by (destruct (Transaction.Amount x); reflexivity).
  rewrite Hmoney.
  destruct (Transaction.FromAccountID x) as [from|] eqn:Ef;
    destruct (Transaction.ToAccountID x) as [to|] eqn:Et;
    cbn [model.optionString];
    rewrite ?(valid_account_id_parses from) by (apply Hfrom; reflexivity);
    rewrite ?(valid_account_id_parses to) by (apply Hto; reflexivity);
    repeat split; reflexivity.
Qed.

(** X17. For an account whose identifier is valid,
    FromDomainAccount followed by ToDomainAccount gives back every field
    except CreatedAt and UpdatedAt, which come back as the zero time (both
    are put in the embedded gorm.Model); UpdateFromDomain followed by
    ToDomainAccount gives back every field with the CreatedAt of the stored
    row, whose embedded gorm.Model is kept. *)
Theorem account_model_roundtrip `{!GoRuntime}
    (a : Account.t) (stored : model.Account.t) :
  vo.AccountID_IsValid (Account.ID a) = true ->
  let returned (createdAt updatedAt : Time) : Account.t :=
    {| Account.ID := Account.ID a;
       Account.AccountName := Account.AccountName a;
       Account.Balance := Account.Balance a;
       Account.Status := Account.Status a;
       Account.CreatedAt := createdAt;
       Account.UpdatedAt := updatedAt |} in
  model.ToDomainAccount (model.FromDomainAccount a)
    = inr (returned model.zeroTime model.zeroTime) /\
  model.ToDomainAccount (model.UpdateAccountFromDomain stored a)
    = inr (returned (model.Account.CreatedAt stored) (Account.UpdatedAt a)) /\
  model.Account.Model (model.UpdateAccountFromDomain stored a)
    = model.Account.Model stored /\
  gorm.CreatedAt (model.Account.Model (model.FromDomainAccount a)) = Account.CreatedAt a /\
  gorm.UpdatedAt (model.Account.Model (model.FromDomainAccount a)) = Account.UpdatedAt a.
Proof.
  intros Hid. cbv zeta.
  unfold model.ToDomainAccount, model.FromDomainAccount, model.UpdateAccountFromDomain.
  cbn [model.Account.AccountID model.Account.AccountName model.Account.Balance
       model.Account.Status model.Account.CreatedAt model.Account.UpdatedAt
       model.Account.Model gorm.CreatedAt gorm.UpdatedAt].
  rewrite (valid_account_id_parses _ Hid).
  assert (Hmoney : vo.NewMoney (vo.Amount (Account.Balance a)) = Account.Balance a)
    by (destruct (Account.Balance a); reflexivity).
  rewrite Hmoney. repeat split; reflexivity.
Qed.

(** X18. ToDomainTransaction and ToDomainAccount either fail with
    ErrInvalidTransactionID or ErrInvalidAccountID, or return an entity with
    a valid identifier that carries the identifiers, the status and the
    amount of the row. *)
Theorem stored_rows_convert_or_report_their_id `{!GoRuntime}
    (row : model.Transaction.t) (accountRow : model.Account.t) :
  match model.ToDomainTransaction row with
  | inl e => e = ErrInvalidTransactionID \/ e = ErrInvalidAccountID
  | inr x =>
      vo.TransactionID_IsValid (Transaction.ID x) = true /\
      vo.TransactionID.String (Transaction.ID x) = model.Transaction.TransactionID row /\
      model.optionString (Transaction.FromAccountID x) = model.Transaction.FromAccountID row /\
      model.optionString (Transaction.ToAccountID x) = model.Transaction.ToAccountID row /\
      Transaction.Status x = model.Transaction.Status row /\
      vo.Amount (Transaction.Amount x) = model.Transaction.Amount row
  end /\
  match model.ToDomainAccount accountRow with
  | inl e => e = ErrInvalidAccountID
  | inr a =>
      vo.AccountID_IsValid (Account.ID a) = true /\
      vo.AccountID.String (Account.ID a) = model.Account.AccountID accountRow /\
      vo.Amount (Account.Balance a) = model.Account.Balance accountRow /\
      Account.Status a = model.Account.Status accountRow
  end.
Proof.
  pose proof (parsed_ids_facts (model.Transaction.TransactionID row)) as (Ht & _ & Hte & _).
  assert (Hacc : forall s,
             match vo.NewAccountIDFromString s with
             | inl e => e = ErrInvalidAccountID
             | inr id => vo.AccountID.String id = s /\ vo.AccountID_IsValid id = true
             end).
  { intros s. pose proof (parsed_ids_facts s) as (_ & Ha & _ & Hae & _).
    destruct (vo.NewAccountIDFromString s) as [e|id]; [auto|].
    destruct (Ha id eq_refl) as (? & _ & _ & ?). auto. }
  split.
  - unfold model.ToDomainTransaction.
    destruct (vo.NewTransactionIDFromString _) as [e|id]; [left; auto|].
    destruct (Ht id eq_refl) as (Hs & _ & _ & _ & Hv).
    destruct (model.Transaction.FromAccountID row) as [from|].
    + pose proof (Hacc from) as Hf.
      destruct (vo.NewAccountIDFromString from) as [e|fromID]; [right; auto|].
      destruct (model.Transaction.ToAccountID row) as [to|].
      * pose proof (Hacc to) as Hto.
        destruct (vo.NewAccountIDFromString to) as [e|toID]; [right; auto|].
        cbn. destruct Hf as [<- _], Hto as [<- _]. repeat split; auto.
      * cbn. destruct Hf as [<- _]. repeat split; auto.
    + destruct (model.Transaction.ToAccountID row) as [to|].
      * pose proof (Hacc to) as Hto.
        destruct (vo.NewAccountIDFromString to) as [e|toID]; [right; auto|].
        cbn. destruct Hto as [<- _]. repeat split; auto.
      * cbn. repeat split; auto.
  - unfold model.ToDomainAccount.
    pose proof (Hacc (model.Account.AccountID accountRow)) as Ha.
    destruct (vo.NewAccountIDFromString _) as [e|id]; [auto|].
    cbn. destruct Ha as [<- ?]. repeat split; auto.
Qed.

(* ===================================================================== *)
(** ** The use case: further properties *)
(* ===================================================================== *)

(** *** Processing *)

(** What processDebitTransaction does, in terms of the stores. *)
Lemma processDebit_spec (t : Transaction.t) (w : World)
    (fromID : vo.AccountID) :
  Transaction.FromAccountID t = Some fromID ->
  let '(err, w') := run (processDebitTransaction t) w in
  transactions w' = transactions w /\ cache w' = cache w /\
  cacheFaults w' = cacheFaults w /\
  match accounts w !! vo.AccountID.String fromID with
  | None => err = Some ErrAccountNotFound /\ accounts w' = accounts w
  | Some a =>
      if negb (Account.CanTransact a)
      then err = Some ErrAccountCannotTransact /\ accounts w' = accounts w
      else
        match Account.Debit (clock w (ticks w)) (Transaction.Amount t) a with
        | (_, Some e) => err = Some e /\ accounts w' = accounts w
        | (a', None) =>
            match accounts w !! vo.AccountID.String (Account.ID a') with
            | Some _ =>
                err = None /\
                accounts w' = <[vo.AccountID.String (Account.ID a') := a']> (accounts w)
            | None => err = Some ErrAccountNotFound /\ accounts w' = accounts w
            end
        end
  end.
Proof.
  intros Hfrom. unfold processDebitTransaction. rewrite Hfrom. prog_unfold.
  cbn [run bind perform].
  destruct (accounts w !! vo.AccountID.String fromID) as [a|]; cbn [run bind after];
    [|repeat split; reflexivity].
  destruct (negb (Account.CanTransact a)); cbn [run bind perform];
    [repeat split; reflexivity|].
  cbn [clock ticks accounts].
  destruct (Account.Debit _ _ a) as [a' [e|]]; cbn [run bind perform];
    [repeat split; reflexivity|].
  cbn [accounts after].
  destruct (accounts w !! vo.AccountID.String (Account.ID a')); cbn [run];
    repeat split; reflexivity.
Qed.

Lemma processCredit_spec (t : Transaction.t) (w : World)
    (toID : vo.AccountID) :
  Transaction.ToAccountID t = Some toID ->
  let '(err, w') := run (processCreditTransaction t) w in
  transactions w' = transactions w /\ cache w' = cache w /\
  cacheFaults w' = cacheFaults w /\
  match accounts w !! vo.AccountID.String toID with
  | None => err = Some ErrAccountNotFound /\ accounts w' = accounts w
  | Some a =>
      if negb (Account.CanTransact a)
      then err = Some ErrAccountCannotTransact /\ accounts w' = accounts w
      else
        match Account.Credit (clock w (ticks w)) (Transaction.Amount t) a with
        | (_, Some e) => err = Some e /\ accounts w' = accounts w
        | (a', None) =>
            match accounts w !! vo.AccountID.String (Account.ID a') with
            | Some _ =>
                err = None /\
                accounts w' = <[vo.AccountID.String (Account.ID a') := a']> (accounts w)
            | None => err = Some ErrAccountNotFound /\ accounts w' = accounts w
            end
        end
  end.
Proof.
  intros Hto. unfold processCreditTransaction. rewrite Hto. prog_unfold.
  cbn [run bind perform].
  destruct (accounts w !! vo.AccountID.String toID) as [a|]; cbn [run bind after];
    [|repeat split; reflexivity].
  destruct (negb (Account.CanTransact a)); cbn [run bind perform];
    [repeat split; reflexivity|].
  cbn [clock ticks accounts].
  destruct (Account.Credit _ _ a) as [a' [e|]]; cbn [run bind perform];
    [repeat split; reflexivity|].
  cbn [accounts after].
  destruct (accounts w !! vo.AccountID.String (Account.ID a')); cbn [run];
    repeat split; reflexivity.
Qed.

Lemma processTransfer_spec (t : Transaction.t) (w : World)
    (fromID toID : vo.AccountID) :
  Transaction.FromAccountID t = Some fromID ->
  Transaction.ToAccountID t = Some toID ->
  let '(err, w') := run (processTransferTransaction t) w in
  transactions w' = transactions w /\ cache w' = cache w /\
  cacheFaults w' = cacheFaults w /\
  match accounts w !! vo.AccountID.String fromID,
        accounts w !! vo.AccountID.String toID with
  | Some a, Some b =>
      if negb (Account.CanTransact a) || negb (Account.CanTransact b)
      then err = Some ErrAccountCannotTransact /\ accounts w' = accounts w
      else
        match Account.Debit (clock w (ticks w)) (Transaction.Amount t) a with
        | (_, Some e) =>
            err = Some (Errorf "failed to debit from account: " e "") /\
            accounts w' = accounts w
        | (a', None) =>
            match Account.Credit (clock w (S (ticks w))) (Transaction.Amount t) b with
            | (_, Some e) =>
                err = Some (Errorf "failed to credit to account: " e "") /\
                accounts w' = accounts w
            | (b', None) =>
                let fromKey := vo.AccountID.String (Account.ID a') in
                let toKey := vo.AccountID.String (Account.ID b') in
                match accounts w !! fromKey with
                | None =>
                    err = Some (Errorf "failed to update from account: "
                                  ErrAccountNotFound "") /\
                    accounts w' = accounts w
                | Some _ =>
                    match <[fromKey := a']> (accounts w) !! toKey with
                    | None =>
                        err = Some (Errorf "failed to update to account: "
                                      ErrAccountNotFound "") /\
                        accounts w' = <[fromKey := a']> (accounts w)
                    | Some _ =>
                        err = None /\
                        accounts w' = <[toKey := b']> (<[fromKey := a']> (accounts w))
                    end
                end
            end
        end
  | _, _ => err = Some ErrAccountNotFound /\ accounts w' = accounts w
  end.
Proof.
  intros Hfrom Hto. unfold processTransferTransaction, transferMutations.
  rewrite Hfrom, Hto. prog_unfold. cbn [run bind perform].
  destruct (accounts w !! vo.AccountID.String fromID) as [a|]; cbn [run bind after perform accounts];
    [|destruct (accounts w !! vo.AccountID.String toID); repeat split; reflexivity].
  destruct (accounts w !! vo.AccountID.String toID) as [b|]; cbn [run bind after];
    [|repeat split; reflexivity].
  destruct (negb (Account.CanTransact a)); cbn [orb run bind perform];
    [repeat split; reflexivity|].
  destruct (negb (Account.CanTransact b)); cbn [orb run bind perform];
    [repeat split; reflexivity|].
  cbn [clock ticks accounts].
  destruct (Account.Debit _ _ a) as [a' [e|]]; cbn [run bind perform];
    [repeat split; reflexivity|].
  cbn [clock ticks accounts].
  destruct (Account.Credit _ _ b) as [b' [e|]]; cbn [run bind perform].
  { cbn [clock ticks]. destruct (Account.Credit _ _ a'); cbn [run bind].
    repeat split; reflexivity. }
  cbn [accounts after]. cbv zeta.
  destruct (accounts w !! vo.AccountID.String (Account.ID a')); cbn [run bind perform];
    [|repeat split; reflexivity].
  cbn [accounts after].
  destruct (<[_ := a']> (accounts w) !! vo.AccountID.String (Account.ID b')); cbn [run];
    repeat split; reflexivity.
Qed.

Lemma debit_keeps_identity (now : Time) (amount : vo.Money) (a a' : Account.t)
    (err : option Error) :
  Account.Debit now amount a = (a', err) ->
  Account.ID a' = Account.ID a /\ Account.Status a' = Account.Status a.
Proof.
  rewrite debit_outcome. repeat case_match; intros; simplify_eq; auto.
Qed.

Lemma credit_keeps_identity (now : Time) (amount : vo.Money) (a a' : Account.t)
    (err : option Error) :
  Account.Credit now amount a = (a', err) ->
  Account.ID a' = Account.ID a /\ Account.Status a' = Account.Status a.
Proof.
  rewrite credit_outcome. repeat case_match; intros; simplify_eq; auto.
Qed.

Lemma wellKeyed_insert (w w' : World) (a : Account.t) :
  wellKeyed w ->
  transactions w' = transactions w ->
  accounts w' = <[vo.AccountID.String (Account.ID a) := a]> (accounts w) ->
  wellKeyed w'.
Proof.
  intros [Ha Ht] Et Ea. split.
  - intros key x. rewrite Ea.
    destruct (decide (vo.AccountID.String (Account.ID a) = key)) as [<-|Hne].
    + rewrite lookup_insert_eq. congruence.
    + rewrite lookup_insert_ne by assumption. apply Ha.
  - rewrite Et. exact Ht.
Qed.

Lemma wellKeyed_same (w w' : World) :
  wellKeyed w -> transactions w' = transactions w -> accounts w' = accounts w ->
  wellKeyed w'.
Proof. intros [Ha Ht] Et Ea. split; rewrite ?Et, ?Ea; assumption. Qed.

(** The outcome of processTransaction on a store that keeps every account
    under its own identifier. *)
Lemma process_outcome (t : Transaction.t) (w : World) :
  wellKeyed w ->
  let '(err, w') := run (processTransaction t) w in
  wellKeyed w' /\ transactions w' = transactions w /\ cache w' = cache w /\
  cacheFaults w' = cacheFaults w /\
  (forall e, err = Some e -> accounts w' = accounts w).
Proof.
  intros Hk. pose proof Hk as [Hacc _]. unfold processTransaction.
  destruct (String.eqb _ vo.TransactionTypeDebit);
    [|destruct (String.eqb _ vo.TransactionTypeCredit);
      [|destruct (String.eqb _ vo.TransactionTypeTransfer)]].
  - destruct (Transaction.FromAccountID t) as [fromID|] eqn:Hfrom.
    + pose proof (processDebit_spec t w fromID Hfrom) as Hs.
      destruct (run (processDebitTransaction t) w) as [err w'].
      destruct Hs as (Ht & Hc & Hf & Hs).
      enough (wellKeyed w' /\ (forall e, err = Some e -> accounts w' = accounts w))
        by tauto.
      destruct (accounts w !! vo.AccountID.String fromID) as [a|];
        [|destruct Hs; split; [eapply wellKeyed_same|]; eauto].
      destruct (negb (Account.CanTransact a));
        [destruct Hs; split; [eapply wellKeyed_same|]; eauto|].
      destruct (Account.Debit _ _ a) as [a' [e|]];
        [destruct Hs; split; [eapply wellKeyed_same|]; eauto|].
      destruct (accounts w !! _); destruct Hs as [-> Hs];
        (split; [|discriminate || auto]);
        [eapply wellKeyed_insert|eapply wellKeyed_same]; eassumption.
    + unfold processDebitTransaction. rewrite Hfrom. cbn. auto.
  - destruct (Transaction.ToAccountID t) as [toID|] eqn:Hto.
    + pose proof (processCredit_spec t w toID Hto) as Hs.
      destruct (run (processCreditTransaction t) w) as [err w'].
      destruct Hs as (Ht & Hc & Hf & Hs).
      enough (wellKeyed w' /\ (forall e, err = Some e -> accounts w' = accounts w))
        by tauto.
      destruct (accounts w !! vo.AccountID.String toID) as [a|];
        [|destruct Hs; split; [eapply wellKeyed_same|]; eauto].
      destruct (negb (Account.CanTransact a));
        [destruct Hs; split; [eapply wellKeyed_same|]; eauto|].
      destruct (Account.Credit _ _ a) as [a' [e|]];
        [destruct Hs; split; [eapply wellKeyed_same|]; eauto|].
      destruct (accounts w !! _); destruct Hs as [-> Hs];
        (split; [|discriminate || auto]);
        [eapply wellKeyed_insert|eapply wellKeyed_same]; eassumption.
    + unfold processCreditTransaction. rewrite Hto. cbn. auto.
  - destruct (Transaction.FromAccountID t) as [fromID|] eqn:Hfrom;
      [destruct (Transaction.ToAccountID t) as [toID|] eqn:Hto|].
    + pose proof (processTransfer_spec t w fromID toID Hfrom Hto) as Hs.
      destruct (run (processTransferTransaction t) w) as [err w'].
      destruct Hs as (Ht & Hc & Hf & Hs).
      enough (wellKeyed w' /\ (forall e, err = Some e -> accounts w' = accounts w))
        by tauto.
      destruct (accounts w !! vo.AccountID.String fromID) as [a|] eqn:Ea;
        [|destruct Hs; split; [eapply wellKeyed_same|]; eauto].
      destruct (accounts w !! vo.AccountID.String toID) as [b|] eqn:Eb;
        [|destruct Hs; split; [eapply wellKeyed_same|]; eauto].
      destruct (negb (Account.CanTransact a) || negb (Account.CanTransact b));
        [destruct Hs; split; [eapply wellKeyed_same|]; eauto|].
      destruct (Account.Debit _ _ a) as [a' [e|]] eqn:Ed;
        [destruct Hs; split; [eapply wellKeyed_same|]; eauto|].
      destruct (Account.Credit _ _ b) as [b' [e|]] eqn:Ec;
        [destruct Hs; split; [eapply wellKeyed_same|]; eauto|].
      cbv zeta in Hs.
      apply debit_keeps_identity in Ed as [Eida _].
      apply credit_keeps_identity in Ec as [Eidb _].
      rewrite Eida, Eidb, (Hacc _ _ Ea), (Hacc _ _ Eb), Ea in Hs.
      assert (is_Some (<[vo.AccountID.String fromID := a']> (accounts w)
                         !! vo.AccountID.String toID)) as [b0 Hb0].
      { destruct (decide (vo.AccountID.String fromID = vo.AccountID.String toID)) as [E|E].
        - rewrite E, lookup_insert_eq. eauto.
        - rewrite lookup_insert_ne, Eb by assumption. eauto. }
      rewrite Hb0 in Hs. destruct Hs as [-> Hs]. split; [|discriminate].
      eapply (wellKeyed_insert
                {| transactions := transactions w;
                   accounts := <[vo.AccountID.String fromID := a']> (accounts w);
                   cache := cache w; cacheFaults := cacheFaults w;
                   clock := clock w; ticks := ticks w; journal := journal w |} w' b').
      * eapply (wellKeyed_insert w _ a'); [assumption|reflexivity|].
        cbn [accounts]. rewrite Eida, (Hacc _ _ Ea). reflexivity.
      * assumption.
      * cbn [accounts]. rewrite Eidb, (Hacc _ _ Eb). assumption.
    + unfold processTransferTransaction. rewrite Hfrom, Hto. cbn. auto.
    + unfold processTransferTransaction. rewrite Hfrom. cbn.
      destruct (Transaction.ToAccountID t); auto.
  - cbn. auto.
Qed.


(** What a successful transfer leaves in the store. *)
Lemma transfer_success (t : Transaction.t) (w w' : World)
    (fromID toID : vo.AccountID) :
  Transaction.FromAccountID t = Some fromID ->
  Transaction.ToAccountID t = Some toID ->
  wellKeyed w ->
  run (processTransferTransaction t) w = (None, w') ->
  exists a b a' b',
    accounts w !! vo.AccountID.String fromID = Some a /\
    accounts w !! vo.AccountID.String toID = Some b /\
    Account.CanTransact a = true /\ Account.CanTransact b = true /\
    Account.Debit (clock w (ticks w)) (Transaction.Amount t) a = (a', None) /\
    Account.Credit (clock w (S (ticks w))) (Transaction.Amount t) b = (b', None) /\
    accounts w' = <[vo.AccountID.String toID := b']>
                    (<[vo.AccountID.String fromID := a']> (accounts w)).
Proof.
  intros Hfrom Hto [Hacc _] Hrun.
  pose proof (processTransfer_spec t w fromID toID Hfrom Hto) as Hs.
  rewrite Hrun in Hs. destruct Hs as (_ & _ & _ & Hs).
  destruct (accounts w !! vo.AccountID.String fromID) as [a|] eqn:Ea;
    [|destruct Hs; discriminate].
  destruct (accounts w !! vo.AccountID.String toID) as [b|] eqn:Eb;
    [|destruct Hs; discriminate].
  destruct (Account.CanTransact a) eqn:Ca; [|destruct Hs; discriminate].
  destruct (Account.CanTransact b) eqn:Cb; [|destruct Hs; discriminate].
  cbn [negb orb] in Hs.
  destruct (Account.Debit _ _ a) as [a' [e|]] eqn:Ed; [destruct Hs; discriminate|].
  destruct (Account.Credit _ _ b) as [b' [e|]] eqn:Ec; [destruct Hs; discriminate|].
  cbv zeta in Hs.
  pose proof (debit_keeps_identity _ _ _ _ _ Ed) as [Eida _].
  pose proof (credit_keeps_identity _ _ _ _ _ Ec) as [Eidb _].
  rewrite Eida, Eidb, (Hacc _ _ Ea), (Hacc _ _ Eb), Ea in Hs.
  destruct (<[_ := a']> (accounts w) !! vo.AccountID.String toID);
    [|destruct Hs; discriminate].
  destruct Hs as [_ Hs]. exists a, b, a', b'. repeat split; assumption.
Qed.

(** X20. When processTransaction succeeds on a TRANSFER between two
    different accounts, both were ACTIVE, the amount is positive, the source
    holds its old balance minus the amount (not negative), the destination
    its old balance plus the amount, the sum of the two balances is Equal to
    what it was, and every other account is as before. *)
Theorem transfer_moves_exactly_the_amount
    (t : Transaction.t) (w w' : World) (fromID toID : vo.AccountID) :
  Transaction.TransactionType t = vo.TransactionTypeTransfer ->
  Transaction.FromAccountID t = Some fromID ->
  Transaction.ToAccountID t = Some toID ->
  vo.AccountID.String fromID <> vo.AccountID.String toID ->
  wellKeyed w ->
  run (processTransaction t) w = (None, w') ->
  exists before after source destination : vo.Money,
    balanceOf fromID w = Some before /\ balanceOf toID w = Some source /\
    balanceOf fromID w' = Some after /\ balanceOf toID w' = Some destination /\
    after = fst (vo.Subtract before (Transaction.Amount t)) /\
    destination = fst (vo.Add source (Transaction.Amount t)) /\
    vo.IsPositive (Transaction.Amount t) = true /\
    vo.IsNegative after = false /\
    vo.Equal (fst (vo.Add after destination)) (fst (vo.Add before source)) = true /\
    statusOf fromID w = Some vo.AccountStatusActive /\
    statusOf toID w = Some vo.AccountStatusActive /\
    (forall key, key <> vo.AccountID.String fromID -> key <> vo.AccountID.String toID ->
                 accounts w' !! key = accounts w !! key).
Proof.
  intros Hty Hfrom Hto Hne Hk Hrun.
  unfold processTransaction in Hrun. rewrite Hty in Hrun.
  cbn [String.eqb Ascii.eqb Bool.eqb vo.TransactionTypeTransfer
       vo.TransactionTypeDebit vo.TransactionTypeCredit] in Hrun.
  destruct (transfer_success t w w' fromID toID Hfrom Hto Hk Hrun)
    as (a & b & a' & b' & Ea & Eb & Ca & Cb & Ed & Ec & Ew).
  rewrite debit_outcome in Ed. rewrite credit_outcome in Ec.
  destruct (vo.IsPositive (Transaction.Amount t)) eqn:Hp; [|discriminate].
  cbn [negb] in Ed, Ec.
  destruct (vo.GreaterThan _ _) eqn:Hg; [discriminate|].
  injection Ed as <-. injection Ec as <-.
  assert (Hnonneg : vo.IsNegative
            (fst (vo.Subtract (Account.Balance a) (Transaction.Amount t))) = false).
  { destruct (Transaction.Amount t) as [d]. destruct (Account.Balance a) as [x].
    set (m := floor2 x d).
    assert (m <= decimal.exp x /\ m <= decimal.exp d) as [Hmx Hmd]
      by (unfold m, floor2; lia).
    destruct (Sub_units x d m Hmx Hmd) as [Hs Us].
    unfold vo.GreaterThan, decimal.GreaterThan, vo.IsNegative, vo.Subtract,
      decimal.IsNegative in *. cbn [vo.amount fst] in *.
    rewrite (Cmp_units d x m Hmd Hmx) in Hg.
    rewrite (Sign_units _ m Hs), Us.
    compare_split; sgn_split; try reflexivity; try discriminate; lia. }
  assert (Hsum : vo.Equal
            (fst (vo.Add (fst (vo.Subtract (Account.Balance a) (Transaction.Amount t)))
                         (fst (vo.Add (Account.Balance b) (Transaction.Amount t)))))
            (fst (vo.Add (Account.Balance a) (Account.Balance b))) = true).
  { destruct (Transaction.Amount t) as [d]. destruct (Account.Balance a) as [x].
    destruct (Account.Balance b) as [y].
    set (m := floor3 x y d).
    assert (m <= decimal.exp x /\ m <= decimal.exp y /\ m <= decimal.exp d)
      as (Hmx & Hmy & Hmd) by (unfold m, floor3; lia).
    destruct (Sub_units x d m Hmx Hmd) as [Hs Us].
    destruct (Add_units y d m Hmy Hmd) as [Ha Ua].
    destruct (Add_units _ _ m Hs Ha) as [Hl Ul].
    destruct (Add_units x y m Hmx Hmy) as [Hr Ur].
    unfold vo.Equal, decimal.Equal, vo.Add, vo.Subtract. cbn [vo.amount fst].
    rewrite (Cmp_units _ _ m Hl Hr), Ul, Us, Ua, Ur.
    replace (units m x - units m d + (units m y + units m d))
      with (units m x + units m y) by ring.
    rewrite Z.compare_refl. reflexivity. }
  unfold Account.CanTransact, vo.AccountStatus.CanTransact in Ca, Cb.
  apply String.eqb_eq in Ca, Cb.
  exists (Account.Balance a),
         (fst (vo.Subtract (Account.Balance a) (Transaction.Amount t))),
         (Account.Balance b),
         (fst (vo.Add (Account.Balance b) (Transaction.Amount t))).
  unfold balanceOf, statusOf. rewrite Ew, Ea, Eb.
  rewrite lookup_insert_ne, lookup_insert_eq, lookup_insert_eq by congruence.
  cbn [fmap option_fmap option_map Account.Balance Account.Status].
  rewrite Ca, Cb.
  repeat (split; [first [reflexivity | assumption]|]).
  intros key Hk1 Hk2. rewrite !lookup_insert_ne by congruence. reflexivity.
Qed.


(** X21. When processTransaction succeeds on a DEBIT (or a CREDIT),
    the account named was ACTIVE and still is, the amount is positive, a
    debited amount was LessThanOrEqual the balance, the balance of that
    account is the old balance minus (or plus) the amount, and every other
    account is as before. *)
Theorem single_account_processing
    (t : Transaction.t) (w w' : World) (id : vo.AccountID) :
  wellKeyed w ->
  run (processTransaction t) w = (None, w') ->
  (Transaction.TransactionType t = vo.TransactionTypeDebit /\
   Transaction.FromAccountID t = Some id \/
   Transaction.TransactionType t = vo.TransactionTypeCredit /\
   Transaction.ToAccountID t = Some id) ->
  exists before : vo.Money,
    balanceOf id w = Some before /\
    statusOf id w = Some vo.AccountStatusActive /\
    vo.IsPositive (Transaction.Amount t) = true /\
    balanceOf id w' =
      Some (if String.eqb (Transaction.TransactionType t) vo.TransactionTypeDebit
            then fst (vo.Subtract before (Transaction.Amount t))
            else fst (vo.Add before (Transaction.Amount t))) /\
    (String.eqb (Transaction.TransactionType t) vo.TransactionTypeDebit = true ->
     vo.LessThanOrEqual (Transaction.Amount t) before = true) /\
    statusOf id w' = Some vo.AccountStatusActive /\
    (forall key, key <> vo.AccountID.String id ->
                 accounts w' !! key = accounts w !! key).
Proof.
  intros Hk Hrun [[Hty Hid]|[Hty Hid]]; pose proof Hk as [Hacc _];
    unfold processTransaction in Hrun; rewrite Hty in Hrun;
    cbn [String.eqb Ascii.eqb Bool.eqb vo.TransactionTypeTransfer
         vo.TransactionTypeDebit vo.TransactionTypeCredit] in Hrun;
    rewrite Hty;
    cbn [String.eqb Ascii.eqb Bool.eqb vo.TransactionTypeDebit
         vo.TransactionTypeCredit].
  - pose proof (processDebit_spec t w id Hid) as Hs. rewrite Hrun in Hs.
    destruct Hs as (_ & _ & _ & Hs).
    destruct (accounts w !! vo.AccountID.String id) as [a|] eqn:Ea;
      [|destruct Hs; discriminate].
    destruct (Account.CanTransact a) eqn:Ca; [|destruct Hs; discriminate].
    cbn [negb] in Hs. rewrite debit_outcome in Hs.
    destruct (vo.IsPositive (Transaction.Amount t)) eqn:Hp; [|destruct Hs; discriminate].
    cbn [negb] in Hs.
    destruct (vo.GreaterThan _ _) eqn:Hg; [destruct Hs; discriminate|].
    cbn [Account.ID] in Hs. rewrite (Hacc _ _ Ea), Ea in Hs. destruct Hs as [_ Hs].
    unfold Account.CanTransact, vo.AccountStatus.CanTransact in Ca.
    apply String.eqb_eq in Ca.
    exists (Account.Balance a). unfold balanceOf, statusOf.
    rewrite Hs, Ea, lookup_insert_eq.
    cbn [fmap option_fmap option_map Account.Balance Account.Status]. rewrite Ca.
    repeat (split; [first [reflexivity | assumption]|]).
    split; [|split; [reflexivity|]].
    + intros _. unfold vo.LessThanOrEqual, decimal.LessThanOrEqual.
      unfold vo.GreaterThan, decimal.GreaterThan in Hg.
      destruct (decimal.Cmp _ _); (reflexivity || discriminate).
    + intros key Hne. rewrite lookup_insert_ne by congruence. reflexivity.
  - pose proof (processCredit_spec t w id Hid) as Hs. rewrite Hrun in Hs.
    destruct Hs as (_ & _ & _ & Hs).
    destruct (accounts w !! vo.AccountID.String id) as [a|] eqn:Ea;
      [|destruct Hs; discriminate].
    destruct (Account.CanTransact a) eqn:Ca; [|destruct Hs; discriminate].
    cbn [negb] in Hs. rewrite credit_outcome in Hs.
    destruct (vo.IsPositive (Transaction.Amount t)) eqn:Hp; [|destruct Hs; discriminate].
    cbn [negb Account.ID] in Hs. rewrite (Hacc _ _ Ea), Ea in Hs. destruct Hs as [_ Hs].
    unfold Account.CanTransact, vo.AccountStatus.CanTransact in Ca.
    apply String.eqb_eq in Ca.
    exists (Account.Balance a). unfold balanceOf, statusOf.
    rewrite Hs, Ea, lookup_insert_eq.
    cbn [fmap option_fmap option_map Account.Balance Account.Status]. rewrite Ca.
    repeat (split; [first [reflexivity | assumption]|]).
    split; [discriminate|split; [reflexivity|]].
    intros key Hne. rewrite lookup_insert_ne by congruence. reflexivity.
Qed.

(** X22. processTransferTransaction does not compare the two
    accounts: on a TRANSFER whose source is also its destination (which no
    factory makes), an ACTIVE account with enough funds ends with its old
    balance plus the amount, because the credited copy is written last. *)
Theorem same_account_transfer_credits
    (t : Transaction.t) (w : World) (id : vo.AccountID) (a : Account.t) :
  Transaction.TransactionType t = vo.TransactionTypeTransfer ->
  Transaction.FromAccountID t = Some id ->
  Transaction.ToAccountID t = Some id ->
  wellKeyed w ->
  accounts w !! vo.AccountID.String id = Some a ->
  Account.Status a = vo.AccountStatusActive ->
  vo.IsPositive (Transaction.Amount t) = true ->
  vo.LessThanOrEqual (Transaction.Amount t) (Account.Balance a) = true ->
  exists w',
    run (processTransaction t) w = (None, w') /\
    balanceOf id w' = Some (fst (vo.Add (Account.Balance a) (Transaction.Amount t))) /\
    vo.GreaterThan (fst (vo.Add (Account.Balance a) (Transaction.Amount t)))
                   (Account.Balance a) = true.
Proof.
  intros Hty Hfrom Hto [Hacc _] Ea Hst Hp Hle.
  unfold processTransaction. rewrite Hty.
  cbn [String.eqb Ascii.eqb Bool.eqb vo.TransactionTypeTransfer
       vo.TransactionTypeDebit vo.TransactionTypeCredit].
  pose proof (processTransfer_spec t w id id Hfrom Hto) as Hs.
  destruct (run (processTransferTransaction t) w) as [err w'].
  destruct Hs as (_ & _ & _ & Hs). rewrite Ea in Hs.
  unfold Account.CanTransact, vo.AccountStatus.CanTransact in Hs.
  rewrite Hst in Hs. cbn [String.eqb Ascii.eqb Bool.eqb vo.AccountStatusActive negb orb] in Hs.
  rewrite debit_outcome, credit_outcome, Hp in Hs. cbn [negb] in Hs.
  assert (Hg : vo.GreaterThan (Transaction.Amount t) (Account.Balance a) = false).
  { unfold vo.LessThanOrEqual, decimal.LessThanOrEqual in Hle.
    unfold vo.GreaterThan, decimal.GreaterThan.
    destruct (decimal.Cmp _ _); (reflexivity || discriminate). }
  rewrite Hg in Hs. cbv zeta in Hs. cbn [Account.ID] in Hs.
  rewrite (Hacc _ _ Ea), Ea, lookup_insert_eq in Hs. destruct Hs as [-> Hs].
  exists w'. split; [reflexivity|]. split.
  - unfold balanceOf. rewrite Hs, lookup_insert_eq. reflexivity.
  - destruct (Transaction.Amount t) as [d]. destruct (Account.Balance a) as [x].
    set (m := floor2 x d).
    assert (m <= decimal.exp x /\ m <= decimal.exp d) as [Hmx Hmd]
      by (unfold m, floor2; lia).
    destruct (Add_units x d m Hmx Hmd) as [Hs' Us].
    unfold vo.GreaterThan, decimal.GreaterThan, vo.IsPositive, decimal.IsPositive,
      vo.Add in *. cbn [vo.amount fst] in *.
    rewrite (Sign_units d m Hmd) in Hp.
    rewrite (Cmp_units _ x m Hs' Hmx), Us.
    compare_split; sgn_split; try reflexivity; try discriminate; lia.
Qed.

(** *** Validation *)






(** *** Reading and cancelling *)

(** X24. With a malformed transaction id, ConfirmTransaction,
    CancelTransaction and GetTransaction return ErrInvalidTransactionID
    without calling the cache, a repository or the clock. *)
Theorem malformed_id_makes_no_call `{!GoRuntime} (id : string) (e : Error) (w : World) :
  vo.NewTransactionIDFromString id = inl e ->
  e = ErrInvalidTransactionID /\
  run (ConfirmTransaction (dto.ConfirmTransactionRequest.mk id)) w = (inl e, w) /\
  run (CancelTransaction (dto.CancelTransactionRequest.mk id)) w = (Some e, w) /\
  run (GetTransaction id) w = (inl e, w).
Proof.
  intros Hparse. split.
  - unfold vo.NewTransactionIDFromString in Hparse.
    destruct (vo.validateTransactionID id) as [e'|] eqn:Hv; [|discriminate].
    injection Hparse as <-. eapply validate_error; eassumption.
  - unfold ConfirmTransaction, CancelTransaction, GetTransaction.
    cbn [dto.ConfirmTransactionRequest.ID dto.CancelTransactionRequest.ID].
    rewrite Hparse. repeat split; reflexivity.
Qed.

(** What GetTransaction returns and leaves behind. *)
Lemma GetTransaction_spec `{!GoRuntime} (id : string) (tid : vo.TransactionID) (w : World) :
  vo.NewTransactionIDFromString id = inr tid ->
  let '(r, w') := run (GetTransaction id) w in
  transactions w' = transactions w /\ accounts w' = accounts w /\
  match (if cacheFails w then None else cache w !! transactionKey id) with
  | Some (CachedTransaction resp) =>
      r = inr resp /\ cache w' = cache w /\
      journal w' = CacheGet (transactionKey id) :: journal w
  | _ =>
      match transactions w !! id with
      | None => r = inl ErrTransactionNotFound /\ cache w' = cache w
      | Some t =>
          r = inr (dto.TransactionMapper.ToResponse t) /\
          cache w' =
            if cacheFails (snd (perform (CacheGet (transactionKey id)) w))
            then cache w
            else <[transactionKey id :=
                     CachedTransaction (dto.TransactionMapper.ToResponse t)]> (cache w)
      end
  end.
Proof.
  intros Hparse. unfold GetTransaction. rewrite Hparse.
  pose proof (parsed_id _ _ Hparse) as ->.
  unfold cacheGetTransactionResponse. prog_unfold. fold (transactionKey id).
  cbn [run bind perform]. unfold cacheFails. cbn [cacheFaults after snd].
  destruct (cacheFaults w) as [|[] faults] eqn:Ef; cbn [run bind after perform tail snd cacheFaults].
  all: destruct (cache w !! transactionKey id) as [[stamp|resp]|];
       cbn [run bind perform transactions after vo.TransactionID.String
            vo.transaction_id_value cacheFaults tail snd].
  all: try (destruct (transactions w !! id) as [t|]; cbn [run bind perform after]).
  all: unfold cacheFails; cbn [cacheFaults after tail snd].
  all: try (destruct faults as [|[] ?]); cbn [run cache transactions accounts journal after].
  all: repeat split; reflexivity.
Qed.

(** X25. GetTransaction never changes a repository.  A response
    cached under transaction:<id> is returned as it is, without any
    repository call, when the cache answers; otherwise the response is built
    from the stored transaction, or ErrTransactionNotFound is returned when
    there is none; and with the cache available every response returned is
    cached under that key afterwards. *)
Theorem GetTransaction_reads_through_the_cache `{!GoRuntime}
    (id : string) (tid : vo.TransactionID) (w : World) :
  vo.NewTransactionIDFromString id = inr tid ->
  let '(r, w') := run (GetTransaction id) w in
  transactions w' = transactions w /\ accounts w' = accounts w /\
  (forall resp,
      cacheFails w = false ->
      cache w !! transactionKey id = Some (CachedTransaction resp) ->
      r = inr resp /\ cache w' = cache w /\
      journal w' = CacheGet (transactionKey id) :: journal w) /\
  (forall resp,
      r = inr resp ->
      cache w !! transactionKey id = Some (CachedTransaction resp) \/
      exists t, transactions w !! id = Some t /\
                resp = dto.TransactionMapper.ToResponse t) /\
  (forall e, r = inl e -> e = ErrTransactionNotFound /\ transactions w !! id = None) /\
  (cacheFaults w = [] ->
   forall resp, r = inr resp ->
                cache w' !! transactionKey id = Some (CachedTransaction resp)).
Proof.
  intros Hparse. pose proof (GetTransaction_spec id tid w Hparse) as Hs.
  destruct (run (GetTransaction id) w) as [r w'].
  destruct Hs as (Ht & Ha & Hs). split; [exact Ht|]. split; [exact Ha|].
  split; [|split; [|split]].
  - intros resp Hok Hhit. rewrite Hok, Hhit in Hs. exact Hs.
  - intros resp ->.
    destruct (cacheFails w); [|destruct (cache w !! transactionKey id) as [[?|resp']|]].
    all: try (destruct (transactions w !! id) as [t|]; destruct Hs as [Hr _];
              [injection Hr as ->; right; eauto | discriminate]).
    destruct Hs as [Hr _]. injection Hr as ->. left. reflexivity.
  - intros e ->.
    destruct (cacheFails w); [|destruct (cache w !! transactionKey id) as [[?|resp']|]].
    all: try (destruct (transactions w !! id) as [t|]; destruct Hs as [Hr _];
              [discriminate | injection Hr as ->; auto]).
    destruct Hs as [Hr _]. discriminate.
  - intros Hclear resp ->.
    assert (cacheFails w = false) as Hok by (unfold cacheFails; rewrite Hclear; reflexivity).
    assert (cacheFails (snd (perform (CacheGet (transactionKey id)) w)) = false) as Hok'.
    { cbn [perform]. rewrite Hok. unfold cacheFails.
      destruct (cache w !! transactionKey id); cbn [snd after cacheFaults];
        rewrite Hclear; reflexivity. }
    rewrite Hok, Hok' in Hs.
    destruct (cache w !! transactionKey id) as [[?|resp']|] eqn:Ec.
    all: try (destruct (transactions w !! id) as [t|]; destruct Hs as [Hr Hc];
              [injection Hr as ->; rewrite Hc; apply lookup_insert_eq | discriminate]).
    destruct Hs as (Hr & Hc & _). injection Hr as ->. rewrite Hc. exact Ec.
Qed.

(** What a cancellation of a pending transaction leaves behind. *)
Lemma cancel_pending `{!GoRuntime} (reqID : string) (id : vo.TransactionID)
    (w : World) (t : Transaction.t) :
  vo.NewTransactionIDFromString reqID = inr id ->
  transactions w !! reqID = Some t ->
  Transaction.ID t = id ->
  Transaction.Status t = vo.TransactionStatusPending ->
  let t' := Transaction.withStatus vo.TransactionStatusCancelled
              (Transaction.CompletedAt t) t in
  exists w1,
    run (CancelTransaction (dto.CancelTransactionRequest.mk reqID)) w = (None, w1) /\
    transactions w1 = <[reqID := t']> (transactions w) /\
    accounts w1 = accounts w /\
    cacheFaults w1 = tail (cacheFaults w) /\
    cache w1 = if cacheFails w then cache w
               else <[transactionKey reqID :=
                        CachedTransaction (dto.TransactionMapper.ToResponse t')]> (cache w).
Proof.
  intros Hparse Hstored Hid Hpending. cbv zeta.
  unfold CancelTransaction. cbn [dto.CancelTransactionRequest.ID]. rewrite Hparse.
  pose proof (parsed_id _ _ Hparse) as Hmk. subst id. rewrite Hmk in *.
  prog_unfold. cbn [run bind perform vo.TransactionID.String vo.transaction_id_value].
  rewrite Hstored. cbn [run bind after]. rewrite Hpending.
  unfold Transaction.MarkAsCancelled. rewrite Hpending.
  cbn [vo.TransactionStatus.IsPending vo.TransactionStatus.CanTransitionTo
       vo.TransactionStatusPending vo.TransactionStatusCancelled
       vo.TransactionStatusCompleted vo.TransactionStatusFailed
       String.eqb Ascii.eqb Bool.eqb negb orb run bind perform].
  cbn [Transaction.withStatus Transaction.ID transactions after].
  rewrite Hmk. cbn [vo.TransactionID.String vo.transaction_id_value].
  rewrite Hstored. cbn [run bind perform]. fold (transactionKey reqID).
  unfold cacheFails. cbn [cacheFaults after].
  destruct (cacheFaults w) as [|[] ?]; cbn [run]; eexists; (split; [reflexivity|]);
    cbn [transactions accounts cache cacheFaults after tail]; repeat split;
    rewrite ?Hmk; reflexivity.
Qed.

(** X26. With the cache available, cancelling a PENDING transaction
    succeeds and a GetTransaction that follows returns the CANCELLED
    transaction, answered from the cache without a repository call; no
    account is touched. *)
Theorem cancelled_transaction_reads_back `{!GoRuntime}
    (reqID : string) (id : vo.TransactionID) (w : World) (t : Transaction.t) :
  vo.NewTransactionIDFromString reqID = inr id ->
  transactions w !! reqID = Some t ->
  Transaction.ID t = id ->
  Transaction.Status t = vo.TransactionStatusPending ->
  cacheFaults w = [] ->
  let t' := Transaction.withStatus vo.TransactionStatusCancelled
              (Transaction.CompletedAt t) t in
  exists w1 w2,
    run (CancelTransaction (dto.CancelTransactionRequest.mk reqID)) w = (None, w1) /\
    run (GetTransaction reqID) w1 = (inr (dto.TransactionMapper.ToResponse t'), w2) /\
    dto.TransactionResponse.Status (dto.TransactionMapper.ToResponse t')
      = vo.TransactionStatusCancelled /\
    transactions w2 !! reqID = Some t' /\
    accounts w2 = accounts w /\
    journal w2 = CacheGet (transactionKey reqID) :: journal w1.
Proof.
  intros Hparse Hstored Hid Hpending Hclear. cbv zeta.
  destruct (cancel_pending reqID id w t Hparse Hstored Hid Hpending)
    as (w1 & Hrun & Ht & Ha & Hf & Hc).
  assert (cacheFails w = false) as Hok by (unfold cacheFails; rewrite Hclear; reflexivity).
  rewrite Hok in Hc. rewrite Hclear in Hf. cbn [tail] in Hf.
  pose proof (GetTransaction_spec reqID id w1 Hparse) as Hs.
  destruct (run (GetTransaction reqID) w1) as [r w2] eqn:Hget.
  destruct Hs as (Ht2 & Ha2 & Hs).
  assert (cacheFails w1 = false) as Hok1 by (unfold cacheFails; rewrite Hf; reflexivity).
  rewrite Hok1, Hc, lookup_insert_eq in Hs. destruct Hs as (-> & _ & Hj).
  exists w1, w2. split; [exact Hrun|]. split; [exact Hget|].
  split; [reflexivity|]. split; [|split; [congruence|exact Hj]].
  rewrite Ht2, Ht. apply lookup_insert_eq.
Qed.

(** *** Confirmation *)

Lemma faults_stay_clear {A : Type} (p : Prog A) (w : World) :
  cacheFaults w = [] -> cacheFaults (snd (run p w)) = [].
Proof.
  revert w. induction p as [a|c k IH]; intros w Hclear; [exact Hclear|].
  cbn [run]. destruct (perform c w) as [r w'] eqn:Hp. apply IH.
  destruct c; cbn [perform] in Hp; unfold cacheFails in Hp; rewrite ?Hclear in Hp;
    repeat case_match; simplify_eq; cbn; rewrite ?Hclear; reflexivity.
Qed.

Lemma journal_grows {A : Type} (p : Prog A) (w : World) :
  exists calls, journal (snd (run p w)) = (calls ++ journal w)%list.
Proof.
  revert w. induction p as [a|c k IH]; intros w; [exists []; reflexivity|].
  cbn [run]. destruct (perform c w) as [r w'] eqn:Hp.
  destruct (IH r w') as [calls Hcalls]. rewrite Hcalls.
  assert (journal w' = journal w \/ journal w' = c :: journal w) as [-> | ->].
  { destruct c; cbn [perform] in Hp; repeat case_match; simplify_eq; cbn; auto. }
  - eauto.
  - exists (calls ++ [c])%list. rewrite <- app_assoc. reflexivity.
Qed.

Lemma invalidate_keys (t : Transaction.t) (w : World) :
  let w' := snd (run (invalidateAccountCaches t) w) in
  transactions w' = transactions w /\ accounts w' = accounts w /\
  forall key, (forall id, key <> "account:" ++ id) ->
              cache w' !! key = cache w !! key.
Proof.
  unfold invalidateAccountCaches. prog_unfold.
  destruct (Transaction.FromAccountID t), (Transaction.ToAccountID t).
  all: exec; proj_cbn.
  all: repeat split; try reflexivity.
  all: intros key Hkey; rewrite ?lookup_delete_ne by (intros E; eapply Hkey; eauto);
    reflexivity.
Qed.

Lemma cacheGet_exact (key : string) (w : World) :
  run (cacheGetTransactionResponse key) w =
  (if cacheFails w then inl ErrCacheUnavailable
   else match cache w !! key with
        | Some (CachedTransaction resp) => inr resp
        | Some (CachedLock _) => inl (ErrInfra "cache: cannot decode value")
        | None => inl ErrCacheMiss
        end,
   after (CacheGet key) w (transactions w) (accounts w) (cache w)
         (tail (cacheFaults w))).
Proof.
  unfold cacheGetTransactionResponse. prog_unfold. cbn [run bind perform].
  destruct (cacheFails w); [reflexivity|].
  destruct (cache w !! key) as [[?|?]|]; reflexivity.
Qed.

Lemma confirm_reaches_processing `{!GoRuntime} (reqID : string) (id : vo.TransactionID)
    (w : World) (t : Transaction.t) :
  vo.NewTransactionIDFromString reqID = inr id ->
  cacheFaults w = [] ->
  noCachedResult reqID w ->
  transactions w !! reqID = Some t ->
  Transaction.ID t = id ->
  Transaction.Status t = vo.TransactionStatusPending ->
  let '(perr, wp) := run (processTransaction t) (underLock reqID w) in
  let '(r, w1) := run (ConfirmTransaction (dto.ConfirmTransactionRequest.mk reqID)) w in
  cacheFaults w1 = [] /\ cache w1 !! lockKey reqID = None /\
  accounts w1 = accounts wp /\
  match perr with
  | Some e =>
      r = inl e /\
      transactions w1 =
        <[reqID := Transaction.withStatus vo.TransactionStatusFailed
                     (Transaction.CompletedAt t) t]> (transactions w) /\
      cache w1 = delete (lockKey reqID) (cache (underLock reqID w))
  | None =>
      let t' := Transaction.withStatus vo.TransactionStatusCompleted
                  (Some (clock wp (ticks wp))) t in
      let resp := dto.TransactionMapper.ToResponse t' in
      r = inr resp /\
      transactions w1 = <[reqID := t']> (transactions w) /\
      cache w1 !! idempotencyKey reqID = Some (CachedTransaction resp) /\
      cache w1 !! transactionKey reqID = Some (CachedTransaction resp)
  end.
Proof.
  intros Hparse Hclear Hnone Hstored Hid Hpending.
  pose proof (parsed_id _ _ Hparse) as Hmk. rewrite Hmk in *. clear Hmk id.
  pose proof (process_frame t (underLock reqID w)) as Hframe.
  pose proof (faults_stay_clear (processTransaction t) (underLock reqID w) eq_refl) as Hpf.
  destruct (run (processTransaction t) (underLock reqID w)) as [perr wp] eqn:Hproc.
  cbn [snd] in Hframe, Hpf. destruct Hframe as (Hpt & Hpc & _).
  cbn [underLock transactions cache] in Hpt, Hpc.
  confirm_start Hparse.
  rewrite run_bind, cacheGet_exact.
  match goal with
  | |- context [if cacheFails w then ?x else ?y] =>
      assert (exists miss, (if cacheFails w then x else y) = inl miss) as [miss ->]
  end.
  { rewrite (available _ Hclear).
    fold (idempotencyKey reqID).
    destruct (cache w !! idempotencyKey reqID) as [[stamp|resp]|] eqn:Ec; eauto.
    destruct (Hnone resp Ec). }
  rewrite Hclear. cbn [tail].
  unfold acquireDistributedLock, releaseLock, confirmLocked. prog_unfold.
  cbn [run bind perform]. unfold cacheFails.
  cbn [tail after run bind perform cacheFaults clock ticks cache transactions
       accounts journal negb vo.TransactionID.String vo.transaction_id_value].
  rewrite Hstored, Hpending.
  status_cbn. cbn [run bind].
  match goal with
  | |- context [run _ ?w0] => change w0 with (underLock reqID w)
  end.
  rewrite !run_bind, Hproc.
  destruct perr as [e|].
  - unfold Transaction.MarkAsFailed. rewrite Hpending. status_cbn.
    cbn [run bind perform]. cbn [Transaction.withStatus Transaction.ID].
    rewrite Hid. cbn [vo.TransactionID.String vo.transaction_id_value].
    rewrite Hpt, Hstored. cbn [run bind perform].
    unfold cacheFails. cbn [cacheFaults after]. rewrite Hpf. cbn [run tail].
    cbn [cacheFaults cache accounts transactions after].
    split; [reflexivity|]. split; [apply lookup_delete_eq|]. split; [reflexivity|].
    split; [reflexivity|]. split; [reflexivity|]. rewrite Hpc. reflexivity.
  - cbn [run bind perform].
    unfold Transaction.MarkAsCompleted. rewrite Hpending. status_cbn.
    cbn [run bind perform]. cbn [Transaction.withStatus Transaction.ID transactions].
    rewrite Hid. cbn [vo.TransactionID.String vo.transaction_id_value].
    rewrite Hpt, Hstored. cbn [run bind perform].
    unfold cacheFails. cbn [cacheFaults after]. rewrite Hpf. cbn [run bind perform tail].
    unfold cacheFails. cbn [cacheFaults after tail]. cbn [run bind perform].
    rewrite run_bind.
    set (t' := Transaction.withStatus _ _ t).
    match goal with
    | |- context [run (invalidateAccountCaches t') ?w0] =>
        pose proof (invalidate_keys t' w0) as Hinv;
        pose proof (faults_stay_clear (invalidateAccountCaches t') w0 eq_refl) as Hif;
        destruct (run (invalidateAccountCaches t') w0) as [u wi]
    end.
    cbn [snd transactions accounts cache after] in Hinv, Hif.
    destruct Hinv as (Hit & Hia & Hic).
    cbn [run perform]. unfold cacheFails. rewrite Hif.
    cbn [cacheFaults cache accounts transactions after tail].
    split; [reflexivity|]. split; [apply lookup_delete_eq|]. split; [assumption|].
    split; [reflexivity|]. split; [assumption|].
    unfold idempotencyKey, transactionKey, lockKey.
    rewrite !lookup_delete_ne by discriminate.
    rewrite !Hic by (intros ? ?; discriminate).
    rewrite lookup_insert_ne by discriminate.
    rewrite !lookup_insert_eq. split; reflexivity.
Qed.




(** X28. When ConfirmTransaction succeeds on a PENDING transaction
    (cache available, no result cached), processTransaction has succeeded in
    the state reached under the lock and the account store is the one it
    left; the response is that of the transaction marked COMPLETED at the
    clock reading, which is what the transaction store now holds and what a
    GetTransaction that follows returns; the lock key is gone. *)
Theorem successful_confirmation_commits `{!GoRuntime}
    (reqID : string) (id : vo.TransactionID) (w w1 : World) (t : Transaction.t)
    (resp : dto.TransactionResponse.t) :
  vo.NewTransactionIDFromString reqID = inr id ->
  cacheFaults w = [] ->
  noCachedResult reqID w ->
  transactions w !! reqID = Some t ->
  Transaction.ID t = id ->
  Transaction.Status t = vo.TransactionStatusPending ->
  run (ConfirmTransaction (dto.ConfirmTransactionRequest.mk reqID)) w = (inr resp, w1) ->
  exists wp : World,
    run (processTransaction t) (underLock reqID w) = (None, wp) /\
    accounts w1 = accounts wp /\
    let t' := Transaction.withStatus vo.TransactionStatusCompleted
                (Some (clock wp (ticks wp))) t in
    resp = dto.TransactionMapper.ToResponse t' /\
    transactions w1 = <[reqID := t']> (transactions w) /\
    fst (run (GetTransaction reqID) w1) = inr resp /\
    cache w1 !! lockKey reqID = None.
Proof.
  intros Hparse Hclear Hnone Hstored Hid Hpending Hrun.
  pose proof (confirm_reaches_processing reqID id w t Hparse Hclear Hnone Hstored
                Hid Hpending) as Hc.
  destruct (run (processTransaction t) (underLock reqID w)) as [perr wp].
  rewrite Hrun in Hc. destruct Hc as (Hf1 & Hlock & Ha1 & Hc).
  destruct perr as [e'|]; [destruct Hc; discriminate|].
  cbv zeta in Hc. destruct Hc as (He & Ht1 & Hci & Hct). injection He as ->.
  exists wp. split; [reflexivity|]. split; [exact Ha1|].
  cbv zeta. split; [reflexivity|]. split; [exact Ht1|]. split; [|exact Hlock].
  pose proof (GetTransaction_spec reqID id w1 Hparse) as Hs.
  destruct (run (GetTransaction reqID) w1) as [r w2].
  destruct Hs as (_ & _ & Hs). rewrite (available _ Hf1), Hct in Hs.
  destruct Hs as [-> _]. reflexivity.
Qed.

(** X29. With the cache available and no result cached,
    ConfirmTransaction sets the lock key and, whatever it returns, ends by
    deleting it: afterwards the cache holds nothing under the lock key, also
    when someone else's lock was there before. *)
Theorem lock_is_released_on_every_path `{!GoRuntime}
    (reqID : string) (id : vo.TransactionID) (w : World) :
  vo.NewTransactionIDFromString reqID = inr id ->
  cacheFaults w = [] ->
  noCachedResult reqID w ->
  let w1 := snd (run (ConfirmTransaction (dto.ConfirmTransactionRequest.mk reqID)) w) in
  cache w1 !! lockKey reqID = None /\
  In (CacheSet (lockKey reqID) (CachedLock (clock w (ticks w))) (30 * Second))
     (journal w1) /\
  head (journal w1) = Some (CacheDelete (lockKey reqID)).
Proof.
  intros Hparse Hclear Hnone. cbv zeta.
  pose proof (parsed_id _ _ Hparse) as Hmk. rewrite Hmk in *. clear Hmk id.
  confirm_start Hparse.
  rewrite run_bind, cacheGet_exact.
  match goal with
  | |- context [if cacheFails w then ?x else ?y] =>
      assert (exists miss, (if cacheFails w then x else y) = inl miss) as [miss ->]
  end.
  { rewrite (available _ Hclear). fold (idempotencyKey reqID).
    destruct (cache w !! idempotencyKey reqID) as [[stamp|resp]|] eqn:Ec; eauto.
    destruct (Hnone resp Ec). }
  rewrite Hclear. cbn [tail].
  unfold acquireDistributedLock, releaseLock. prog_unfold.
  cbn [run bind perform]. unfold cacheFails.
  cbn [tail after run bind perform cacheFaults clock ticks cache transactions
       accounts journal negb].
  rewrite run_bind.
  match goal with
  | |- context [run (confirmLocked ?a ?b ?c) ?w0] =>
      pose proof (faults_stay_clear (confirmLocked a b c) w0 eq_refl) as Hf;
      pose proof (journal_grows (confirmLocked a b c) w0) as Hj;
      destruct (run (confirmLocked a b c) w0) as [result wc]
  end.
  cbn [snd] in Hf, Hj. destruct Hj as [calls Hj].
  cbn [run perform]. unfold cacheFails. rewrite Hf.
  cbn [snd cache journal after head]. split; [apply lookup_delete_eq|].
  split; [|reflexivity]. right. rewrite Hj. apply in_or_app. right.
  cbn [journal after]. left. reflexivity.
Qed.

Lemma process_accounts_frame (t : Transaction.t) (w : World) (key : string) :
  wellKeyed w -> foreignTo t key ->
  accounts (snd (run (processTransaction t) w)) !! key = accounts w !! key.
Proof.
  intros [Hacc _] Hforeign. unfold processTransaction.
  destruct (String.eqb _ vo.TransactionTypeDebit);
    [|destruct (String.eqb _ vo.TransactionTypeCredit);
      [|destruct (String.eqb _ vo.TransactionTypeTransfer)]].
  - destruct (Transaction.FromAccountID t) as [fromID|] eqn:Hfrom.
    + pose proof (processDebit_spec t w fromID Hfrom) as Hs.
      destruct (run (processDebitTransaction t) w) as [err w'].
      destruct Hs as (_ & _ & _ & Hs). cbn [snd].
      destruct (accounts w !! vo.AccountID.String fromID) as [a|] eqn:Ea;
        [|destruct Hs as [_ ->]; reflexivity].
      destruct (negb (Account.CanTransact a)); [destruct Hs as [_ ->]; reflexivity|].
      destruct (Account.Debit _ _ a) as [a' [e|]] eqn:Ed;
        [destruct Hs as [_ ->]; reflexivity|].
      apply debit_keeps_identity in Ed as [Eid _].
      rewrite Eid, (Hacc _ _ Ea), Ea in Hs. destruct Hs as [_ ->].
      apply lookup_insert_ne. intros E. eapply Hforeign; eauto.
    + unfold processDebitTransaction. rewrite Hfrom. reflexivity.
  - destruct (Transaction.ToAccountID t) as [toID|] eqn:Hto.
    + pose proof (processCredit_spec t w toID Hto) as Hs.
      destruct (run (processCreditTransaction t) w) as [err w'].
      destruct Hs as (_ & _ & _ & Hs). cbn [snd].
      destruct (accounts w !! vo.AccountID.String toID) as [a|] eqn:Ea;
        [|destruct Hs as [_ ->]; reflexivity].
      destruct (negb (Account.CanTransact a)); [destruct Hs as [_ ->]; reflexivity|].
      destruct (Account.Credit _ _ a) as [a' [e|]] eqn:Ed;
        [destruct Hs as [_ ->]; reflexivity|].
      apply credit_keeps_identity in Ed as [Eid _].
      rewrite Eid, (Hacc _ _ Ea), Ea in Hs. destruct Hs as [_ ->].
      apply lookup_insert_ne. intros E. eapply Hforeign; eauto.
    + unfold processCreditTransaction. rewrite Hto. reflexivity.
  - destruct (Transaction.FromAccountID t) as [fromID|] eqn:Hfrom;
      [destruct (Transaction.ToAccountID t) as [toID|] eqn:Hto|].
    + pose proof (processTransfer_spec t w fromID toID Hfrom Hto) as Hs.
      destruct (run (processTransferTransaction t) w) as [err w'].
      destruct Hs as (_ & _ & _ & Hs). cbn [snd].
      destruct (accounts w !! vo.AccountID.String fromID) as [a|] eqn:Ea;
        [|destruct Hs as [_ ->]; reflexivity].
      destruct (accounts w !! vo.AccountID.String toID) as [b|] eqn:Eb;
        [|destruct Hs as [_ ->]; reflexivity].
      destruct (negb (Account.CanTransact a) || negb (Account.CanTransact b));
        [destruct Hs as [_ ->]; reflexivity|].
      destruct (Account.Debit _ _ a) as [a' [e|]] eqn:Ed;
        [destruct Hs as [_ ->]; reflexivity|].
      destruct (Account.Credit _ _ b) as [b' [e|]] eqn:Ec;
        [destruct Hs as [_ ->]; reflexivity|].
      cbv zeta in Hs.
      apply debit_keeps_identity in Ed as [Eida _].
      apply credit_keeps_identity in Ec as [Eidb _].
      rewrite Eida, Eidb, (Hacc _ _ Ea), (Hacc _ _ Eb), Ea in Hs.
      assert (key <> vo.AccountID.String fromID) by (eapply Hforeign; eauto).
      assert (key <> vo.AccountID.String toID) by (eapply Hforeign; eauto).
      destruct (<[_ := a']> (accounts w) !! vo.AccountID.String toID);
        destruct Hs as [_ ->]; rewrite !lookup_insert_ne by congruence; reflexivity.
    + unfold processTransferTransaction. rewrite Hfrom, Hto. reflexivity.
    + unfold processTransferTransaction. rewrite Hfrom.
      destruct (Transaction.ToAccountID t); reflexivity.
  - reflexivity.
Qed.

Lemma cache_call_stores (c : Call) (w : World) :
  isCacheCall c = true ->
  transactions (snd (perform c w)) = transactions w /\
  accounts (snd (perform c w)) = accounts w.
Proof.
  intros Hc. destruct (perform_cache_call c w Hc) as ((? & ? & _) & _). auto.
Qed.

Lemma confirmLocked_frame `{!GoRuntime} (reqID key : string) (w : World) :
  wellKeyed w ->
  let w' := snd (run (confirmLocked reqID (vo.mkTransactionID reqID) key) w) in
  wellKeyed w' /\
  (forall k, k <> reqID -> transactions w' !! k = transactions w !! k) /\
  (forall k, (forall t, transactions w !! reqID = Some t -> foreignTo t k) ->
             accounts w' !! k = accounts w !! k).
Proof.
  intros Hk. pose proof Hk as [Hacc Htx]. unfold confirmLocked. prog_unfold.
  cbn [run bind perform vo.TransactionID.String vo.transaction_id_value].
  destruct (transactions w !! reqID) as [t|] eqn:Hstored; cbn [run bind after];
    [|cbn [snd]; split; [exact Hk|]; split; reflexivity].
  pose proof (Htx _ _ Hstored) as Hid.
  destruct (vo.TransactionStatus.IsCompleted (Transaction.Status t)).
  { cbn [run bind]. 
    match goal with
    | |- context [perform ?c ?w0] =>
        destruct (cache_call_stores c w0 eq_refl) as [Et Ea];
        destruct (perform c w0) as [r w']
    end.
    cbn [snd run transactions accounts after] in *.
    split; [eapply wellKeyed_same; eassumption|].
    split; intros; rewrite ?Et, ?Ea; reflexivity. }
  destruct (negb (vo.TransactionStatus.CanTransitionTo _ _)).
  { cbn [run snd]. split; [exact Hk|]. split; reflexivity. }
  rewrite run_bind.
  match goal with
  | |- context [run (processTransaction t) ?w0] =>
      pose proof (process_outcome t w0 Hk) as Ho;
      pose proof (fun k => process_accounts_frame t w0 k Hk) as Hframe;
      destruct (run (processTransaction t) w0) as [perr wp]
  end.
  cbn [snd transactions accounts after] in Ho, Hframe.
  destruct Ho as (Hkp & Hpt & _ & _ & _).
  assert (Hstoredp : transactions wp !! reqID = Some t) by (rewrite Hpt; exact Hstored).
  destruct perr as [e|].
  - rewrite run_bind.
    destruct (Transaction.MarkAsFailed t) as [t' [me|]] eqn:Hmark.
    + cbn [run snd]. split; [exact Hkp|]. split.
      * intros; rewrite Hpt; reflexivity.
      * intros k Hfor. apply Hframe. apply Hfor. reflexivity.
    + assert (Transaction.ID t' = Transaction.ID t) as Hid'.
      { unfold Transaction.MarkAsFailed in Hmark.
        destruct (negb _); simplify_eq. reflexivity. }
      cbn [run bind perform]. rewrite Hid', Hid, Hstoredp. cbn [run snd].
      cbn [transactions accounts after]. split; [|split].
      * destruct Hkp as [Hpa Hptx]. split; [exact Hpa|].
        intros k x. cbn [transactions after].
        destruct (decide (reqID = k)) as [<-|Hne].
        -- rewrite lookup_insert_eq. intros [= <-]. congruence.
        -- rewrite lookup_insert_ne by assumption. apply Hptx.
      * intros k Hne. rewrite lookup_insert_ne by congruence. rewrite Hpt. reflexivity.
      * intros k Hfor. apply Hframe. apply Hfor. reflexivity.
  - cbn [run bind perform].
    destruct (Transaction.MarkAsCompleted _ t) as [t' [me|]] eqn:Hmark.
    + cbn [run snd transactions accounts]. split; [exact Hkp|]. split.
      * intros; rewrite Hpt; reflexivity.
      * intros k Hfor. apply Hframe. apply Hfor. reflexivity.
    + assert (Transaction.ID t' = Transaction.ID t) as Hid'.
      { unfold Transaction.MarkAsCompleted in Hmark.
        destruct (negb _); simplify_eq. reflexivity. }
      cbn [run bind perform transactions]. rewrite Hid', Hid, Hstoredp.
      cbn [run bind].
      match goal with
      | |- context [perform (CacheSet ?k1 ?v1 ?e1) ?w0] =>
          destruct (cache_call_stores (CacheSet k1 v1 e1) w0 eq_refl) as [Et1 Ea1];
          destruct (perform (CacheSet k1 v1 e1) w0) as [r1 w1]
      end.
      cbn [run bind snd] in *.
      match goal with
      | |- context [perform (CacheSet ?k2 ?v2 ?e2) w1] =>
          destruct (cache_call_stores (CacheSet k2 v2 e2) w1 eq_refl) as [Et2 Ea2];
          destruct (perform (CacheSet k2 v2 e2) w1) as [r2 w2]
      end.
      cbn [run bind snd] in *. rewrite run_bind.
      pose proof (invalidate_keys t' w2) as (Et3 & Ea3 & _).
      destruct (run (invalidateAccountCaches t') w2) as [u w3].
      cbn [run snd transactions accounts after] in *.
      assert (Et : transactions w3 = <[reqID := t']> (transactions wp)) by congruence.
      assert (Ea : accounts w3 = accounts wp) by congruence.
      split; [|split].
      * destruct Hkp as [Hpa Hptx]. split; [rewrite Ea; exact Hpa|].
        intros k x. rewrite Et.
        destruct (decide (reqID = k)) as [<-|Hne].
        -- rewrite lookup_insert_eq. intros [= <-]. congruence.
        -- rewrite lookup_insert_ne by assumption. apply Hptx.
      * intros k Hne. rewrite Et, lookup_insert_ne by congruence. rewrite Hpt. reflexivity.
      * intros k Hfor. rewrite Ea. apply Hframe. apply Hfor. reflexivity.
Qed.

(** X30. On well keyed stores, for every state of the cache and
    every pattern of cache failures, ConfirmTransaction changes no
    transaction other than the one it names and no account other than the
    source and the destination of that transaction, and leaves the stores
    well keyed. *)
Theorem confirmation_touches_only_its_own `{!GoRuntime}
    (reqID : string) (w : World) :
  wellKeyed w ->
  let w1 := snd (run (ConfirmTransaction (dto.ConfirmTransactionRequest.mk reqID)) w) in
  wellKeyed w1 /\
  (forall key, key <> reqID -> transactions w1 !! key = transactions w !! key) /\
  (forall key, (forall t, transactions w !! reqID = Some t -> foreignTo t key) ->
               accounts w1 !! key = accounts w !! key).
Proof.
  intros Hk. cbv zeta. unfold ConfirmTransaction.
  cbn [dto.ConfirmTransactionRequest.ID].
  destruct (vo.NewTransactionIDFromString reqID) as [e|id] eqn:Hparse.
  { cbn [run mret Prog_ret snd]. split; [exact Hk|]. split; reflexivity. }
  pose proof (parsed_id _ _ Hparse) as ->.
  unfold mbind, Prog_bind, mret, Prog_ret.
  rewrite run_bind, cacheGet_exact.
  set (wa := after (CacheGet _) w _ _ _ _).
  assert (Hka : wellKeyed wa) by exact Hk.
  match goal with |- context [run (match ?r with _ => _ end) wa] => destruct r end;
    [|cbn [run snd]; split; [exact Hk|]; split; reflexivity].
  rewrite run_bind.
  pose proof (acquire_spec ("lock:transaction:" ++ reqID) (30 * Second) wa) as Hacq.
  destruct (run (acquireDistributedLock _ _) wa) as [[acquired err] wb].
  destruct Hacq as ((Htb & Hab & _) & _).
  cbn [transactions accounts after wa] in Htb, Hab.
  assert (Hkb : wellKeyed wb) by (eapply wellKeyed_same; eassumption).
  destruct err as [lockErr|].
  { cbn [run snd]. split; [exact Hkb|]. split; intros; rewrite ?Htb, ?Hab; reflexivity. }
  destruct (negb acquired).
  { cbn [run snd]. split; [exact Hkb|]. split; intros; rewrite ?Htb, ?Hab; reflexivity. }
  rewrite run_bind.
  pose proof (confirmLocked_frame reqID ("confirm_transaction:" ++ reqID) wb Hkb) as Hframe.
  destruct (run (confirmLocked _ _ _) wb) as [result wc].
  cbn [snd] in Hframe. destruct Hframe as (Hkc & Htc & Hac).
  rewrite run_bind. unfold releaseLock, call. cbn [run].
  match goal with
  | |- context [perform ?c wc] =>
      destruct (cache_call_stores c wc eq_refl) as [Etd Ead];
      destruct (perform c wc) as [released wd]
  end.
  cbn [snd run] in *. split; [eapply wellKeyed_same; eassumption|]. split.
  - intros key Hne. rewrite Etd, Htc, Htb by assumption. reflexivity.
  - intros key Hfor. rewrite Ead, Hac, Hab; [reflexivity|].
    intros t Ht. apply Hfor. rewrite <- Htb. exact Ht.
Qed.

(* ===================================================================== *)
(** ** Worked instances of the further properties *)
(* ===================================================================== *)

(** The stores of the examples keep every record under its own identifier. *)
Lemma sample_wellKeyed (t : Transaction.t) (cache0 : gmap string CacheValue) :
  Transaction.ID t = vo.mkTransactionID sample.txnID ->
  wellKeyed (sample.worldWith t cache0).
Proof.
  intros Hid. split; cbn [sample.worldWith accounts transactions].
  - intros key a Hl. apply lookup_insert_Some in Hl as [[<- <-]|[_ Hl]]; [reflexivity|].
    apply lookup_singleton_Some in Hl as [<- <-]. reflexivity.
  - intros key x Hl. apply lookup_singleton_Some in Hl as [<- <-].
    rewrite Hid. reflexivity.
Qed.

(** Crediting 40 to the 100.00 of account A and debiting 40 again gives
    100.00 back. *)
Lemma debit_undoes_credit_witness :
  exists a' a'',
    Account.Credit 2000 (vo.NewMoneyFromInt 40) sample.accountA = (a', None) /\
    Account.Debit 2001 (vo.NewMoneyFromInt 40) a' = (a'', None) /\
    vo.Equal (Account.Balance a'') (Account.Balance sample.accountA) = true /\
    Account.Status a'' = Account.Status sample.accountA /\
    Account.ID a'' = Account.ID sample.accountA.
Proof.
  apply (debit_undoes_credit 2000 2001 (vo.NewMoneyFromInt 40) sample.accountA);
    reflexivity.
Defined.

(** An account opened with 100 is debited 40, suspended, and then asked for
    500 it does not hold. *)
Lemma opened_account_stays_sound_witness :
  let opened := {| Account.ID := sample.idA; Account.AccountName := "A";
                   Account.Balance := vo.NewMoneyFromInt 100;
                   Account.Status := vo.AccountStatusActive;
                   Account.CreatedAt := 5; Account.UpdatedAt := 5 |} in
  let a' := applyAccountOps [OpDebit 6 (vo.NewMoneyFromInt 40); OpSuspend 7;
                             OpDebit 8 (vo.NewMoneyFromInt 500)] opened in
  Account.ID a' = sample.idA /\
  Account.AccountName a' = "A" /\
  Account.AccountName a' <> "" /\
  Account.CreatedAt a' = 5 /\
  vo.IsNegative (Account.Balance a') = false /\
  vo.AccountStatus.IsValid (Account.Status a') = true /\
  Account.CanTransact opened = true /\
  Account.Balance opened = vo.NewMoneyFromInt 100.
Proof.
  apply (opened_account_stays_sound (H := sample.runtime) sample.idA 5 "A"
           (vo.NewMoneyFromInt 100)); reflexivity.
Defined.

(** The sample debit is marked failed, then (in vain) completed, then
    cancelled. *)
Lemma transaction_history_invariants_witness :
  let x' := applyTransactionOps
              [OpMarkAsFailed; OpMarkAsCompleted 9; OpMarkAsCancelled]
              sample.pendingDebit in
  vo.TransactionStatus.IsValid (Transaction.Status x') = true /\
  (Transaction.Status x' = vo.TransactionStatusCompleted <->
   is_Some (Transaction.CompletedAt x')) /\
  sameRequest sample.pendingDebit x' /\
  vo.IsZero (Transaction.Amount x') = false /\
  match Transaction.FromAccountID x', Transaction.ToAccountID x' with
  | Some from, None =>
      Transaction.TransactionType x' = vo.TransactionTypeDebit /\
      vo.AccountID.IsEmpty from = false
  | None, Some to =>
      Transaction.TransactionType x' = vo.TransactionTypeCredit /\
      vo.AccountID.IsEmpty to = false
  | Some from, Some to =>
      Transaction.TransactionType x' = vo.TransactionTypeTransfer /\
      vo.AccountID.IsEmpty from = false /\ vo.AccountID.IsEmpty to = false /\
      from <> to
  | None, None => False
  end.
Proof.
  apply (transaction_history_invariants (H := sample.runtime)).
  left. exists (vo.mkTransactionID sample.txnID), 7, sample.idA,
          (vo.NewMoneyFromInt 40), "withdrawal", "REF001". reflexivity.
Defined.

(** The identifier TXN20240729143045001234. *)
Lemma generated_transaction_ids_are_valid_witness :
  let id := vo.NewTransactionID "20240729143045" 1234 in
  String.length (vo.TransactionID.String id) = 23%nat /\
  vo.TransactionID_IsValid (H := sample.runtime) id = true /\
  vo.NewTransactionIDFromString (H := sample.runtime) (vo.TransactionID.String id)
    = inr id /\
  strconv.ParseInt10_64 (String.substring 17 6 (vo.TransactionID.String id)) = Some 1234.
Proof.
  apply (generated_transaction_ids_are_valid (H := sample.runtime));
    [reflexivity | reflexivity | lia].
Defined.

(** The identifier 2024072900000042. *)
Lemma generated_account_ids_are_valid_witness :
  let id := vo.NewAccountID "20240729" 42 in
  String.length (vo.AccountID.String id) = 16%nat /\
  vo.AccountID_IsValid (H := sample.runtime) id = true /\
  vo.NewAccountIDFromString (H := sample.runtime) (vo.AccountID.String id) = inr id /\
  vo.AccountID.IsEmpty id = false.
Proof.
  apply (generated_account_ids_are_valid (H := sample.runtime));
    [reflexivity | reflexivity | reflexivity | lia].
Defined.

(** The sample transfer goes through the model and comes back without its
    creation time. *)
Lemma transaction_model_roundtrip_witness :
  let x := sample.pendingTransfer in
  let returned (createdAt : Time) : Transaction.t :=
    {| Transaction.ID := Transaction.ID x;
       Transaction.FromAccountID := Transaction.FromAccountID x;
       Transaction.ToAccountID := Transaction.ToAccountID x;
       Transaction.TransactionType := Transaction.TransactionType x;
       Transaction.Amount := Transaction.Amount x;
       Transaction.Description := Transaction.Description x;
       Transaction.Reference := Transaction.Reference x;
       Transaction.Status := Transaction.Status x;
       Transaction.CreatedAt := createdAt;
       Transaction.CompletedAt := Transaction.CompletedAt x |} in
  model.ToDomainTransaction (H := sample.runtime) (model.FromDomainTransaction x)
    = inr (returned model.zeroTime) /\
  model.ToDomainTransaction (H := sample.runtime)
      (model.UpdateTransactionFromDomain 50 sample.transactionRow x)
    = inr (returned (model.Transaction.CreatedAt sample.transactionRow)) /\
  gorm.ID (model.Transaction.Model (model.UpdateTransactionFromDomain 50 sample.transactionRow x))
    = gorm.ID (model.Transaction.Model sample.transactionRow) /\
  gorm.CreatedAt (model.Transaction.Model (model.FromDomainTransaction x))
    = Transaction.CreatedAt x.
Proof.
  apply (transaction_model_roundtrip (H := sample.runtime) sample.pendingTransfer 50
           sample.transactionRow).
  - reflexivity.
  - intros id [= <-]. reflexivity.
  - intros id [= <-]. reflexivity.
Defined.

(** Account A goes through the model and comes back without its two
    timestamps. *)
Lemma account_model_roundtrip_witness :
  let a := sample.accountA in
  let returned (createdAt updatedAt : Time) : Account.t :=
    {| Account.ID := Account.ID a;
       Account.AccountName := Account.AccountName a;
       Account.Balance := Account.Balance a;
       Account.Status := Account.Status a;
       Account.CreatedAt := createdAt;
       Account.UpdatedAt := updatedAt |} in
  model.ToDomainAccount (H := sample.runtime) (model.FromDomainAccount a)
    = inr (returned model.zeroTime model.zeroTime) /\
  model.ToDomainAccount (H := sample.runtime) (model.UpdateAccountFromDomain sample.accountRow a)
    = inr (returned (model.Account.CreatedAt sample.accountRow) (Account.UpdatedAt a)) /\
  model.Account.Model (model.UpdateAccountFromDomain sample.accountRow a)
    = model.Account.Model sample.accountRow /\
  gorm.CreatedAt (model.Account.Model (model.FromDomainAccount a)) = Account.CreatedAt a /\
  gorm.UpdatedAt (model.Account.Model (model.FromDomainAccount a)) = Account.UpdatedAt a.
Proof.
  apply (account_model_roundtrip (H := sample.runtime) sample.accountA sample.accountRow).
  reflexivity.
Defined.


(** 40 go from account A (100.00) to account B (10.00). *)
Lemma transfer_moves_exactly_the_amount_witness :
  let t := sample.pendingTransfer in
  let w := sample.transferWorld in
  let w' := snd (run (processTransaction t) w) in
  exists before after source destination : vo.Money,
    balanceOf sample.idA w = Some before /\ balanceOf sample.idB w = Some source /\
    balanceOf sample.idA w' = Some after /\ balanceOf sample.idB w' = Some destination /\
    after = fst (vo.Subtract before (Transaction.Amount t)) /\
    destination = fst (vo.Add source (Transaction.Amount t)) /\
    vo.IsPositive (Transaction.Amount t) = true /\
    vo.IsNegative after = false /\
    vo.Equal (fst (vo.Add after destination)) (fst (vo.Add before source)) = true /\
    statusOf sample.idA w = Some vo.AccountStatusActive /\
    statusOf sample.idB w = Some vo.AccountStatusActive /\
    (forall key, key <> vo.AccountID.String sample.idA ->
                 key <> vo.AccountID.String sample.idB ->
                 accounts w' !! key = accounts w !! key).
Proof.
  apply (transfer_moves_exactly_the_amount sample.pendingTransfer
           sample.transferWorld _ sample.idA sample.idB);
    [reflexivity | reflexivity | reflexivity | discriminate
    | apply sample_wellKeyed; reflexivity | vm_compute; reflexivity].
Defined.

(** The sample debit takes 40 from account A. *)
Lemma single_account_processing_witness :
  let t := sample.pendingDebit in
  let w := sample.world in
  let w' := snd (run (processTransaction t) w) in
  exists before : vo.Money,
    balanceOf sample.idA w = Some before /\
    statusOf sample.idA w = Some vo.AccountStatusActive /\
    vo.IsPositive (Transaction.Amount t) = true /\
    balanceOf sample.idA w' =
      Some (if String.eqb (Transaction.TransactionType t) vo.TransactionTypeDebit
            then fst (vo.Subtract before (Transaction.Amount t))
            else fst (vo.Add before (Transaction.Amount t))) /\
    (String.eqb (Transaction.TransactionType t) vo.TransactionTypeDebit = true ->
     vo.LessThanOrEqual (Transaction.Amount t) before = true) /\
    statusOf sample.idA w' = Some vo.AccountStatusActive /\
    (forall key, key <> vo.AccountID.String sample.idA ->
                 accounts w' !! key = accounts w !! key).
Proof.
  apply (single_account_processing sample.pendingDebit sample.world);
    [apply sample_wellKeyed; reflexivity | vm_compute; reflexivity
    | left; split; reflexivity].
Defined.

(** A transfer of 40 from account A to account A leaves it 140.00. *)
Lemma same_account_transfer_credits_witness :
  exists w',
    run (processTransaction sample.selfTransfer) sample.world = (None, w') /\
    balanceOf sample.idA w' =
      Some (fst (vo.Add (Account.Balance sample.accountA) (Transaction.Amount sample.selfTransfer))) /\
    vo.GreaterThan
      (fst (vo.Add (Account.Balance sample.accountA) (Transaction.Amount sample.selfTransfer)))
      (Account.Balance sample.accountA) = true.
Proof.
  apply (same_account_transfer_credits sample.selfTransfer sample.world
           sample.idA sample.accountA);
    [reflexivity | reflexivity | reflexivity | apply sample_wellKeyed; reflexivity
    | reflexivity | reflexivity | reflexivity | reflexivity].
Defined.


(** TXN-1 is no transaction identifier. *)
Lemma malformed_id_makes_no_call_witness :
  ErrInvalidTransactionID = ErrInvalidTransactionID /\
  run (ConfirmTransaction (H := sample.runtime) (dto.ConfirmTransactionRequest.mk "TXN-1"))
      sample.world = (inl ErrInvalidTransactionID, sample.world) /\
  run (CancelTransaction (H := sample.runtime) (dto.CancelTransactionRequest.mk "TXN-1"))
      sample.world = (Some ErrInvalidTransactionID, sample.world) /\
  run (GetTransaction (H := sample.runtime) "TXN-1") sample.world
    = (inl ErrInvalidTransactionID, sample.world).
Proof.
  apply (malformed_id_makes_no_call (H := sample.runtime) "TXN-1"
           ErrInvalidTransactionID sample.world).
  reflexivity.
Defined.

(** Reading the sample transaction with an empty cache. *)
Lemma GetTransaction_reads_through_the_cache_witness :
  let id := sample.txnID in
  let w := sample.world in
  let '(r, w') := run (GetTransaction (H := sample.runtime) id) w in
  transactions w' = transactions w /\ accounts w' = accounts w /\
  (forall resp,
      cacheFails w = false ->
      cache w !! transactionKey id = Some (CachedTransaction resp) ->
      r = inr resp /\ cache w' = cache w /\
      journal w' = CacheGet (transactionKey id) :: journal w) /\
  (forall resp,
      r = inr resp ->
      cache w !! transactionKey id = Some (CachedTransaction resp) \/
      exists t, transactions w !! id = Some t /\
                resp = dto.TransactionMapper.ToResponse (H := sample.runtime) t) /\
  (forall e, r = inl e -> e = ErrTransactionNotFound /\ transactions w !! id = None) /\
  (cacheFaults w = [] ->
   forall resp, r = inr resp ->
                cache w' !! transactionKey id = Some (CachedTransaction resp)).
Proof.
  apply (GetTransaction_reads_through_the_cache (H := sample.runtime) sample.txnID
           (vo.mkTransactionID sample.txnID) sample.world).
  reflexivity.
Defined.

(** The sample debit is cancelled and read back. *)
Lemma cancelled_transaction_reads_back_witness :
  let reqID := sample.txnID in
  let w := sample.world in
  let t := sample.pendingDebit in
  let t' := Transaction.withStatus vo.TransactionStatusCancelled
              (Transaction.CompletedAt t) t in
  exists w1 w2,
    run (CancelTransaction (H := sample.runtime)
           (dto.CancelTransactionRequest.mk reqID)) w = (None, w1) /\
    run (GetTransaction (H := sample.runtime) reqID) w1
      = (inr (dto.TransactionMapper.ToResponse (H := sample.runtime) t'), w2) /\
    dto.TransactionResponse.Status (dto.TransactionMapper.ToResponse (H := sample.runtime) t')
      = vo.TransactionStatusCancelled /\
    transactions w2 !! reqID = Some t' /\
    accounts w2 = accounts w /\
    journal w2 = CacheGet (transactionKey reqID) :: journal w1.
Proof.
  apply (cancelled_transaction_reads_back (H := sample.runtime) sample.txnID
           (vo.mkTransactionID sample.txnID) sample.world sample.pendingDebit);
    reflexivity.
Defined.


(** Confirming the sample debit. *)
Lemma successful_confirmation_commits_witness :
  let reqID := sample.txnID in
  let w := sample.world in
  let t := sample.pendingDebit in
  let w1 := snd (run sample.confirmSample w) in
  exists wp : World,
    run (processTransaction t) (underLock reqID w) = (None, wp) /\
    accounts w1 = accounts wp /\
    let t' := Transaction.withStatus vo.TransactionStatusCompleted
                (Some (clock wp (ticks wp))) t in
    sample.completedResponse = dto.TransactionMapper.ToResponse (H := sample.runtime) t' /\
    transactions w1 = <[reqID := t']> (transactions w) /\
    fst (run (GetTransaction (H := sample.runtime) reqID) w1)
      = inr sample.completedResponse /\
    cache w1 !! lockKey reqID = None.
Proof.
  apply (successful_confirmation_commits (H := sample.runtime) sample.txnID
           (vo.mkTransactionID sample.txnID) sample.world _ sample.pendingDebit
           sample.completedResponse);
    [reflexivity | reflexivity | intros r Hr; discriminate Hr | reflexivity
    | reflexivity | reflexivity | vm_compute; reflexivity].
Defined.

(** The lock someone else held is gone after the confirmation. *)
Lemma lock_is_released_on_every_path_witness :
  let reqID := sample.txnID in
  let w := sample.worldWithLockHeld in
  let w1 := snd (run sample.confirmSample w) in
  cache w1 !! lockKey reqID = None /\
  In (CacheSet (lockKey reqID) (CachedLock (clock w (ticks w))) (30 * Second))
     (journal w1) /\
  head (journal w1) = Some (CacheDelete (lockKey reqID)).
Proof.
  apply (lock_is_released_on_every_path (H := sample.runtime) sample.txnID
           (vo.mkTransactionID sample.txnID) sample.worldWithLockHeld);
    [reflexivity | reflexivity | ].
  intros r Hr. vm_compute in Hr. discriminate Hr.
Defined.

(** Confirming the sample debit leaves account B alone. *)
Lemma confirmation_touches_only_its_own_witness :
  let reqID := sample.txnID in
  let w := sample.world in
  let w1 := snd (run sample.confirmSample w) in
  wellKeyed w1 /\
  (forall key, key <> reqID -> transactions w1 !! key = transactions w !! key) /\
  (forall key, (forall t, transactions w !! reqID = Some t -> foreignTo t key) ->
               accounts w1 !! key = accounts w !! key).
Proof.
  apply (confirmation_touches_only_its_own (H := sample.runtime) sample.txnID sample.world).
  apply sample_wellKeyed. reflexivity.
Defined.
